(** * RustyDB WebSocket client (examples/websocket_client.py)

    A shallow embedding of [RustyDBWebSocketClient] and of the two example
    drivers that contain loops ([example_7_reconnection] and
    [example_8_streaming_results]), followed by the properties of the
    session protocol that the specification states about them.

    The client is a Python object whose methods mutate [self] and talk to a
    websocket; we model it with explicit state passing.  A method is a
    function from the machine state (the client object together with the
    outside world: network, clock, random source, terminal) to an outcome
    and a new machine state.  A Python exception keeps every mutation made
    before it was raised, so the state is returned next to the outcome and
    not inside it. *)

From Stdlib Require Import ZArith String Ascii List Lia Bool.
From stdpp Require Import base list.
Import ListNotations.
Local Open Scope string_scope.
Local Open Scope Z_scope.
Set Warnings "-register-all".

(** ** JSON values

    The values [json.loads] can produce and [json.dumps] accepts.  Python's
    [None] is [JNull].  Numbers are kept to integers: no claim below looks
    inside a number.  An object is kept as its list of members in insertion
    order; a Python dict holds each key once, and lookup returns the first
    binding. *)

Inductive JSON : Type :=
| JNull
| JBool (b : bool)
| JNum (n : Z)
| JStr (s : string)
| JArr (items : list JSON)
| JObj (members : list (string * JSON)).

(** Python truthiness, as used by [if not response] and [response and ...]. *)
Definition truthy (v : JSON) : bool :=
  match v with
  | JNull => false
  | JBool b => b
  | JNum n => negb (n =? 0)
  | JStr s => negb (String.eqb s "")
  | JArr items => match items with [] => false | _ => true end
  | JObj members => match members with [] => false | _ => true end
  end.

(** [v == "literal"] for a string literal. *)
Definition eq_str (v : JSON) (lit : string) : bool :=
  match v with
  | JStr s => String.eqb s lit
  | _ => false
  end.

Fixpoint assoc (key : string) (members : list (string * JSON)) : option JSON :=
  match members with
  | [] => None
  | (k, v) :: rest => if String.eqb k key then Some v else assoc key rest
  end.

(** ** Exceptions *)

Inductive Exn : Type :=
| RuntimeError (msg : string)
| KeyError (key : string)
| TypeError
| AttributeError
| TimeoutError          (* asyncio.TimeoutError *)
| JSONDecodeError       (* json.JSONDecodeError *)
| UnicodeDecodeError
| RecursionError
| ValueError            (* a ValueError that is neither of the two above *)
| TransportError.       (* anything the websockets library raises *)

Inductive Outcome (A : Type) : Type :=
| Return (a : A)
| Raise (e : Exn)
| Blocked.              (* an await that never completes *)
Arguments Return {A} a.
Arguments Raise {A} e.
Arguments Blocked {A}.

(** [v[key]], [v.get(key, default)] and [len(v)]. *)
Definition getitem (v : JSON) (key : string) : Outcome JSON :=
  match v with
  | JObj members =>
      match assoc key members with
      | Some x => Return x
      | None => Raise (KeyError key)
      end
  | _ => Raise TypeError
  end.

Definition dict_get (v : JSON) (key : string) (default : JSON) : Outcome JSON :=
  match v with
  | JObj members =>
      match assoc key members with
      | Some x => Return x
      | None => Return default
      end
  | _ => Raise AttributeError
  end.

Definition len (v : JSON) : Outcome nat :=
  match v with
  | JStr s => Return (String.length s)
  | JArr items => Return (List.length items)
  | JObj members => Return (List.length members)
  | _ => Raise TypeError
  end.

(** ** Text on the wire

    What [recv] hands over ([str] for a text frame, [bytes] for a binary
    one) is kept up to what [json.loads] makes of it. [json.dumps] of a
    value is [Encoded], and [json.loads] inverts it. Of the rest,
    [json.loads] rejects most with [JSONDecodeError]; it raises
    [UnicodeDecodeError] on bytes that are not text in UTF-8, -16 or -32,
    [RecursionError] on text nested deeper than the interpreter's recursion
    limit, and a plain [ValueError] on an integer literal with more digits
    than the interpreter converts. *)

Inductive WireText : Type :=
| Encoded (j : JSON)
| Garbled (raw : string)
| NotText
| TooDeep
| TooManyDigits.

Definition json_dumps (j : JSON) : WireText := Encoded j.

Definition json_loads (t : WireText) : Outcome JSON :=
  match t with
  | Encoded j => Return j
  | Garbled _ => Raise JSONDecodeError
  | NotText => Raise UnicodeDecodeError
  | TooDeep => Raise RecursionError
  | TooManyDigits => Raise ValueError
  end.

(** ** The outside world

    Time is a virtual clock counted in whole seconds; every duration in the
    source (1.0, 5.0, 10.0, 60.0 and doublings of 1.0) is a whole number of
    seconds.  What a connection will deliver is a script: each entry says
    when it reaches this side, and the entries reach it in order. A frame
    comes with its length in bytes. *)

Inductive Arrival : Type :=
| Arrives (at_time : Z) (size : Z) (text : WireText)   (* a frame from the server *)
| Drops (at_time : Z).                                 (* the connection is lost *)

Definition arrival_time (a : Arrival) : Z :=
  match a with
  | Arrives t _ _ => t
  | Drops t => t
  end.

(** A [float] given as a timeout: a whole number of seconds, or one of the
    three values that are no number of seconds. *)
Inductive Duration : Type :=
| Secs (d : Z)
| Inf
| NegInf
| NaN.

Record Socket : Type := mkSocket {
  inbound : list Arrival;          (* not yet read, in order *)
  outbox : list WireText;          (* everything sent, oldest first *)
  closed : bool                    (* closed by this side *)
}.

(** What is printed: one constructor per [print] call site of the modelled
    code (the three calls that print an example's banner are one line). *)
Inductive Line : Type :=
| Connecting (url : string)
| ConnectedOk
| ConnectionFailed (e : Exn)
| NoTokenProvided
| SentAuthentication
| AuthenticationSuccessful
| AuthenticationFailed (payload : JSON)
| TimeoutWaiting
| FailedToParse
| ConnectionClosed
| Banner (title : string)
| MaxRetriesReached (max_retries : Z)
| AttemptFailed (retry_count max_retries : Z) (e : Exn)
| RetryingIn (retry_delay : Z)
| Executing (sql : string)
| NoMoreMessages
| ReceivedBatch (rows total : Z)
| AllResultsReceived
| ErrorMessage (message : JSON).

Record World : Type := mkWorld {
  now : Z;                                  (* virtual clock *)
  wallclock : Z -> string;                  (* isoformat() of a clock reading *)
  entropy : nat -> Z;                       (* os.urandom, draw by draw *)
  drawn : nat;                              (* draws made so far *)
  dial : list (option (list Arrival));      (* outcomes of the coming
                                               websockets.connect calls: a
                                               script for the new connection,
                                               or failure *)
  dialled : nat;                            (* websockets.connect calls made *)
  sockets : list Socket;                    (* connections opened; a handle is
                                               an index *)
  stdout : list Line;                       (* oldest first *)
  slept : list Z;                           (* asyncio.sleep durations *)
  nan_timer : Z -> option Z                 (* when a timer set for nan
                                               seconds at a clock reading
                                               fires, if ever: the event loop
                                               orders it against its other
                                               timers by comparisons that nan
                                               fails *)
}.

(** ** The client object *)

Record Client : Type := mkClient {
  url : string;
  auth_token : option string;
  auto_reconnect : bool;
  max_reconnect_attempts : Z;
  websocket : option nat;
  reconnect_count : Z;
  authenticated : bool
}.

(** [RustyDBWebSocketClient.__init__]. *)
Definition init (url : string) (auth_token : option string)
    (auto_reconnect : bool) (max_reconnect_attempts : Z) : Client :=
  {| url := url;
     auth_token := auth_token;
     auto_reconnect := auto_reconnect;
     max_reconnect_attempts := max_reconnect_attempts;
     websocket := None;
     reconnect_count := 0;
     authenticated := false |}.

Definition default_url : string := "ws://localhost:8080/api/v1/stream".

(** [RustyDBWebSocketClient()] with every default. *)
Definition default_client : Client := init default_url None true 5.

(** [if self.auth_token]: neither [None] nor the empty string. *)
Definition has_token (c : Client) : bool :=
  match auth_token c with
  | Some t => negb (String.eqb t "")
  | None => false
  end.

Record Machine : Type := mkMachine {
  self : Client;
  world : World
}.

(** ** The monad of method bodies *)

Definition Py (A : Type) : Type := Machine -> Outcome A * Machine.

Definition ret {A} (a : A) : Py A := fun m => (Return a, m).

Definition bind {A B} (c : Py A) (k : A -> Py B) : Py B :=
  fun m =>
    match c m with
    | (Return a, m') => k a m'
    | (Raise e, m') => (Raise e, m')
    | (Blocked, m') => (Blocked, m')
    end.

Definition raise {A} (e : Exn) : Py A := fun m => (Raise e, m).

(** [try: body except ...: handler]; a handler that does not catch [e]
    re-raises it. *)
Definition try_except {A} (body : Py A) (handler : Exn -> Py A) : Py A :=
  fun m =>
    match body m with
    | (Raise e, m') => handler e m'
    | r => r
    end.

(** A pure computation that may raise. *)
Definition lift {A} (o : Outcome A) : Py A := fun m => (o, m).

Declare Scope py_scope.
Delimit Scope py_scope with py.
Notation "x <- c ;; k" := (bind c (fun x => k))
  (at level 100, c at next level, right associativity) : py_scope.
Notation "c ;; k" := (bind c (fun _ => k))
  (at level 100, right associativity) : py_scope.
Local Open Scope py_scope.

Definition get_self : Py Client := fun m => (Return (self m), m).
Definition set_self (f : Client -> Client) : Py unit :=
  fun m => (Return tt, {| self := f (self m); world := world m |}).
Definition get_world : Py World := fun m => (Return (world m), m).
Definition set_world (f : World -> World) : Py unit :=
  fun m => (Return tt, {| self := self m; world := f (world m) |}).

Definition set_websocket (ws : option nat) (c : Client) : Client :=
  {| url := url c; auth_token := auth_token c;
     auto_reconnect := auto_reconnect c;
     max_reconnect_attempts := max_reconnect_attempts c;
     websocket := ws;
     reconnect_count := reconnect_count c;
     authenticated := authenticated c |}.

Definition set_reconnect_count (n : Z) (c : Client) : Client :=
  {| url := url c; auth_token := auth_token c;
     auto_reconnect := auto_reconnect c;
     max_reconnect_attempts := max_reconnect_attempts c;
     websocket := websocket c;
     reconnect_count := n;
     authenticated := authenticated c |}.

Definition set_authenticated (b : bool) (c : Client) : Client :=
  {| url := url c; auth_token := auth_token c;
     auto_reconnect := auto_reconnect c;
     max_reconnect_attempts := max_reconnect_attempts c;
     websocket := websocket c;
     reconnect_count := reconnect_count c;
     authenticated := b |}.

(** ** World operations *)

Definition with_stdout (out : list Line) (w : World) : World :=
  {| now := now w; wallclock := wallclock w; entropy := entropy w;
     drawn := drawn w; dial := dial w; dialled := dialled w;
     sockets := sockets w; stdout := out; slept := slept w;
     nan_timer := nan_timer w |}.

Definition with_now (t : Z) (w : World) : World :=
  {| now := t; wallclock := wallclock w; entropy := entropy w;
     drawn := drawn w; dial := dial w; dialled := dialled w;
     sockets := sockets w; stdout := stdout w; slept := slept w;
     nan_timer := nan_timer w |}.

Definition with_drawn (n : nat) (w : World) : World :=
  {| now := now w; wallclock := wallclock w; entropy := entropy w;
     drawn := n; dial := dial w; dialled := dialled w;
     sockets := sockets w; stdout := stdout w; slept := slept w;
     nan_timer := nan_timer w |}.

Definition with_sockets (ss : list Socket) (w : World) : World :=
  {| now := now w; wallclock := wallclock w; entropy := entropy w;
     drawn := drawn w; dial := dial w; dialled := dialled w;
     sockets := ss; stdout := stdout w; slept := slept w;
     nan_timer := nan_timer w |}.

Definition with_dial (d : list (option (list Arrival))) (n : nat) (w : World) : World :=
  {| now := now w; wallclock := wallclock w; entropy := entropy w;
     drawn := drawn w; dial := d; dialled := n;
     sockets := sockets w; stdout := stdout w; slept := slept w;
     nan_timer := nan_timer w |}.

Definition with_slept (s : list Z) (w : World) : World :=
  {| now := now w; wallclock := wallclock w; entropy := entropy w;
     drawn := drawn w; dial := dial w; dialled := dialled w;
     sockets := sockets w; stdout := stdout w; slept := s;
     nan_timer := nan_timer w |}.

Definition print (l : Line) : Py unit :=
  set_world (fun w => with_stdout (stdout w ++ [l]) w).

(** [asyncio.sleep(d)]. *)
Definition sleep (d : Z) : Py unit :=
  set_world (fun w => with_slept (slept w ++ [d]) (with_now (now w + d) w)).

(** [datetime.now(timezone.utc).isoformat()]. *)
Definition timestamp : Py string :=
  fun m => (Return (wallclock (world m) (now (world m))), m).

(** ** The websockets library, against the world *)

Definition set_inbound (rest : list Arrival) (s : Socket) : Socket :=
  {| inbound := rest; outbox := outbox s; closed := closed s |}.

Definition set_outbox (out : list WireText) (s : Socket) : Socket :=
  {| inbound := inbound s; outbox := out; closed := closed s |}.

Definition set_closed (b : bool) (s : Socket) : Socket :=
  {| inbound := inbound s; outbox := outbox s; closed := b |}.

(** [websockets.connect(url)]: consumes one entry of the dial script; an
    exhausted script refuses the connection. *)
Definition websockets_connect (_ : string) : Py nat :=
  fun m =>
    let w := world m in
    match dial w with
    | Some script :: later =>
        (Return (List.length (sockets w)),
         {| self := self m;
            world := with_sockets (sockets w ++ [mkSocket script [] false])
                       (with_dial later (S (dialled w)) w) |})
    | None :: later =>
        (Raise TransportError,
         {| self := self m; world := with_dial later (S (dialled w)) w |})
    | [] =>
        (Raise TransportError,
         {| self := self m; world := with_dial [] (S (dialled w)) w |})
    end.

(** [websockets.connect(url)] leaves [max_size] at its default: the
    library fails the connection on a frame longer than 1 MiB. *)
Definition max_size : Z := 2 ^ 20.

(** The library reads ahead of [recv]. By clock reading [t] it has found
    the connection lost when the loss, or a frame longer than [max_size],
    has reached this side, and so has everything in line before it. *)
Fixpoint lost (line : list Arrival) (t : Z) : bool :=
  match line with
  | [] => false
  | Drops at_time :: _ => at_time <=? t
  | Arrives at_time size _ :: rest =>
      (at_time <=? t) && ((max_size <? size) || lost rest t)
  end.

Definition hung_up (s : Socket) (t : Z) : bool := lost (inbound s) t.

(** [websocket.send(text)]. *)
Definition ws_send (h : nat) (text : WireText) : Py unit :=
  fun m =>
    let w := world m in
    match sockets w !! h with
    | Some s =>
        if closed s || hung_up s (now w) then (Raise TransportError, m)
        else (Return tt,
              {| self := self m;
                 world := with_sockets
                            (<[h := set_outbox (outbox s ++ [text]) s]> (sockets w)) w |})
    | None => (Raise TransportError, m)
    end.

(** [timeout <= 0], on which [asyncio.wait_for] cancels what it was given
    before that has begun to run; [nan] and [inf] fail the test. *)
Definition expired (timeout : option Duration) : bool :=
  match timeout with
  | Some (Secs d) => d <=? 0
  | Some NegInf => true
  | _ => false
  end.

(** The clock reading at which the timer of [asyncio.wait_for] fires, if
    it ever does: not without a timeout, and not when that is [inf]. A
    timer set for [nan] is kept in the event loop's heap of timers, which
    is ordered by comparisons that [nan] fails either way: it fires once
    it has come to the top of the heap, and when that is depends on the
    other timers the loop holds (those of the library's keepalive among
    them). The world says when. *)
Definition fires (w : World) (timeout : option Duration) : option Z :=
  match timeout with
  | Some (Secs d) => Some (now w + d)
  | Some NaN =>
      match nan_timer w (now w) with
      | Some t => Some (Z.max (now w) t)
      | None => None
      end
  | _ => None
  end.

(** The arrival is there before the timer fires: it is already there, or
    it comes sooner. *)
Definition beats (a : Arrival) (w : World) (timer : option Z) : bool :=
  match timer with
  | Some t => (arrival_time a <? t) || (arrival_time a <=? now w)
  | None => true
  end.

(** [websocket.recv()], alone ([timeout = None]) or under
    [asyncio.wait_for(..., timeout=d)] ([timeout = Some d]).  The next
    arrival is delivered if it is there before the timer fires; otherwise
    the wait ends with [TimeoutError] when the timer fires, and the arrival
    stays in line for the next [recv]. A frame longer than [max_size] is
    not delivered: the connection fails on it. *)
Definition ws_recv (h : nat) (timeout : option Duration) : Py WireText :=
  fun m =>
    let w := world m in
    if expired timeout then (Raise TimeoutError, m)
    else
      match sockets w !! h with
      | Some s =>
          if closed s then (Raise TransportError, m)
          else
            let gives_up :=
              match fires w timeout with
              | Some t =>
                  (Raise TimeoutError,
                   {| self := self m; world := with_now t w |})
              | None => (Blocked, m)
              end in
            match inbound s with
            | a :: rest =>
                if beats a w (fires w timeout) then
                  let w' := with_now (Z.max (now w) (arrival_time a)) w in
                  match a with
                  | Arrives _ size text =>
                      if size <=? max_size then
                        (Return text,
                         {| self := self m;
                            world := with_sockets
                                       (<[h := set_inbound rest s]> (sockets w'))
                                       w' |})
                      else
                        (Raise TransportError, {| self := self m; world := w' |})
                  | Drops _ =>
                      (Raise TransportError, {| self := self m; world := w' |})
                  end
                else gives_up
            | [] => gives_up
            end
      | None => (Raise TransportError, m)
      end.

(** [websocket.close()]: idempotent in the library, never raises. *)
Definition ws_close (h : nat) : Py unit :=
  fun m =>
    let w := world m in
    match sockets w !! h with
    | Some s =>
        (Return tt,
         {| self := self m;
            world := with_sockets (<[h := set_closed true s]> (sockets w)) w |})
    | None => (Return tt, m)
    end.

(** ** [str(uuid.uuid4())]

    [uuid4] takes 16 random bytes as a 128-bit integer, clears the variant
    and version bits and sets them to RFC 4122 and 4; [str] prints the
    integer as 32 lower-case hexadecimal digits cut 8-4-4-4-12. *)

Definition uuid4_int (random : Z) : Z :=
  let i := random mod 2 ^ 128 in
  let i := Z.land i (Z.lnot (Z.shiftl 0xc000 48)) in
  let i := Z.lor i (Z.shiftl 0x8000 48) in
  let i := Z.land i (Z.lnot (Z.shiftl 0xf000 64)) in
  Z.lor i (Z.shiftl 4 76).

Definition hexdigit (d : Z) : ascii :=
  match String.get (Z.to_nat d) "0123456789abcdef" with
  | Some c => c
  | None => "0"%char
  end.

(** ['%0*x' % (width, n)] for [0 <= n < 16 ^ width]. *)
Fixpoint hex (width : nat) (n : Z) : string :=
  match width with
  | O => ""
  | S w => (hex w (n / 16) ++ String (hexdigit (n mod 16)) "")%string
  end.

Definition uuid_str (i : Z) : string :=
  let h := hex 32 i in
  (substring 0 8 h ++ "-" ++ substring 8 4 h ++ "-" ++ substring 12 4 h
     ++ "-" ++ substring 16 4 h ++ "-" ++ substring 20 12 h)%string.

Definition uuid4_str : Py string :=
  fun m =>
    let w := world m in
    (Return (uuid_str (uuid4_int (entropy w (drawn w)))),
     {| self := self m; world := with_drawn (S (drawn w)) w |}).

(** ** Methods of [RustyDBWebSocketClient] *)

Definition not_connected : Exn := RuntimeError "Not connected to server".

(** [send_message]. *)
Definition send_message (message : JSON) : Py unit :=
  c <- get_self;;
  match websocket c with
  | None => raise not_connected
  | Some h => ws_send h (json_dumps message)
  end.

(** [if timeout:] is false for [None] and for [0.0], and true for every
    other float, [nan] and the infinities included. *)
Definition effective_timeout (timeout : option Duration) : option Duration :=
  match timeout with
  | Some (Secs d) => if d =? 0 then None else Some (Secs d)
  | Some other => Some other
  | None => None
  end.

(** [receive_message]; the default of [timeout] is [5.0]. *)
Definition receive_message (timeout : option Duration) : Py JSON :=
  c <- get_self;;
  match websocket c with
  | None => raise not_connected
  | Some h =>
      try_except
        (message_text <- ws_recv h (effective_timeout timeout);;
         lift (json_loads message_text))
        (fun e =>
           match e with
           | TimeoutError => print TimeoutWaiting;; ret JNull
           | JSONDecodeError => print FailedToParse;; ret JNull
           | _ => raise e
           end)
  end.

Definition default_timeout : option Duration := Some (Secs 5).

(** [response and response["type"] == lit]. *)
Definition and_type_is (response : JSON) (lit : string) : Py bool :=
  if truthy response then
    ty <- lift (getitem response "type");;
    ret (eq_str ty lit)
  else ret false.

Definition token_json (c : Client) : JSON :=
  match auth_token c with
  | Some t => JStr t
  | None => JNull
  end.

Definition auth_envelope (token : JSON) (ts id : string) : JSON :=
  JObj [("type", JStr "auth");
        ("payload", JObj [("token", token)]);
        ("timestamp", JStr ts);
        ("id", JStr id)].

(** [authenticate]. *)
Definition authenticate : Py bool :=
  c <- get_self;;
  if negb (has_token c) then
    print NoTokenProvided;;
    ret false
  else
    ts <- timestamp;;
    id <- uuid4_str;;
    send_message (auth_envelope (token_json c) ts id);;
    print SentAuthentication;;
    response <- receive_message default_timeout;;
    ok <- and_type_is response "auth_success";;
    if ok then
      print AuthenticationSuccessful;;
      set_self (set_authenticated true);;
      ret true
    else
      refused <- and_type_is response "auth_error";;
      if refused then
        payload <- lift (dict_get response "payload" (JObj []));;
        print (AuthenticationFailed payload);;
        set_self (set_authenticated false);;
        ret false
      else ret false.

(** [connect]. *)
Definition connect : Py unit :=
  c <- get_self;;
  print (Connecting (url c));;
  try_except
    (ws <- websockets_connect (url c);;
     set_self (set_websocket (Some ws));;
     print ConnectedOk;;
     (if has_token c then (_ <- authenticate;; ret tt) else ret tt);;
     set_self (set_reconnect_count 0))
    (fun e =>
       print (ConnectionFailed e);;
       raise e).

(** [params or []]. *)
Definition params_or_empty (params : option (list JSON)) : JSON :=
  match params with
  | Some (p :: ps) => JArr (p :: ps)
  | _ => JArr []
  end.

Definition query_envelope (sql : string) (params : JSON) (streaming : bool)
    (ts id : string) : JSON :=
  JObj [("type", JStr "query");
        ("payload", JObj [("sql", JStr sql);
                          ("params", params);
                          ("streaming", JBool streaming)]);
        ("timestamp", JStr ts);
        ("id", JStr id)].

(** [execute_query]; the default of [streaming] is [true]. *)
Definition execute_query (sql : string) (params : option (list JSON))
    (streaming : bool) : Py JSON :=
  ts <- timestamp;;
  id <- uuid4_str;;
  send_message (query_envelope sql (params_or_empty params) streaming ts id);;
  receive_message default_timeout.

Definition ping_envelope (ts : string) : JSON :=
  JObj [("type", JStr "ping");
        ("payload", JObj []);
        ("timestamp", JStr ts)].

Definition is_none (v : JSON) : bool :=
  match v with
  | JNull => true
  | _ => false
  end.

(** [ping]. *)
Definition ping : Py bool :=
  ts <- timestamp;;
  send_message (ping_envelope ts);;
  response <- receive_message (Some (Secs 5));;
  if is_none response then ret false
  else
    ty <- lift (getitem response "type");;
    ret (eq_str ty "pong").

(** [close]. *)
Definition close : Py unit :=
  c <- get_self;;
  match websocket c with
  | Some h =>
      ws_close h;;
      print ConnectionClosed;;
      set_self (set_websocket None);;
      set_self (set_authenticated false)
  | None => ret tt
  end.

(** [async with RustyDBWebSocketClient(...) as client: body]: [__aenter__]
    connects, [__aexit__] closes whether or not the body raised, and lets
    the exception through. *)
Definition async_with {A} (c : Client) (body : Py A) : Py A :=
  set_self (fun _ => c);;
  connect;;
  fun m =>
    match body m with
    | (Return a, m') =>
        match close m' with
        | (Return _, m'') => (Return a, m'')
        | (Raise e, m'') => (Raise e, m'')
        | (Blocked, m'') => (Blocked, m'')
        end
    | (Raise e, m') =>
        match close m' with
        | (Return _, m'') => (Raise e, m'')
        | (Raise e', m'') => (Raise e', m'')
        | (Blocked, m'') => (Blocked, m'')
        end
    | (Blocked, m') => (Blocked, m')
    end.

(** ** [example_7_reconnection]

    The [while] loop is run with fuel; one unit is spent per iteration, and
    running out is reported as [Blocked] (it does not happen, see the
    section on fuel below). [max_retries] is a local constant (3) in the
    source and a parameter here, so that the schedule can be stated beyond
    its second delay. *)

Inductive LoopExit (S : Type) : Type :=
| Break (s : S)
| Continue (s : S).
Arguments Break {S} s.
Arguments Continue {S} s.

Definition retry_body (max_retries retry_count retry_delay : Z)
    : Py (LoopExit (Z * Z)) :=
  try_except
    (connect;;
     print ConnectedOk;;
     sleep 1;;
     ret (Break (retry_count, retry_delay)))
    (fun e =>
       let retry_count := retry_count + 1 in
       if retry_count >=? max_retries then
         print (MaxRetriesReached max_retries);;
         ret (Break (retry_count, retry_delay))
       else
         print (AttemptFailed retry_count max_retries e);;
         print (RetryingIn retry_delay);;
         sleep retry_delay;;
         ret (Continue (retry_count, Z.min (retry_delay * 2) 60))).

(** Returns the final values of [retry_count] and [retry_delay]. *)
Fixpoint retry_loop (fuel : nat) (max_retries retry_count retry_delay : Z)
    : Py (Z * Z) :=
  if retry_count <? max_retries then
    match fuel with
    | O => fun m => (Blocked, m)
    | S fuel' =>
        r <- retry_body max_retries retry_count retry_delay;;
        match r with
        | Break final => ret final
        | Continue (retry_count, retry_delay) =>
            retry_loop fuel' max_retries retry_count retry_delay
        end
    end
  else ret (retry_count, retry_delay).

Definition reconnection (max_retries : Z) : Py (Z * Z) :=
  print (Banner "Example 7: Reconnection Logic");;
  set_self (fun _ => init default_url None true 3);;
  r <- retry_loop (Z.to_nat max_retries) max_retries 0 1;;
  close;;
  ret r.

Definition example_7_reconnection : Py unit :=
  _ <- reconnection 3;;
  ret tt.

(** ** [example_8_streaming_results]

    The [while True] loop is run with fuel, in the same way; every
    iteration that does not leave the loop has taken one arrival off the
    connection. *)

Definition stream_body (total_rows : Z) : Py (LoopExit Z) :=
  response <- receive_message (Some (Secs 10));;
  if negb (truthy response) then
    print NoMoreMessages;;
    ret (Break total_rows)
  else
    ty <- lift (getitem response "type");;
    if eq_str ty "data" then
      payload <- lift (getitem response "payload");;
      rows <- lift (dict_get payload "rows" (JArr []));;
      n <- lift (len rows);;
      let total_rows := total_rows + Z.of_nat n in
      print (ReceivedBatch (Z.of_nat n) total_rows);;
      has_more <- lift (dict_get payload "has_more" (JBool false));;
      if negb (truthy has_more) then
        print AllResultsReceived;;
        ret (Break total_rows)
      else ret (Continue total_rows)
    else if eq_str ty "error" then
      payload <- lift (getitem response "payload");;
      message <- lift (dict_get payload "message" JNull);;
      print (ErrorMessage message);;
      ret (Break total_rows)
    else ret (Continue total_rows).

(** Returns the final value of [total_rows]. *)
Fixpoint stream_loop (fuel : nat) (total_rows : Z) : Py Z :=
  match fuel with
  | O => fun m => (Blocked, m)
  | S fuel' =>
      r <- stream_body total_rows;;
      match r with
      | Break final => ret final
      | Continue total_rows => stream_loop fuel' total_rows
      end
  end.

(** The connection the client holds, if any. *)
Definition conn (m : Machine) : option Socket :=
  match websocket (self m) with
  | Some h => sockets (world m) !! h
  | None => None
  end.

(** Arrivals not yet read on the client's connection. *)
Definition unread (m : Machine) : list Arrival :=
  match conn m with
  | Some s => inbound s
  | None => []
  end.

Definition large_query : string := "SELECT * FROM large_table LIMIT 1000".

Definition stream_envelope (sql ts id : string) : JSON :=
  JObj [("type", JStr "query");
        ("payload", JObj [("sql", JStr sql); ("streaming", JBool true)]);
        ("timestamp", JStr ts);
        ("id", JStr id)].

Definition streaming_results : Py Z :=
  print (Banner "Example 8: Streaming Results");;
  async_with default_client
    (print (Executing large_query);;
     ts <- timestamp;;
     id <- uuid4_str;;
     send_message (stream_envelope large_query ts id);;
     fun m => stream_loop (S (List.length (unread m))) 0 m).

Definition example_8_streaming_results : Py unit :=
  _ <- streaming_results;;
  ret tt.

(** ** Observations and state updates used in the statements *)

(** The connection behind handle [h] has been closed by this side (a
    dangling handle counts as closed). *)
Definition closed_on (h : nat) (w : World) : bool :=
  match sockets w !! h with
  | Some s => closed s
  | None => true
  end.

(** The client holds a handle to a connection it has not closed. *)
Definition live (m : Machine) : bool :=
  match conn m with
  | Some s => negb (closed s)
  | None => false
  end.

(** Everything sent so far on the client's connection. *)
Definition sent (m : Machine) : list WireText :=
  match conn m with
  | Some s => outbox s
  | None => []
  end.

(** What an operation has added to the frames sent on the connection. *)
Definition newly_sent (before after : Machine) : list WireText :=
  drop (List.length (sent before)) (sent after).

(** What has been printed since [before]. *)
Definition printed_since (before after : Machine) : list Line :=
  drop (List.length (stdout (world before))) (stdout (world after)).

(** The durations slept so far. *)
Definition naps (m : Machine) : list Z := slept (world m).

(** The [websockets.connect] calls made so far. *)
Definition dials (m : Machine) : nat := dialled (world m).

(** The identifier made from the next random draw, and the current
    timestamp. *)
Definition next_id (m : Machine) : string :=
  uuid_str (uuid4_int (entropy (world m) (drawn (world m)))).

Definition stamp (m : Machine) : string :=
  wallclock (world m) (now (world m)).

(** The next arrival is due before [d] seconds have passed. *)
Definition due_within (d : Z) (m : Machine) (a : Arrival) : bool :=
  arrival_time a <? now (world m) + d.

(** Nothing is due on the connection before [d] seconds have passed. *)
Definition silent_for (d : Z) (m : Machine) : bool :=
  match unread m with
  | a :: _ => negb (due_within d m a)
  | [] => true
  end.

(** The machine with the client's connection replaced by [s]. *)
Definition put_conn (s : Socket) (m : Machine) : Machine :=
  match websocket (self m) with
  | Some h =>
      {| self := self m;
         world := with_sockets (<[h := s]> (sockets (world m))) (world m) |}
  | None => m
  end.

(** The machine at clock reading [t]. *)
Definition at_time (t : Z) (m : Machine) : Machine :=
  {| self := self m; world := with_now t (world m) |}.

(** The machine after one more line on the terminal. *)
Definition said (l : Line) (m : Machine) : Machine :=
  {| self := self m; world := with_stdout (stdout (world m) ++ [l]) (world m) |}.

(** The machine after one more random draw. *)
Definition drew (m : Machine) : Machine :=
  {| self := self m; world := with_drawn (S (drawn (world m))) (world m) |}.

(** The machine after an update of the client object. *)
Definition with_self (g : Client -> Client) (m : Machine) : Machine :=
  {| self := g (self m); world := world m |}.

(** The machine after [websockets.connect] has opened a connection that
    will deliver [script]. *)
Definition opened (script : list Arrival) (later : list (option (list Arrival)))
    (m : Machine) : Machine :=
  {| self := self m;
     world := with_sockets (sockets (world m) ++ [mkSocket script [] false])
                (with_dial later (S (dialled (world m))) (world m)) |}.

(** The machine after [websockets.connect] has failed. *)
Definition refused (later : list (option (list Arrival))) (m : Machine) : Machine :=
  {| self := self m;
     world := with_dial later (S (dialled (world m))) (world m) |}.

(** The machine after [asyncio.sleep(d)]. *)
Definition rested (d : Z) (m : Machine) : Machine :=
  {| self := self m;
     world := with_slept (slept (world m) ++ [d])
                (with_now (now (world m) + d) (world m)) |}.

(** The request [execute_query] puts on the wire. *)
Definition query_sent (sql : string) (params : option (list JSON))
    (streaming : bool) (m : Machine) : WireText :=
  Encoded (query_envelope sql (params_or_empty params) streaming
             (stamp m) (next_id m)).

(** The requests [authenticate] and [ping] put on the wire. *)
Definition auth_sent (m : Machine) : WireText :=
  Encoded (auth_envelope (token_json (self m)) (stamp m) (next_id m)).

Definition ping_sent (m : Machine) : WireText :=
  Encoded (ping_envelope (stamp m)).

(** A frame on the wire that carries a non-empty [id]. *)
Definition carries_id (text : WireText) : bool :=
  match text with
  | Encoded j =>
      match getitem j "id" with
      | Return (JStr id) => negb (String.eqb id "")
      | _ => false
      end
  | _ => false
  end.

(** The [id] a frame on the wire carries, when it is a string. *)
Definition request_id (text : WireText) : option string :=
  match text with
  | Encoded j =>
      match getitem j "id" with
      | Return (JStr id) => Some id
      | _ => None
      end
  | _ => None
  end.

(** The batch a [data] frame carries: how many rows, and [has_more]. *)
Definition batch (frame : JSON) : option (nat * bool) :=
  match frame with
  | JObj members =>
      match assoc "type" members, assoc "payload" members with
      | Some (JStr ty), Some (JObj payload) =>
          if String.eqb ty "data" then
            match assoc "rows" payload, assoc "has_more" payload with
            | Some (JArr rows), Some (JBool more) => Some (List.length rows, more)
            | _, _ => None
            end
          else None
      | _, _ => None
      end
  | _ => None
  end.

(** The message of an [error] frame whose payload is an object. *)
Definition error_message (frame : JSON) : option JSON :=
  match frame with
  | JObj members =>
      match assoc "type" members, assoc "payload" members with
      | Some (JStr ty), Some (JObj payload) =>
          if String.eqb ty "error" then
            match assoc "message" payload with
            | Some message => Some message
            | None => Some JNull
            end
          else None
      | _, _ => None
      end
  | _ => None
  end.

(** An [auth_error] reply: a non-empty object whose [type] is
    ["auth_error"]. *)
Definition is_auth_error (reply : JSON) : bool :=
  truthy reply
  && match getitem reply "type" with
     | Return ty => eq_str ty "auth_error"
     | _ => false
     end.

(** A computation that leaves an observation of the machine as it was,
    however it ends. *)
Definition keeps {A B} (f : Machine -> B) (c : Py A) : Prop :=
  forall m, f (snd (c m)) = f m.

(** The schedule of the specification:
    [min(initialDelay * 2^attempt, maxDelay)] with [initialDelay = 1] and
    [maxDelay = 60]. *)
Definition schedule (attempt : nat) : Z :=
  Z.min (1 * 2 ^ Z.of_nat attempt) 60.

(** ** Scenarios

    Concrete servers and frames, for the statements that are about one. *)

(** A world in which nothing has happened and nothing will: the clock at
    zero, no connection to be had, the [n]-th random draw equal to [n]. *)
Definition quiet_world : World :=
  {| now := 0;
     wallclock := fun _ => "1970-01-01T00:00:00+00:00";
     entropy := fun n => Z.of_nat n;
     drawn := 0;
     dial := [];
     dialled := 0;
     sockets := [];
     stdout := [];
     slept := [];
     nan_timer := fun _ => None |}.

(** A client that has just connected, on a connection that will deliver
    [script]. *)
Definition connected_machine (c : Client) (script : list Arrival) : Machine :=
  {| self := set_websocket (Some 0%nat) c;
     world := with_sockets [mkSocket script [] false] quiet_world |}.

(** A reply envelope of the given type that echoes [id]. *)
Definition reply_envelope (type id : string) (payload : JSON) : JSON :=
  JObj [("type", JStr type);
        ("payload", payload);
        ("timestamp", JStr "1970-01-01T00:00:07+00:00");
        ("id", JStr id)].

(** A connection on which the server answers the first two requests in
    order, but the first answer only after seven seconds. *)
Definition slow_server : Machine :=
  connected_machine default_client
    [Arrives 7 256 (Encoded (reply_envelope "data"
                           "00000000-0000-4000-8000-000000000000"
                           (JObj [("rows", JArr [JNum 1])])));
     Arrives 8 256 (Encoded (reply_envelope "data"
                           "00000000-0000-4000-8000-000000000001"
                           (JObj [("rows", JArr [JNum 2])])))].

(** A frame that is valid JSON but no envelope: it has no [type]. *)
Definition typeless_frame : JSON := JObj [("rows", JArr [])].

(** A server that refuses the token and then goes on answering queries. *)
Definition refusing_server : Machine :=
  {| self := init default_url (Some "expired") true 5;
     world := with_dial
                [Some [Arrives 1 256 (Encoded (reply_envelope "auth_error"
                                             "00000000-0000-4000-8000-000000000000"
                                             (JObj [("message", JStr "invalid token")])));
                       Arrives 2 256 (Encoded (reply_envelope "data"
                                             "00000000-0000-4000-8000-000000000001"
                                             (JObj [("rows", JArr [JNum 1])])))]]
                0 quiet_world |}.

(** A server that accepts the token on the first connection and never
    answers on the second. *)
Definition forgetful_server : Machine :=
  {| self := init default_url (Some "secret") true 5;
     world := with_dial
                [Some [Arrives 1 256 (Encoded (reply_envelope "auth_success"
                                             "00000000-0000-4000-8000-000000000000"
                                             (JObj [])))];
                 Some []]
                0 quiet_world |}.

(** A server that cannot be reached for the first [n] attempts and accepts
    the next one, if there is one. *)
Definition unreachable (n : nat) (then_up : bool) : Machine :=
  {| self := default_client;
     world := with_dial (repeat None n ++ if then_up then [Some []] else [])
                0 quiet_world |}.

(** A connection on which the server sent one frame and hung up, a second
    ago. *)
Definition gone_server : Machine :=
  at_time 1
    (connected_machine default_client
       [Arrives 0 256 (Encoded (reply_envelope "pong" "" (JObj [])));
        Drops 0]).

(** A [data] frame with [n] rows. *)
Definition data_frame (n : nat) (has_more : bool) : JSON :=
  JObj [("type", JStr "data");
        ("payload", JObj [("status", JStr "success");
                          ("columns", JArr [JStr "id"]);
                          ("rows", JArr (map (fun i => JArr [JNum (Z.of_nat i)])
                                           (seq 0 n)));
                          ("has_more", JBool has_more)]);
        ("timestamp", JStr "1970-01-01T00:00:01+00:00")].

(** A server that accepts the connection and answers the query of example 8
    with two batches, of five and of three rows. *)
Definition two_batches : Machine :=
  {| self := default_client;
     world := with_dial
                [Some [Arrives 1 256 (Encoded (data_frame 5 true));
                       Arrives 2 256 (Encoded (data_frame 3 false))]]
                0 quiet_world |}.

(** The same server, when the second batch takes twelve seconds to
    follow the first. *)
Definition late_second_batch : Machine :=
  {| self := default_client;
     world := with_dial
                [Some [Arrives 1 256 (Encoded (data_frame 5 true));
                       Arrives 13 256 (Encoded (data_frame 3 false))]]
                0 quiet_world |}.

(** ** The specification's sentences that the code does not satisfy

    Each is stated here as the specification words it, to be refuted below
    next to the statement that does hold. *)

(** With no connection handle, each of the five operations raises
    [RuntimeError]. *)
Definition absent_handle_always_raises : Prop :=
  forall m : Machine,
    websocket (self m) = None ->
    (forall message, fst (send_message message m) = Raise not_connected)
    /\ (forall timeout, fst (receive_message timeout m) = Raise not_connected)
    /\ (forall sql params streaming,
          fst (execute_query sql params streaming m) = Raise not_connected)
    /\ fst (authenticate m) = Raise not_connected
    /\ fst (ping m) = Raise not_connected.

(** Every reply that [execute_query] hands to its caller carries the
    identifier of the request that was sent. *)
Definition replies_matched_by_id : Prop :=
  forall (m m' : Machine) sql params streaming (reply : JSON),
    live m = true ->
    execute_query sql params streaming m = (Return reply, m') ->
    truthy reply = true ->
    getitem reply "id" = Return (JStr (next_id m)).

(** A request whose reply does not come within the deadline ends with
    [TimeoutError]. *)
Definition timeout_raises : Prop :=
  forall (m : Machine) sql params streaming,
    live m = true ->
    silent_for 5 m = true ->
    fst (execute_query sql params streaming m) = Raise TimeoutError.

(** Whatever [authenticate], [execute_query] or [ping] sends carries a
    non-empty [id]. *)
Definition every_request_carries_id : Prop :=
  forall (m : Machine) sql params streaming,
    Forall (fun text => carries_id text = true)
      (newly_sent m (snd (authenticate m)))
    /\ Forall (fun text => carries_id text = true)
         (newly_sent m (snd (execute_query sql params streaming m)))
    /\ Forall (fun text => carries_id text = true)
         (newly_sent m (snd (ping m))).

(** The envelope of the specification's data model: an object with a
    [type] discriminator. *)
Definition well_formed_envelope (j : JSON) : bool :=
  match j with
  | JObj members =>
      match assoc "type" members with
      | Some (JStr _) => true
      | _ => false
      end
  | _ => false
  end.

Definition parses_as_envelope (text : WireText) : bool :=
  match text with
  | Encoded j => well_formed_envelope j
  | _ => false
  end.

(** A frame that does not parse as an envelope is reported and dropped:
    [receive_message] returns [None] and the connection stays open. *)
Definition malformed_frames_dropped : Prop :=
  forall (m : Machine) (s : Socket) t size text rest,
    conn m = Some s ->
    closed s = false ->
    inbound s = Arrives t size text :: rest ->
    size <= max_size ->
    t < now (world m) + 5 ->
    parses_as_envelope text = false ->
    exists m',
      receive_message (Some (Secs 5)) m = (Return JNull, m')
      /\ live m' = true
      /\ stdout (world m') = (stdout (world m) ++ [FailedToParse])%list.

(** After an [auth_error] reply the session has failed: the client is left
    without an open connection. *)
Definition auth_error_fails_session : Prop :=
  forall (m : Machine) t size reply rest later,
    has_token (self m) = true ->
    dial (world m) = Some (Arrives t size (Encoded reply) :: rest) :: later ->
    size <= max_size ->
    t < now (world m) + 5 ->
    is_auth_error reply = true ->
    live (snd (connect m)) = false.

(** The two batches, of five rows with more to come and of three rows
    with no more, make a total of eight. *)
Definition two_batches_make_eight : Prop :=
  forall (m : Machine) t1 size1 t2 size2 first second rest later,
    dial (world m)
    = Some (Arrives t1 size1 (Encoded first)
              :: Arrives t2 size2 (Encoded second) :: rest) :: later ->
    size1 <= max_size ->
    size2 <= max_size ->
    batch first = Some (5%nat, true) ->
    batch second = Some (3%nat, false) ->
    fst (streaming_results m) = Return 8.

(** ** Further observations

    Used by the properties of the client that go beyond the sentences of the
    specification. *)

(** The handle the client holds. *)
Definition handle (m : Machine) : option nat := websocket (self m).

(** The flag agrees with the handle: a client that holds no connection does
    not say [authenticated]. *)
Definition consistent (m : Machine) : Prop :=
  handle m = None -> authenticated (self m) = false.

(** [websockets.connect] is about to fail: the dial script is exhausted or
    its next entry is a failure. *)
Definition unreachable_now (m : Machine) : bool :=
  match dial (world m) with
  | Some _ :: _ => false
  | _ => true
  end.

(** An [auth_success] reply: a non-empty object whose [type] is
    ["auth_success"]. *)
Definition is_auth_success (reply : JSON) : bool :=
  truthy reply
  && match getitem reply "type" with
     | Return ty => eq_str ty "auth_success"
     | _ => false
     end.

(** A server that accepts the connection and answers the [auth] request
    with [reply]. *)
Definition answering (token : option string) (reply : JSON) : Machine :=
  {| self := init default_url token true 5;
     world := with_dial [Some [Arrives 1 256 (Encoded reply)]] 0 quiet_world |}.

(** The machine in which [connect] calls [authenticate]: the connection
    has been opened and announced. *)
Definition just_connected (script : list Arrival)
    (later : list (option (list Arrival))) (m : Machine) : Machine :=
  said ConnectedOk
    (with_self (set_websocket (Some (List.length (sockets (world m)))))
       (opened script later (said (Connecting (url (self m))) m))).

(** A client that holds an open connection, and a server ready to accept
    another one. *)
Definition connected_again : Machine :=
  {| self := set_websocket (Some 0%nat) default_client;
     world := with_dial [Some []] 1
                (with_sockets [mkSocket [] [] false] quiet_world) |}.

(** A computation that ends, with a result or an exception, from every
    state. *)
Definition halts {A} (c : Py A) : Prop :=
  forall m, fst (c m) <> Blocked.

(** Frames with their arrival times and lengths, as the connection will
    deliver them. *)
Definition arrivals (frames : list (Z * Z * JSON)) : list Arrival :=
  map (fun f => Arrives (fst (fst f)) (snd (fst f)) (Encoded (snd f))) frames.

(** Each frame is no longer than [max_size] and due within ten seconds of
    the moment the one before it was read. *)
Fixpoint paced (now : Z) (frames : list (Z * Z * JSON)) : bool :=
  match frames with
  | [] => true
  | (t, size, _) :: rest =>
      (t <? now + 10) && (size <=? max_size) && paced (Z.max now t) rest
  end.

(** The clock reading at which the last of the frames has been read, when
    the reading began at [now]. *)
Fixpoint read_by (now : Z) (frames : list (Z * Z * JSON)) : Z :=
  match frames with
  | [] => now
  | (t, _, _) :: rest => read_by (Z.max now t) rest
  end.

(** The rows of a batch; a batch with more to come; a last batch. *)
Definition rows_of (frame : JSON) : Z :=
  match batch frame with
  | Some (n, _) => Z.of_nat n
  | None => 0
  end.

Definition more_to_come (frame : JSON) : bool :=
  match batch frame with
  | Some (_, more) => more
  | None => false
  end.

Definition last_batch (frame : JSON) : bool :=
  match batch frame with
  | Some (_, more) => negb more
  | None => false
  end.

(** What the loop of example 8 prints for a run of batches, starting from
    the running total [total]. *)
Fixpoint reports (total : Z) (frames : list (Z * Z * JSON)) : list Line :=
  match frames with
  | [] => []
  | (_, frame) :: rest =>
      ReceivedBatch (rows_of frame) (total + rows_of frame)
        :: reports (total + rows_of frame) rest
  end.

(** The rows of a run of batches, all together. *)
Definition rows_in (frames : list (Z * Z * JSON)) : Z :=
  fold_right (fun tf acc => rows_of (snd tf) + acc) 0 frames.

(** What [json.loads] raises on a text it rejects other than with
    [JSONDecodeError]. *)
Definition loads_raises (text : WireText) : option Exn :=
  match text with
  | NotText => Some UnicodeDecodeError
  | TooDeep => Some RecursionError
  | TooManyDigits => Some ValueError
  | _ => None
  end.

(** The connection of [m] has a frame next that [json.loads] rejects with
    [JSONDecodeError]; it is no longer than [max_size] and due within [d]
    seconds. *)
Definition garbled_next (d : Z) (m : Machine) : bool :=
  match unread m with
  | Arrives t size (Garbled _) :: _ =>
      (t <? now (world m) + d) && (size <=? max_size)
  | _ => false
  end.

(** The client without the three fields that are about reconnecting. *)
Definition forget (c : Client) : Client :=
  {| url := url c;
     auth_token := auth_token c;
     auto_reconnect := false;
     max_reconnect_attempts := 0;
     websocket := websocket c;
     reconnect_count := 0;
     authenticated := authenticated c |}.

(** Two machines that differ at most in [auto_reconnect],
    [max_reconnect_attempts] and [reconnect_count]. *)
Definition same_session (m m' : Machine) : Prop :=
  forget (self m) = forget (self m') /\ world m = world m'.

(** A computation that cannot tell such machines apart: it ends the same
    way on both and leaves them differing at most in the same fields. *)
Definition respects {A} (c : Py A) : Prop :=
  forall m m',
    same_session m m' ->
    fst (c m) = fst (c m') /\ same_session (snd (c m)) (snd (c m')).

(** The client with other settings for reconnecting. *)
Definition reconfigured (auto : bool) (attempts count : Z) (c : Client) : Client :=
  {| url := url c;
     auth_token := auth_token c;
     auto_reconnect := auto;
     max_reconnect_attempts := attempts;
     websocket := websocket c;
     reconnect_count := count;
     authenticated := authenticated c |}.

(** * Properties *)

Ltac run :=
  repeat (cbn [bind ret raise lift try_except get_self set_self get_world
               set_world print sleep timestamp self world fst snd] in *;
          unfold bind, ret, raise, lift, try_except, get_self, set_self,
                 get_world, set_world, print, sleep, timestamp in *).

(** ** State updates commute with the observations *)

Lemma conn_put_conn (s s' : Socket) (m : Machine) :
  conn m = Some s -> conn (put_conn s' m) = Some s'.
Proof.
  unfold conn, put_conn. destruct (websocket (self m)) as [h|] eqn:E; [|discriminate].
  intros H. cbn. rewrite E. cbn.
  apply list_lookup_insert_eq. eapply lookup_lt_Some; eassumption.
Qed.

Lemma self_put_conn (s : Socket) (m : Machine) : self (put_conn s m) = self m.
Proof. unfold put_conn. destruct (websocket (self m)); reflexivity. Qed.

Lemma now_put_conn (s : Socket) (m : Machine) :
  now (world (put_conn s m)) = now (world m).
Proof. unfold put_conn. destruct (websocket (self m)); reflexivity. Qed.

Lemma stdout_put_conn (s : Socket) (m : Machine) :
  stdout (world (put_conn s m)) = stdout (world m).
Proof. unfold put_conn. destruct (websocket (self m)); reflexivity. Qed.

Lemma dialled_put_conn (s : Socket) (m : Machine) :
  dialled (world (put_conn s m)) = dialled (world m).
Proof. unfold put_conn. destruct (websocket (self m)); reflexivity. Qed.

Lemma slept_put_conn (s : Socket) (m : Machine) :
  slept (world (put_conn s m)) = slept (world m).
Proof. unfold put_conn. destruct (websocket (self m)); reflexivity. Qed.

Lemma drawn_put_conn (s : Socket) (m : Machine) :
  drawn (world (put_conn s m)) = drawn (world m).
Proof. unfold put_conn. destruct (websocket (self m)); reflexivity. Qed.

Lemma entropy_put_conn (s : Socket) (m : Machine) :
  entropy (world (put_conn s m)) = entropy (world m).
Proof. unfold put_conn. destruct (websocket (self m)); reflexivity. Qed.

Lemma drawn_at_time (t : Z) (m : Machine) :
  drawn (world (at_time t m)) = drawn (world m).
Proof. reflexivity. Qed.

Lemma entropy_at_time (t : Z) (m : Machine) :
  entropy (world (at_time t m)) = entropy (world m).
Proof. reflexivity. Qed.

Lemma conn_at_time (t : Z) (m : Machine) : conn (at_time t m) = conn m.
Proof. reflexivity. Qed.

Lemma conn_said (l : Line) (m : Machine) : conn (said l m) = conn m.
Proof. reflexivity. Qed.

Lemma conn_drew (m : Machine) : conn (drew m) = conn m.
Proof. reflexivity. Qed.

Lemma self_at_time (t : Z) (m : Machine) : self (at_time t m) = self m.
Proof. reflexivity. Qed.

Lemma self_said (l : Line) (m : Machine) : self (said l m) = self m.
Proof. reflexivity. Qed.

Lemma self_drew (m : Machine) : self (drew m) = self m.
Proof. reflexivity. Qed.

Lemma now_at_time (t : Z) (m : Machine) : now (world (at_time t m)) = t.
Proof. reflexivity. Qed.

Lemma now_said (l : Line) (m : Machine) :
  now (world (said l m)) = now (world m).
Proof. reflexivity. Qed.

Lemma now_drew (m : Machine) : now (world (drew m)) = now (world m).
Proof. reflexivity. Qed.

Lemma stdout_at_time (t : Z) (m : Machine) :
  stdout (world (at_time t m)) = stdout (world m).
Proof. reflexivity. Qed.

Lemma stdout_said (l : Line) (m : Machine) :
  stdout (world (said l m)) = (stdout (world m) ++ [l])%list.
Proof. reflexivity. Qed.

Lemma stdout_drew (m : Machine) : stdout (world (drew m)) = stdout (world m).
Proof. reflexivity. Qed.

Create Rewrite HintDb machine.
#[local] Hint Rewrite self_put_conn now_put_conn stdout_put_conn
  dialled_put_conn slept_put_conn drawn_put_conn entropy_put_conn
  drawn_at_time entropy_at_time conn_at_time conn_said conn_drew
  self_at_time self_said self_drew now_at_time now_said now_drew
  stdout_at_time stdout_said stdout_drew : machine.

(** ** Running a method one statement at a time *)

Lemma bind_return {A B} (c : Py A) (k : A -> Py B) (m m1 : Machine) (a : A) :
  c m = (Return a, m1) -> bind c k m = k a m1.
Proof. unfold bind. intros ->. reflexivity. Qed.

Lemma bind_raise {A B} (c : Py A) (k : A -> Py B) (m m1 : Machine) (e : Exn) :
  c m = (Raise e, m1) -> bind c k m = (Raise e, m1).
Proof. unfold bind. intros ->. reflexivity. Qed.

Lemma get_self_runs (m : Machine) : get_self m = (Return (self m), m).
Proof. reflexivity. Qed.

Lemma timestamp_runs (m : Machine) : timestamp m = (Return (stamp m), m).
Proof. reflexivity. Qed.

Lemma uuid4_str_runs (m : Machine) : uuid4_str m = (Return (next_id m), drew m).
Proof. reflexivity. Qed.

Lemma print_runs (l : Line) (m : Machine) : print l m = (Return tt, said l m).
Proof. reflexivity. Qed.

Ltac step E := erewrite (bind_return _ _ _ _ _ E).

(** ** What a method leaves alone *)

Section Keeps.
Context {B : Type} (f : Machine -> B).

Lemma keeps_ret {A} (a : A) : keeps f (ret a).
Proof. intros m. reflexivity. Qed.

Lemma keeps_raise {A} (e : Exn) : keeps f (@raise A e).
Proof. intros m. reflexivity. Qed.

Lemma keeps_lift {A} (o : Outcome A) : keeps f (lift o).
Proof. intros m. reflexivity. Qed.

Lemma keeps_get_self : keeps f get_self.
Proof. intros m. reflexivity. Qed.

Lemma keeps_bind {A C} (c : Py A) (k : A -> Py C) :
  keeps f c -> (forall a, keeps f (k a)) -> keeps f (bind c k).
Proof.
  intros Hc Hk m. unfold bind. specialize (Hc m).
  destruct (c m) as [[a|e|] m1]; cbn in *; auto.
  rewrite Hk. exact Hc.
Qed.

Lemma keeps_try_except {A} (body : Py A) (handler : Exn -> Py A) :
  keeps f body -> (forall e, keeps f (handler e)) ->
  keeps f (try_except body handler).
Proof.
  intros Hb Hh m. unfold try_except. specialize (Hb m).
  destruct (body m) as [[a|e|] m1]; cbn in *; auto.
  rewrite Hh. exact Hb.
Qed.
End Keeps.

Ltac keeps_step :=
  first
    [ apply keeps_ret | apply keeps_raise | apply keeps_lift
    | apply keeps_get_self
    | apply keeps_bind; [|intros ?]
    | apply keeps_try_except; [|intros ?]
    | match goal with
      | |- keeps _ (if ?b then _ else _) => destruct b
      | |- keeps _ (match ?x with _ => _ end) => destruct x
      end ].

Lemma keeps_dials_print (l : Line) : keeps dials (print l).
Proof. intros m. reflexivity. Qed.

Lemma keeps_dials_sleep (d : Z) : keeps dials (sleep d).
Proof. intros m. reflexivity. Qed.

Lemma keeps_dials_timestamp : keeps dials timestamp.
Proof. intros m. reflexivity. Qed.

Lemma keeps_dials_uuid4_str : keeps dials uuid4_str.
Proof. intros m. reflexivity. Qed.

Lemma keeps_dials_set_self (g : Client -> Client) : keeps dials (set_self g).
Proof. intros m. reflexivity. Qed.

Lemma keeps_dials_ws_send (h : nat) (text : WireText) :
  keeps dials (ws_send h text).
Proof.
  intros m. unfold ws_send.
  destruct (sockets (world m) !! h) as [s|]; [|reflexivity].
  destruct (closed s || hung_up s (now (world m))); reflexivity.
Qed.

Lemma keeps_dials_ws_recv (h : nat) (timeout : option Duration) :
  keeps dials (ws_recv h timeout).
Proof.
  intros m. unfold ws_recv.
  destruct (expired timeout); [reflexivity|].
  destruct (sockets (world m) !! h) as [s|]; [|reflexivity].
  destruct (closed s); [reflexivity|].
  destruct (fires (world m) timeout) as [t0|],
           (inbound s) as [|[t size text|t] rest]; cbv zeta;
    repeat match goal with |- context [if ?b then _ else _] => destruct b end;
    reflexivity.
Qed.

Lemma keeps_dials_ws_close (h : nat) : keeps dials (ws_close h).
Proof.
  intros m. unfold ws_close.
  destruct (sockets (world m) !! h); reflexivity.
Qed.

Create HintDb keeps.
#[local] Hint Resolve keeps_dials_print keeps_dials_sleep keeps_dials_timestamp
  keeps_dials_uuid4_str keeps_dials_set_self keeps_dials_ws_send
  keeps_dials_ws_recv keeps_dials_ws_close : keeps.

Ltac keeps_auto := repeat (first [solve [auto with keeps] | keeps_step]).

Lemma keeps_dials_send_message (message : JSON) :
  keeps dials (send_message message).
Proof. unfold send_message. keeps_auto. Qed.

Lemma keeps_dials_receive_message (timeout : option Duration) :
  keeps dials (receive_message timeout).
Proof. unfold receive_message. keeps_auto. Qed.

#[local] Hint Resolve keeps_dials_send_message keeps_dials_receive_message : keeps.

Lemma keeps_dials_authenticate : keeps dials authenticate.
Proof. unfold authenticate, and_type_is. keeps_auto. Qed.

Lemma keeps_dials_execute_query sql params streaming :
  keeps dials (execute_query sql params streaming).
Proof. unfold execute_query. keeps_auto. Qed.

Lemma keeps_dials_ping : keeps dials ping.
Proof. unfold ping. keeps_auto. Qed.

Lemma keeps_dials_close : keeps dials close.
Proof. unfold close. keeps_auto. Qed.

#[local] Hint Resolve keeps_dials_authenticate keeps_dials_execute_query
  keeps_dials_ping keeps_dials_close : keeps.

(** [connect] calls [websockets.connect] exactly once, however it ends. *)
Lemma connect_dials_once (m : Machine) :
  dials (snd (connect m)) = S (dials m).
Proof.
  unfold connect, websockets_connect, dials; run.
  cbn [dial with_stdout world].
  destruct (dial (world m)) as [|[script|] later]; try reflexivity.
  destruct (has_token (self m)); [|reflexivity].
  match goal with
  | |- context [authenticate ?m1] =>
      pose proof (keeps_dials_authenticate m1) as K;
      destruct (authenticate m1) as [[b|e|] m2]; exact K
  end.
Qed.

(** ** Sending and receiving on a connection *)

Lemma send_message_ok (message : JSON) (m : Machine) (s : Socket) :
  conn m = Some s ->
  closed s = false ->
  hung_up s (now (world m)) = false ->
  send_message message m
  = (Return tt, put_conn (set_outbox (outbox s ++ [Encoded message]) s) m).
Proof.
  unfold conn, send_message, put_conn; run.
  destruct (websocket (self m)) as [h|]; [|discriminate].
  intros Hs Hc Hh. unfold ws_send. rewrite Hs, Hc, Hh. reflexivity.
Qed.

(** On a connection that this side has closed or that has been found lost,
    nothing is sent. *)
Lemma send_message_lost (message : JSON) (m : Machine) (s : Socket) :
  conn m = Some s ->
  closed s || hung_up s (now (world m)) = true ->
  send_message message m = (Raise TransportError, m).
Proof.
  unfold conn, send_message; run.
  destruct (websocket (self m)) as [h|]; [|discriminate].
  intros Hs Hx. unfold ws_send. rewrite Hs, Hx. reflexivity.
Qed.

(** A positive timeout is in force as it is. *)
Lemma effective_timeout_positive (d : Z) :
  0 < d ->
  effective_timeout (Some (Secs d)) = Some (Secs d)
  /\ expired (Some (Secs d)) = false.
Proof.
  intros Hd. unfold effective_timeout, expired.
  replace (d =? 0) with false by (symmetry; apply Z.eqb_neq; lia).
  split; [reflexivity|]. apply Z.leb_gt. exact Hd.
Qed.

(** A frame of admissible length that is due before the deadline is taken
    off the connection and decoded. Text that [json.loads] rejects with
    [JSONDecodeError] is reported and turned into [None]; what it rejects
    with another exception goes to the caller as that exception. *)
Lemma receive_message_frame (d : Z) (m : Machine) (s : Socket)
    (t size : Z) (text : WireText) (rest : list Arrival) :
  conn m = Some s ->
  closed s = false ->
  inbound s = Arrives t size text :: rest ->
  size <= max_size ->
  0 < d ->
  t < now (world m) + d ->
  receive_message (Some (Secs d)) m
  = let m' := put_conn (set_inbound rest s)
                (at_time (Z.max (now (world m)) t) m) in
    match text with
    | Encoded j => (Return j, m')
    | Garbled _ => (Return JNull, said FailedToParse m')
    | NotText => (Raise UnicodeDecodeError, m')
    | TooDeep => (Raise RecursionError, m')
    | TooManyDigits => (Raise ValueError, m')
    end.
Proof.
  unfold conn, receive_message, put_conn, at_time, said; run.
  destruct (websocket (self m)) as [h|]; [|discriminate].
  intros Hs Hc Hi Hz Hd Ht.
  destruct (effective_timeout_positive d Hd) as [-> X].
  unfold ws_recv. rewrite X, Hs, Hc, Hi.
  unfold fires, beats. cbn [arrival_time].
  apply Z.ltb_lt in Ht. rewrite Ht. apply Z.leb_le in Hz. rewrite Hz.
  cbn [orb]. destruct text; reflexivity.
Qed.

(** When nothing is due before the deadline, the wait is given up at the
    deadline, reported, and turned into [None]; the connection is as it
    was. *)
Lemma receive_message_silence (d : Z) (m : Machine) (s : Socket) :
  conn m = Some s ->
  closed s = false ->
  0 < d ->
  silent_for d m = true ->
  receive_message (Some (Secs d)) m
  = (Return JNull, said TimeoutWaiting (at_time (now (world m) + d) m)).
Proof.
  unfold silent_for, unread, due_within, conn, receive_message, at_time, said; run.
  destruct (websocket (self m)) as [h|]; [|discriminate].
  intros Hs Hc Hd. rewrite Hs.
  destruct (effective_timeout_positive d Hd) as [-> X].
  unfold ws_recv. rewrite X, Hs, Hc. unfold fires, beats.
  destruct (inbound s) as [|a rest]; [reflexivity|].
  intros Ha. apply negb_true_iff in Ha. rewrite Ha.
  replace (arrival_time a <=? now (world m)) with false; [reflexivity|].
  symmetry. apply Z.leb_gt. apply Z.ltb_ge in Ha. lia.
Qed.

(** As long as the arrival next in line has not come, the connection has
    not been found lost. *)
Lemma hung_up_silent (d : Z) (m : Machine) (s : Socket) :
  conn m = Some s -> 0 < d -> silent_for d m = true ->
  hung_up s (now (world m)) = false.
Proof.
  unfold silent_for, unread, hung_up, due_within. intros ->.
  destruct (inbound s) as [|[t size text|t] rest]; auto;
    cbn [lost arrival_time]; intros Hd H;
    apply negb_true_iff, Z.ltb_ge in H;
    replace (t <=? now (world m)) with false
      by (symmetry; apply Z.leb_gt; lia);
    reflexivity.
Qed.

(** [execute_query] on a connection that is open at both ends: the request
    goes out with a fresh identifier, and whatever frame arrives next
    within five seconds comes back as the reply. *)
Lemma execute_query_next_frame sql params streaming (m : Machine)
    (s : Socket) (t size : Z) (j : JSON) (rest : list Arrival) :
  conn m = Some s ->
  closed s = false ->
  hung_up s (now (world m)) = false ->
  inbound s = Arrives t size (Encoded j) :: rest ->
  size <= max_size ->
  t < now (world m) + 5 ->
  let s1 := set_outbox (outbox s ++ [query_sent sql params streaming m]) s in
  execute_query sql params streaming m
  = (Return j,
     put_conn (set_inbound rest s1)
       (at_time (Z.max (now (world m)) t) (put_conn s1 (drew m)))).
Proof.
  intros Hs Hc Hh Hi Hz Ht s1. unfold execute_query, uuid4_str; run.
  change {| self := self m; world := with_drawn (S (drawn (world m))) (world m) |}
    with (drew m).
  rewrite (send_message_ok _ (drew m) s Hs Hc Hh).
  fold (stamp m) (next_id m) (query_sent sql params streaming m). fold s1.
  unfold default_timeout.
  erewrite (receive_message_frame 5 (put_conn s1 (drew m)) s1 t size (Encoded j) rest);
    autorewrite with machine; auto; try lia.
  eapply conn_put_conn; exact Hs.
Qed.

Lemma execute_query_silence sql params streaming (m : Machine) (s : Socket) :
  conn m = Some s ->
  closed s = false ->
  silent_for 5 m = true ->
  let s1 := set_outbox (outbox s ++ [query_sent sql params streaming m]) s in
  execute_query sql params streaming m
  = (Return JNull,
     said TimeoutWaiting (at_time (now (world m) + 5) (put_conn s1 (drew m)))).
Proof.
  intros Hs Hc Hq s1. unfold execute_query, uuid4_str; run.
  change {| self := self m; world := with_drawn (S (drawn (world m))) (world m) |}
    with (drew m).
  assert (Hh : hung_up s (now (world m)) = false)
    by (eapply hung_up_silent; eauto; lia).
  rewrite (send_message_ok _ (drew m) s Hs Hc Hh).
  fold (stamp m) (next_id m) (query_sent sql params streaming m). fold s1.
  unfold default_timeout.
  assert (Hs1 : conn (put_conn s1 (drew m)) = Some s1)
    by (eapply conn_put_conn; exact Hs).
  rewrite (receive_message_silence 5 (put_conn s1 (drew m)) s1 Hs1 Hc);
    autorewrite with machine; auto; try lia.
  revert Hq. unfold silent_for, unread, due_within. rewrite Hs1, Hs.
  autorewrite with machine. auto.
Qed.

(** ** Without a connection *)

Lemma send_message_not_connected (message : JSON) (m : Machine) :
  websocket (self m) = None ->
  send_message message m = (Raise not_connected, m).
Proof. intros E. unfold send_message; run. rewrite E. reflexivity. Qed.

Lemma receive_message_not_connected (timeout : option Duration) (m : Machine) :
  websocket (self m) = None ->
  receive_message timeout m = (Raise not_connected, m).
Proof. intros E. unfold receive_message; run. rewrite E. reflexivity. Qed.

(** C9, as stated, fails: a client built without a token and never
    connected gets [False] from [authenticate()], not an exception. *)
Lemma authenticate_without_token_returns_false :
  fst (authenticate {| self := default_client; world := quiet_world |})
    = Return false
  /\ ~ absent_handle_always_raises.
Proof.
  split; [reflexivity|].
  intros H.
  destruct (H {| self := default_client; world := quiet_world |} eq_refl)
    as (_ & _ & _ & Ha & _).
  discriminate Ha.
Qed.

(** C9, amended. With no connection handle, [send_message],
    [receive_message], [execute_query] and [ping] raise
    [RuntimeError("Not connected to server")] and nothing is sent;
    [authenticate] does so when a token is configured, and returns [False]
    without trying to send when none is. *)
Theorem not_connected_raises (m : Machine) :
  websocket (self m) = None ->
  (forall message, send_message message m = (Raise not_connected, m))
  /\ (forall timeout, receive_message timeout m = (Raise not_connected, m))
  /\ (forall sql params streaming,
        exists m', execute_query sql params streaming m = (Raise not_connected, m')
                   /\ self m' = self m
                   /\ sockets (world m') = sockets (world m))
  /\ ping m = (Raise not_connected, m)
  /\ (has_token (self m) = true ->
      exists m', authenticate m = (Raise not_connected, m')
                 /\ self m' = self m
                 /\ sockets (world m') = sockets (world m))
  /\ (has_token (self m) = false ->
      exists m', authenticate m = (Return false, m')
                 /\ self m' = self m
                 /\ sockets (world m') = sockets (world m)).
Proof.
  intros E. repeat split.
  - intros. now apply send_message_not_connected.
  - intros. now apply receive_message_not_connected.
  - intros. unfold execute_query, uuid4_str; run.
    rewrite send_message_not_connected by exact E.
    eexists; split; [reflexivity|]. split; reflexivity.
  - unfold ping; run. rewrite send_message_not_connected by exact E.
    reflexivity.
  - intros T. unfold authenticate, uuid4_str; run. rewrite T. cbn [negb].
    rewrite send_message_not_connected by exact E.
    eexists; split; [reflexivity|]. split; reflexivity.
  - intros T. unfold authenticate; run. rewrite T. cbn.
    eexists; split; [reflexivity|]. split; reflexivity.
Qed.

(** The same, for [ping] on a client that never connected. *)
Lemma not_connected_raises_witness :
  ping {| self := default_client; world := quiet_world |}
    = (Raise not_connected, {| self := default_client; world := quiet_world |}).
Proof.
  exact (proj1 (proj2 (proj2 (proj2
           (not_connected_raises
              {| self := default_client; world := quiet_world |} eq_refl))))).
Defined.

(** ** Closing *)

Lemma close_connected (m : Machine) (s : Socket) :
  conn m = Some s ->
  close m
  = (Return tt,
     with_self (set_authenticated false)
       (with_self (set_websocket None)
          (said ConnectionClosed (put_conn (set_closed true s) m)))).
Proof.
  unfold conn, close, put_conn. step (get_self_runs m).
  destruct (websocket (self m)) as [h|]; [|discriminate].
  intros Hs.
  erewrite (bind_return (ws_close h))
    by (unfold ws_close; rewrite Hs; reflexivity).
  reflexivity.
Qed.

Lemma close_disconnected (m : Machine) :
  websocket (self m) = None -> close m = (Return tt, m).
Proof. intros E. unfold close. step (get_self_runs m). rewrite E. reflexivity. Qed.

Lemma ws_close_returns (h : nat) (m : Machine) :
  exists w, ws_close h m = (Return tt, {| self := self m; world := w |})
            /\ closed_on h w = true.
Proof.
  unfold ws_close, closed_on.
  destruct (sockets (world m) !! h) as [s|] eqn:E.
  - eexists; split; [reflexivity|]. cbn.
    rewrite list_lookup_insert_eq by (eapply lookup_lt_Some; eassumption).
    reflexivity.
  - exists (world m). destruct m as [c w]; cbn in *. rewrite E. auto.
Qed.

(** C8. [close()] never raises, whatever the state of the client; it leaves
    no connection handle (and the connection it held closed); calling it a
    second time returns normally again and changes nothing. *)
Theorem close_idempotent (m : Machine) :
  exists m1,
    close m = (Return tt, m1)
    /\ close m1 = (Return tt, m1)
    /\ websocket (self m1) = None
    /\ match websocket (self m) with
       | Some h => closed_on h (world m1) = true
                   /\ authenticated (self m1) = false
       | None => m1 = m
       end.
Proof.
  unfold close at 1. run.
  destruct (websocket (self m)) as [h|] eqn:E.
  - destruct (ws_close_returns h m) as (w & Hc & Hw).
    rewrite Hc. run. eexists; split; [reflexivity|].
    unfold close; run; cbn. repeat split; auto.
  - exists m. unfold close; run. rewrite E. auto.
Qed.

(** ** Correlation of replies *)

(** C1, as stated, fails. The server answers the first request after seven
    seconds; the client has given up on it after five. The second request
    is then handed the answer to the first, which carries the first
    request's identifier and not its own. *)
Lemma late_reply_goes_to_next_request :
  exists (m1 m2 : Machine) (reply : JSON),
    execute_query "SELECT 1" None true slow_server = (Return JNull, m1)
    /\ execute_query "SELECT 2" None true m1 = (Return reply, m2)
    /\ getitem reply "id" = Return (JStr (next_id slow_server))
    /\ next_id m1 <> next_id slow_server
    /\ ~ replies_matched_by_id.
Proof.
  pose (m1 := snd (execute_query "SELECT 1" None true slow_server)).
  pose (m2 := snd (execute_query "SELECT 2" None true m1)).
  pose (reply := reply_envelope "data" "00000000-0000-4000-8000-000000000000"
                   (JObj [("rows", JArr [JNum 1])])).
  assert (E1 : execute_query "SELECT 1" None true slow_server = (Return JNull, m1))
    by (vm_compute; reflexivity).
  assert (E2 : execute_query "SELECT 2" None true m1 = (Return reply, m2))
    by (vm_compute; reflexivity).
  exists m1, m2, reply. split; [exact E1|]. split; [exact E2|].
  split; [vm_compute; reflexivity|]. split; [vm_compute; discriminate|].
  intros H.
  assert (L : live m1 = true) by (vm_compute; reflexivity).
  specialize (H m1 m2 "SELECT 2" None true reply L E2 eq_refl).
  vm_compute in H. discriminate H.
Qed.

(** C1, amended. The next frame on the connection decodes, is no longer
    than [max_size] and arrives within five seconds. When the connection
    is open at both ends (this side has not closed it, and the library has
    not found it lost), [execute_query] sends one request, whose [id] is
    made from a new draw of the random source, and that draw is used up;
    it returns that next frame, whatever [id] the frame carries, and that
    frame and nothing else is taken off the connection. When the
    connection has been found lost, [execute_query] raises what [send]
    raises: nothing is sent and nothing is read, although the frame is
    waiting. *)
Theorem execute_query_returns_next_frame sql params streaming (m : Machine)
    (s : Socket) (t size : Z) (reply : JSON) (rest : list Arrival) :
  conn m = Some s ->
  closed s = false ->
  inbound s = Arrives t size (Encoded reply) :: rest ->
  size <= max_size ->
  t < now (world m) + 5 ->
  (hung_up s (now (world m)) = false ->
   exists m',
     execute_query sql params streaming m = (Return reply, m')
     /\ self m' = self m
     /\ sent m' = (sent m ++ [query_sent sql params streaming m])%list
     /\ request_id (query_sent sql params streaming m) = Some (next_id m)
     /\ drawn (world m') = S (drawn (world m))
     /\ entropy (world m') = entropy (world m)
     /\ unread m' = rest)
  /\ (hung_up s (now (world m)) = true ->
      exists m',
        execute_query sql params streaming m = (Raise TransportError, m')
        /\ self m' = self m
        /\ sent m' = sent m
        /\ unread m' = unread m).
Proof.
  intros Hs Hc Hi Hz Ht. split; intros Hh.
  2:{ unfold execute_query.
      step (timestamp_runs m). step (uuid4_str_runs m).
      erewrite bind_raise
        by (apply (send_message_lost _ (drew m) s Hs);
            rewrite now_drew, Hh; apply orb_true_r).
      eexists. split; [reflexivity|]. auto. }
  rewrite (execute_query_next_frame sql params streaming m s t size reply rest
             Hs Hc Hh Hi Hz Ht).
  cbv zeta. eexists; split; [reflexivity|].
  set (s1 := set_outbox _ s).
  assert (H1 : conn (put_conn s1 (drew m)) = Some s1)
    by (eapply conn_put_conn; exact Hs).
  assert (H2 : conn (put_conn (set_inbound rest s1)
                       (at_time (Z.max (now (world m)) t) (put_conn s1 (drew m))))
               = Some (set_inbound rest s1))
    by (eapply conn_put_conn; rewrite conn_at_time; exact H1).
  unfold sent, unread. rewrite H2, Hs.
  repeat match goal with |- _ /\ _ => split end;
    autorewrite with machine; reflexivity.
Qed.

(** The same, for a query whose next frame is a [pong] without an [id], and
    for one made after the server has sent a frame and hung up. *)
Lemma execute_query_returns_next_frame_witness :
  (exists m',
     execute_query "SELECT 1" None true
       (connected_machine default_client
          [Arrives 1 256 (Encoded (reply_envelope "pong" "" (JObj [])))])
     = (Return (reply_envelope "pong" "" (JObj [])), m')
     /\ sent m' = [query_sent "SELECT 1" None true
                     (connected_machine default_client
                        [Arrives 1 256
                           (Encoded (reply_envelope "pong" "" (JObj [])))])]
     /\ drawn (world m') = 1%nat
     /\ unread m' = [])
  /\ (exists m',
        execute_query "SELECT 1" None true gone_server
        = (Raise TransportError, m')
        /\ sent m' = []
        /\ List.length (unread m') = 2%nat).
Proof.
  split.
  - destruct (proj1 (execute_query_returns_next_frame "SELECT 1" None true
                       (connected_machine default_client
                          [Arrives 1 256
                             (Encoded (reply_envelope "pong" "" (JObj [])))])
                       _ 1 256 _ [] eq_refl eq_refl eq_refl
                       ltac:(discriminate) eq_refl) eq_refl)
      as (m' & E & _ & S & _ & D & _ & U).
    exists m'. auto.
  - destruct (proj2 (execute_query_returns_next_frame "SELECT 1" None true
                       gone_server _ 0 256 _ _ eq_refl eq_refl eq_refl
                       ltac:(discriminate) eq_refl) eq_refl)
      as (m' & E & _ & S & U).
    exists m'. rewrite S, U. auto.
Defined.

(** ** Timeouts *)

(** C4, as stated, fails: with nothing arriving, the request ends after
    five seconds with [None] as its result; no [TimeoutError] reaches the
    caller. *)
Lemma timeout_returns_none :
  fst (execute_query "SELECT 1" None true slow_server) = Return JNull
  /\ ~ timeout_raises.
Proof.
  split; [vm_compute; reflexivity|].
  intros H. specialize (H slow_server "SELECT 1" None true eq_refl eq_refl).
  vm_compute in H. discriminate H.
Qed.

(** C4, amended. A request whose reply is not there within five seconds
    returns [None] (the timeout is caught and reported inside
    [receive_message]); the client object is unchanged, the connection is
    still open with the same arrivals waiting, and the next request on it
    returns the next frame that arrives in time (a frame no longer than
    [max_size], on a connection that has not been found lost by then). *)
Theorem timeout_is_local sql params streaming (m : Machine) (s : Socket) :
  conn m = Some s ->
  closed s = false ->
  silent_for 5 m = true ->
  exists m1,
    execute_query sql params streaming m = (Return JNull, m1)
    /\ self m1 = self m
    /\ live m1 = true
    /\ unread m1 = unread m
    /\ now (world m1) = now (world m) + 5
    /\ stdout (world m1) = (stdout (world m) ++ [TimeoutWaiting])%list
    /\ forall sql' params' streaming' t size reply rest,
         unread m = Arrives t size (Encoded reply) :: rest ->
         size <= max_size ->
         lost (unread m) (now (world m1)) = false ->
         t < now (world m1) + 5 ->
         exists m2,
           execute_query sql' params' streaming' m1 = (Return reply, m2)
           /\ unread m2 = rest.
Proof.
  intros Hs Hc Hq.
  rewrite (execute_query_silence sql params streaming m s Hs Hc Hq).
  cbv zeta. eexists; split; [reflexivity|].
  set (s1 := set_outbox _ s).
  assert (H1 : conn (put_conn s1 (drew m)) = Some s1)
    by (eapply conn_put_conn; exact Hs).
  set (m1 := said _ _).
  assert (Hm1 : conn m1 = Some s1) by exact H1.
  unfold live, unread. rewrite Hm1, Hs. subst m1.
  cbn [said at_time self world now stdout with_stdout with_now].
  autorewrite with machine.
  repeat split; auto.
  - cbn. now rewrite Hc.
  - intros sql' params' streaming' t size reply rest Hi Hz Hl Ht.
    set (m1 := said _ _) in *.
    assert (Ht' : t < now (world m1) + 5)
      by (subst m1; cbn; autorewrite with machine; exact Ht).
    assert (Hh' : hung_up s1 (now (world m1)) = false)
      by (subst m1; cbn; autorewrite with machine; exact Hl).
    rewrite (execute_query_next_frame sql' params' streaming' m1 s1 t size reply rest
               Hm1 Hc Hh' Hi Hz Ht').
    cbv zeta. eexists; split; [reflexivity|].
    set (s2 := set_outbox _ s1).
    erewrite conn_put_conn; [reflexivity|].
    rewrite conn_at_time. eapply conn_put_conn. exact Hm1.
Qed.

(** The same, at [slow_server]: the first query times out, the second is
    answered. *)
Lemma timeout_is_local_witness :
  exists m1,
    execute_query "SELECT 1" None true slow_server = (Return JNull, m1)
    /\ live m1 = true
    /\ exists m2 reply,
         execute_query "SELECT 2" None true m1 = (Return reply, m2)
         /\ List.length (unread m2) = 1%nat.
Proof.
  destruct (timeout_is_local "SELECT 1" None true slow_server _
              eq_refl eq_refl eq_refl)
    as (m1 & E & _ & L & _ & T & _ & Next).
  exists m1. split; [exact E|]. split; [exact L|].
  destruct (Next "SELECT 2" None true _ _ _ _ eq_refl) as (m2 & E2 & U).
  - discriminate.
  - rewrite T. reflexivity.
  - rewrite T. reflexivity.
  - exists m2. eexists. split; [exact E2|]. rewrite U. reflexivity.
Defined.

(** ** Frames that do not decode *)

(** C7, as stated, fails: a frame that is valid JSON but not an envelope is
    neither reported nor dropped. [receive_message] returns it as it is, and
    the reading loop of example 8 and [ping] then stop with [KeyError]. *)
Lemma typeless_frame_is_not_dropped :
  let m := connected_machine default_client
             [Arrives 0 256 (Encoded typeless_frame)] in
  parses_as_envelope (Encoded typeless_frame) = false
  /\ fst (receive_message (Some (Secs 5)) m) = Return typeless_frame
  /\ fst (stream_loop 2 0 m) = Raise (KeyError "type")
  /\ fst (ping m) = Raise (KeyError "type")
  /\ ~ malformed_frames_dropped.
Proof.
  cbv zeta. repeat match goal with |- _ /\ _ => split end;
    try (vm_compute; reflexivity).
  intros H.
  destruct (H (connected_machine default_client
                 [Arrives 0 256 (Encoded typeless_frame)])
              _ 0 256 (Encoded typeless_frame) [] eq_refl eq_refl eq_refl
              ltac:(discriminate) eq_refl eq_refl) as (m' & E & _).
  vm_compute in E. discriminate E.
Qed.

(** C7, amended. Of a frame that is due before the deadline and no longer
    than [max_size], [receive_message] makes what [json.loads] makes of it.
    Text that [json.loads] rejects with [JSONDecodeError] is reported,
    dropped and turned into [None]. What it rejects otherwise (bytes that
    are not text, text nested too deep, an integer of too many digits)
    leaves [receive_message] as [UnicodeDecodeError], [RecursionError] or
    [ValueError], which it does not catch. Text that is JSON is returned
    as decoded, without any check that it is an envelope. In every case
    the frame is taken off the connection, the client object is unchanged
    and the connection stays open. *)
Theorem undecodable_frame_dropped (d : Z) (m : Machine) (s : Socket)
    (t size : Z) (text : WireText) (rest : list Arrival) :
  conn m = Some s ->
  closed s = false ->
  inbound s = Arrives t size text :: rest ->
  size <= max_size ->
  0 < d ->
  t < now (world m) + d ->
  exists m',
    receive_message (Some (Secs d)) m
    = (match text with
       | Encoded j => Return j
       | Garbled _ => Return JNull
       | NotText => Raise UnicodeDecodeError
       | TooDeep => Raise RecursionError
       | TooManyDigits => Raise ValueError
       end, m')
    /\ self m' = self m
    /\ live m' = true
    /\ unread m' = rest
    /\ stdout (world m')
       = (stdout (world m)
          ++ match text with
             | Garbled _ => [FailedToParse]
             | _ => []
             end)%list.
Proof.
  intros Hs Hc Hi Hz Hd Ht.
  rewrite (receive_message_frame d m s t size text rest Hs Hc Hi Hz Hd Ht).
  cbv zeta.
  set (m1 := put_conn _ _).
  assert (H1 : conn m1 = Some (set_inbound rest s))
    by (eapply conn_put_conn; rewrite conn_at_time; exact Hs).
  destruct text as [j|raw| | |]; eexists; (split; [reflexivity|]);
    unfold live, unread; rewrite ?conn_said, H1; subst m1;
    autorewrite with machine; cbn; rewrite ?Hc, ?app_nil_r; auto.
Qed.

(** The same, for a frame that breaks off after its first brace, and for a
    binary frame that is not text. *)
Lemma undecodable_frame_dropped_witness :
  (exists m',
     receive_message (Some (Secs 5))
       (connected_machine default_client [Arrives 1 5 (Garbled "{oops")])
     = (Return JNull, m')
     /\ live m' = true
     /\ unread m' = []
     /\ stdout (world m') = [FailedToParse])
  /\ (exists m',
        receive_message (Some (Secs 5))
          (connected_machine default_client [Arrives 1 3 NotText])
        = (Raise UnicodeDecodeError, m')
        /\ live m' = true
        /\ unread m' = []).
Proof.
  split.
  - destruct (undecodable_frame_dropped 5
                (connected_machine default_client [Arrives 1 5 (Garbled "{oops")])
                _ 1 5 (Garbled "{oops") [] eq_refl eq_refl eq_refl)
      as (m' & E & _ & L & U & O); [discriminate | reflexivity | reflexivity |].
    exists m'. auto.
  - destruct (undecodable_frame_dropped 5
                (connected_machine default_client [Arrives 1 3 NotText])
                _ 1 3 NotText [] eq_refl eq_refl eq_refl)
      as (m' & E & _ & L & U & _); [discriminate | reflexivity | reflexivity |].
    exists m'. auto.
Defined.

(** ** Identifiers of requests *)

Lemma uuid_str_length (i : Z) : String.length (uuid_str i) = 36%nat.
Proof. reflexivity. Qed.

Lemma keeps_sent_print (l : Line) : keeps sent (print l).
Proof. intros m. reflexivity. Qed.

Lemma keeps_sent_set_authenticated (b : bool) :
  keeps sent (set_self (set_authenticated b)).
Proof. intros m. reflexivity. Qed.

Lemma keeps_sent_ws_recv (h : nat) (timeout : option Duration) :
  keeps sent (ws_recv h timeout).
Proof.
  intros m. unfold ws_recv.
  destruct (expired timeout); [reflexivity|].
  destruct (sockets (world m) !! h) as [s|] eqn:E; [|reflexivity].
  destruct (closed s); [reflexivity|].
  destruct (fires (world m) timeout) as [t0|],
           (inbound s) as [|[t size text|t] rest]; cbv zeta;
    repeat match goal with |- context [if ?b then _ else _] => destruct b end;
    try reflexivity;
    unfold sent, conn; cbn;
    (destruct (websocket (self m)) as [h0|]; [|reflexivity]);
    (destruct (decide (h = h0)) as [->|N];
     [ rewrite list_lookup_insert_eq by (eapply lookup_lt_Some; eassumption);
       rewrite E; reflexivity
     | rewrite list_lookup_insert_ne by exact N; reflexivity ]).
Qed.

#[local] Hint Resolve keeps_sent_print keeps_sent_set_authenticated
  keeps_sent_ws_recv : keeps.

Lemma keeps_sent_receive_message (timeout : option Duration) :
  keeps sent (receive_message timeout).
Proof. unfold receive_message. keeps_auto. Qed.

#[local] Hint Resolve keeps_sent_receive_message : keeps.

Lemma sent_after_send (m : Machine) (s : Socket) (text : WireText) :
  conn m = Some s ->
  sent (put_conn (set_outbox (outbox s ++ [text]) s) (drew m))
  = (sent m ++ [text])%list.
Proof.
  intros Hs. unfold sent.
  erewrite conn_put_conn by (rewrite conn_drew; exact Hs).
  rewrite Hs. reflexivity.
Qed.

Lemma newly_sent_one (m m' : Machine) (text : WireText) :
  sent m' = (sent m ++ [text])%list -> newly_sent m m' = [text].
Proof. unfold newly_sent. intros ->. apply drop_app_length. Qed.

(** C6, as stated, fails: the envelope [ping] sends has the keys [type],
    [payload] and [timestamp], and no [id]. *)
Lemma ping_carries_no_id :
  let m := connected_machine default_client [] in
  sent (snd (ping m)) = [ping_sent m]
  /\ getitem (ping_envelope (stamp m)) "id" = Raise (KeyError "id")
  /\ ~ every_request_carries_id.
Proof.
  cbv zeta. split; [reflexivity|]. split; [reflexivity|].
  intros H.
  destruct (H (connected_machine default_client []) "" None true) as (_ & _ & P).
  vm_compute in P. inversion P as [|? ? F]. discriminate F.
Qed.

(** C6, amended. On an open connection [execute_query] and [authenticate]
    each send exactly one envelope, and it carries a non-empty [id] (the 36
    characters of a version-4 UUID); [ping] sends exactly one envelope, and
    it carries no [id]. *)
Theorem requests_carry_id_except_ping (m : Machine) (s : Socket) :
  conn m = Some s ->
  closed s = false ->
  hung_up s (now (world m)) = false ->
  (forall sql params streaming,
     newly_sent m (snd (execute_query sql params streaming m))
     = [query_sent sql params streaming m]
     /\ carries_id (query_sent sql params streaming m) = true)
  /\ (has_token (self m) = true ->
      newly_sent m (snd (authenticate m)) = [auth_sent m]
      /\ carries_id (auth_sent m) = true)
  /\ newly_sent m (snd (ping m)) = [ping_sent m]
  /\ carries_id (ping_sent m) = false
  /\ String.length (next_id m) = 36%nat.
Proof.
  intros Hs Hc Hh. repeat split; try reflexivity.
  - apply newly_sent_one.
    unfold execute_query, uuid4_str; run.
    change {| self := self m; world := with_drawn (S (drawn (world m))) (world m) |}
      with (drew m).
    rewrite (send_message_ok _ (drew m) s Hs Hc Hh).
    fold (stamp m) (next_id m) (query_sent sql params streaming m).
    rewrite <- (sent_after_send m s _ Hs).
    apply keeps_sent_receive_message.
  - apply newly_sent_one.
    unfold authenticate.
    step (get_self_runs m). rewrite H. cbn [negb].
    step (timestamp_runs m). step (uuid4_str_runs m).
    step (send_message_ok (auth_envelope (token_json (self m)) (stamp m) (next_id m))
            (drew m) s Hs Hc Hh).
    fold (auth_sent m).
    rewrite <- (sent_after_send m s _ Hs).
    set (m1 := put_conn _ _).
    step (print_runs SentAuthentication m1).
    change (sent m1) with (sent (said SentAuthentication m1)).
    generalize (said SentAuthentication m1).
    match goal with |- forall m2, sent (snd (?k m2)) = _ => change (keeps sent k) end.
    unfold and_type_is. keeps_auto.
  - apply newly_sent_one.
    unfold ping. step (timestamp_runs m).
    step (send_message_ok (ping_envelope (stamp m)) m s Hs Hc Hh).
    fold (ping_sent m).
    assert (Hp : sent (put_conn (set_outbox (outbox s ++ [ping_sent m]) s) m)
                 = (sent m ++ [ping_sent m])%list).
    { unfold sent. erewrite conn_put_conn by exact Hs. rewrite Hs. reflexivity. }
    rewrite <- Hp. generalize (put_conn (set_outbox (outbox s ++ [ping_sent m]) s) m).
    match goal with |- forall m2, sent (snd (?k m2)) = _ => change (keeps sent k) end.
    keeps_auto.
Qed.

(** The same, for a query on a fresh connection. *)
Lemma requests_carry_id_except_ping_witness :
  newly_sent (connected_machine default_client [])
    (snd (execute_query "SELECT 1" None true
            (connected_machine default_client [])))
  = [query_sent "SELECT 1" None true (connected_machine default_client [])]
  /\ carries_id
       (query_sent "SELECT 1" None true (connected_machine default_client []))
     = true.
Proof.
  exact (proj1 (requests_carry_id_except_ping
                  (connected_machine default_client []) _
                  eq_refl eq_refl eq_refl) "SELECT 1" None true).
Defined.

(** ** Authentication refused *)

Lemma try_except_return {A} (body : Py A) (handler : Exn -> Py A)
    (m m1 : Machine) (a : A) :
  body m = (Return a, m1) -> try_except body handler m = (Return a, m1).
Proof. unfold try_except. intros ->. reflexivity. Qed.

Lemma set_self_runs (g : Client -> Client) (m : Machine) :
  set_self g m = (Return tt, with_self g m).
Proof. reflexivity. Qed.

Lemma conn_opened (script : list Arrival) later (m : Machine) :
  conn (with_self (set_websocket (Some (List.length (sockets (world m)))))
          (opened script later m))
  = Some (mkSocket script [] false).
Proof. unfold conn. cbn. apply list_lookup_middle. reflexivity. Qed.

Lemma is_auth_error_types (reply : JSON) :
  is_auth_error reply = true ->
  truthy reply = true
  /\ (exists ty, getitem reply "type" = Return ty
                 /\ eq_str ty "auth_success" = false
                 /\ eq_str ty "auth_error" = true)
  /\ exists payload, dict_get reply "payload" (JObj []) = Return payload.
Proof.
  unfold is_auth_error. intros H. apply andb_true_iff in H as [T G].
  split; [exact T|].
  destruct reply as [| | | |items|members]; try discriminate G.
  cbn in *. split.
  - destruct (assoc "type" members) as [ty|]; [|discriminate G].
    exists ty. split; [reflexivity|]. split; [|exact G].
    destruct ty; try reflexivity. cbn in *.
    apply String.eqb_eq in G. subst. reflexivity.
  - destruct (assoc "payload" members); eauto.
Qed.

(** [authenticate] on an open connection whose next frame, due within five
    seconds, is an [auth_error] reply. *)
Lemma authenticate_refused (m : Machine) (s : Socket) (t size : Z)
    (reply : JSON) (rest : list Arrival) :
  conn m = Some s ->
  closed s = false ->
  hung_up s (now (world m)) = false ->
  inbound s = Arrives t size (Encoded reply) :: rest ->
  size <= max_size ->
  t < now (world m) + 5 ->
  has_token (self m) = true ->
  is_auth_error reply = true ->
  exists payload,
    authenticate m
    = (Return false,
       with_self (set_authenticated false)
         (said (AuthenticationFailed payload)
            (put_conn (set_inbound rest (set_outbox (outbox s ++ [auth_sent m]) s))
               (at_time (Z.max (now (world m)) t)
                  (said SentAuthentication
                     (put_conn (set_outbox (outbox s ++ [auth_sent m]) s)
                        (drew m))))))).
Proof.
  intros Hs Hc Hh Hi Hz Ht Hk Hr.
  destruct (is_auth_error_types reply Hr) as (T & (ty & G & N & Y) & (payload & P)).
  exists payload. unfold authenticate.
  step (get_self_runs m). rewrite Hk. cbn [negb].
  step (timestamp_runs m). step (uuid4_str_runs m).
  step (send_message_ok (auth_envelope (token_json (self m)) (stamp m) (next_id m))
          (drew m) s Hs Hc Hh).
  fold (auth_sent m).
  set (s1 := set_outbox _ s). set (m1 := put_conn s1 (drew m)).
  step (print_runs SentAuthentication m1).
  assert (H1 : conn (said SentAuthentication m1) = Some s1)
    by (rewrite conn_said; eapply conn_put_conn; rewrite conn_drew; exact Hs).
  assert (Ht1 : t < now (world (said SentAuthentication m1)) + 5)
    by (subst m1; autorewrite with machine; exact Ht).
  unfold default_timeout.
  step (receive_message_frame 5 (said SentAuthentication m1) s1 t size
          (Encoded reply) rest H1 Hc Hi Hz ltac:(lia) Ht1).
  cbv zeta. unfold and_type_is. rewrite T, G, P.
  unfold bind, lift, ret. cbn beta iota. rewrite N. cbn beta iota. rewrite Y.
  subst m1. autorewrite with machine. reflexivity.
Qed.

Lemma websockets_connect_opens (u : string) (m : Machine)
    (script : list Arrival) later :
  dial (world m) = Some script :: later ->
  websockets_connect u m
  = (Return (List.length (sockets (world m))), opened script later m).
Proof. unfold websockets_connect, opened. intros ->. reflexivity. Qed.

Lemma conn_set_authenticated (b : bool) (m : Machine) :
  conn (with_self (set_authenticated b) m) = conn m.
Proof. reflexivity. Qed.

Lemma conn_set_reconnect_count (n : Z) (m : Machine) :
  conn (with_self (set_reconnect_count n) m) = conn m.
Proof. reflexivity. Qed.

(** C2, as stated, fails: the server refuses the token, [connect()]
    nevertheless returns normally and leaves the connection open, and the
    next query on it is answered. *)
Lemma auth_error_leaves_session_open :
  exists (m1 m2 : Machine) (reply : JSON),
    connect refusing_server = (Return tt, m1)
    /\ authenticated (self m1) = false
    /\ live m1 = true
    /\ execute_query "SELECT 1" None true m1 = (Return reply, m2)
    /\ getitem reply "type" = Return (JStr "data")
    /\ ~ auth_error_fails_session.
Proof.
  pose (m1 := snd (connect refusing_server)).
  pose (r := execute_query "SELECT 1" None true m1).
  exists m1, (snd r).
  exists (reply_envelope "data" "00000000-0000-4000-8000-000000000001"
            (JObj [("rows", JArr [JNum 1])])).
  split; [vm_compute; reflexivity|].
  split; [vm_compute; reflexivity|].
  split; [vm_compute; reflexivity|].
  split; [vm_compute; reflexivity|].
  split; [vm_compute; reflexivity|].
  intros H.
  specialize (H refusing_server 1 256 _ _ [] eq_refl eq_refl
                ltac:(discriminate) eq_refl eq_refl).
  vm_compute in H. discriminate H.
Qed.

(** C2, amended. If the authentication exchange receives an [auth_error]
    reply (a frame no longer than [max_size], on a connection that has not
    been found lost when the request is sent), [authenticated] is false and
    [connect()] returns normally: the connection stays open with the
    remaining frames waiting, and [reconnect_count] is 0. Nothing is
    retried: [websockets.connect] has been called exactly once, nothing has
    slept; [connect] never calls it more than once, and no other method of
    the client calls it at all. *)
Theorem auth_error_not_retried (m : Machine) (t size : Z) (reply : JSON)
    (rest : list Arrival) (later : list (option (list Arrival))) :
  has_token (self m) = true ->
  dial (world m) = Some (Arrives t size (Encoded reply) :: rest) :: later ->
  size <= max_size ->
  lost (Arrives t size (Encoded reply) :: rest) (now (world m)) = false ->
  t < now (world m) + 5 ->
  is_auth_error reply = true ->
  exists m',
    connect m = (Return tt, m')
    /\ authenticated (self m') = false
    /\ live m' = true
    /\ unread m' = rest
    /\ reconnect_count (self m') = 0
    /\ dials m' = S (dials m)
    /\ dial (world m') = later
    /\ slept (world m') = slept (world m)
    /\ (forall m0, dials (snd (connect m0)) = S (dials m0))
    /\ keeps dials authenticate
    /\ (forall sql params streaming, keeps dials (execute_query sql params streaming))
    /\ keeps dials ping
    /\ keeps dials close.
Proof.
  intros Hk Hd Hz Hl Ht Hr.
  set (m0 := said (Connecting (url (self m))) m).
  set (h := List.length (sockets (world m))).
  set (script := Arrives t size (Encoded reply) :: rest) in *.
  set (m3 := said ConnectedOk
               (with_self (set_websocket (Some h)) (opened script later m0))).
  assert (H3 : conn m3 = Some (mkSocket script [] false)).
  { subst m3. rewrite conn_said. apply (conn_opened script later m0). }
  destruct (authenticate_refused m3 _ t size reply rest H3 eq_refl Hl eq_refl
              Hz Ht Hk Hr)
    as (payload & Ha).
  eexists. split.
  - unfold connect. step (get_self_runs m).
    step (print_runs (Connecting (url (self m))) m). fold m0.
    apply try_except_return.
    step (websockets_connect_opens (url (self m)) m0 script later Hd).
    step (set_self_runs (set_websocket (Some h)) (opened script later m0)).
    step (print_runs ConnectedOk
            (with_self (set_websocket (Some h)) (opened script later m0))).
    fold m3. rewrite Hk.
    assert (Hb : (_ <- authenticate;; ret tt) m3 = (Return tt, snd (authenticate m3)))
      by (step Ha; rewrite Ha; reflexivity).
    step Hb. rewrite Ha. apply set_self_runs.
  - cbn [snd]. set (s1 := set_outbox _ _).
    set (m4 := put_conn (set_inbound rest s1) _).
    assert (H4 : conn m4 = Some (set_inbound rest s1)).
    { subst m4. eapply conn_put_conn. rewrite conn_at_time, conn_said.
      eapply conn_put_conn. rewrite conn_drew. exact H3. }
    unfold live, unread.
    rewrite conn_set_reconnect_count, conn_set_authenticated, conn_said, H4.
    repeat split; auto using connect_dials_once with keeps; reflexivity.
Qed.

(** The same, at [refusing_server]. *)
Lemma auth_error_not_retried_witness :
  exists m',
    connect refusing_server = (Return tt, m')
    /\ authenticated (self m') = false
    /\ live m' = true
    /\ dials m' = 1%nat.
Proof.
  destruct (auth_error_not_retried refusing_server 1 256 _ _ []
              eq_refl eq_refl ltac:(discriminate) eq_refl eq_refl eq_refl)
    as (m' & E & A & L & _ & _ & D & _).
  exists m'. auto.
Defined.

(** ** The [authenticated] flag *)

(** C10 at its failing input. The client connects and is authenticated; it
    connects again, and on the new connection the authentication request
    gets no answer within five seconds. [authenticate()] falls through to
    its last [return False] without touching the flag: the client holds the
    new, unauthenticated connection and still says [authenticated]. Calling
    [authenticate()] once more on it returns [False] and leaves the flag
    set as well. *)
Theorem stale_authenticated_flag :
  exists (m1 m2 m3 : Machine),
    connect forgetful_server = (Return tt, m1)
    /\ websocket (self m1) = Some 0%nat
    /\ authenticated (self m1) = true
    /\ connect m1 = (Return tt, m2)
    /\ websocket (self m2) = Some 1%nat
    /\ printed_since m1 m2
       = [Connecting default_url; ConnectedOk; SentAuthentication; TimeoutWaiting]
    /\ authenticated (self m2) = true
    /\ authenticate m2 = (Return false, m3)
    /\ authenticated (self m3) = true.
Proof.
  pose (m1 := snd (connect forgetful_server)).
  pose (m2 := snd (connect m1)).
  pose (m3 := snd (authenticate m2)).
  exists m1, m2, m3.
  repeat match goal with |- _ /\ _ => split end; vm_compute; reflexivity.
Qed.

(** ** Reconnection with backoff *)

Lemma schedule_next (k : nat) : Z.min (schedule k * 2) 60 = schedule (S k).
Proof.
  unfold schedule. rewrite Nat2Z.inj_succ, Z.pow_succ_r by lia. lia.
Qed.

Lemma sleep_runs (d : Z) (m : Machine) : sleep d m = (Return tt, rested d m).
Proof. reflexivity. Qed.

(** [connect] when [websockets.connect] fails. *)
Lemma connect_refused (m : Machine) later :
  dial (world m) = None :: later ->
  connect m
  = (Raise TransportError,
     said (ConnectionFailed TransportError)
       (refused later (said (Connecting (url (self m))) m))).
Proof.
  intros Hd. unfold connect. step (get_self_runs m).
  step (print_runs (Connecting (url (self m))) m).
  unfold try_except.
  erewrite bind_raise
    by (unfold websockets_connect; cbn [said world dial with_stdout];
        rewrite Hd; reflexivity).
  reflexivity.
Qed.

(** [connect] of a client without a token when [websockets.connect]
    succeeds. *)
Lemma connect_accepted (m : Machine) script later :
  has_token (self m) = false ->
  dial (world m) = Some script :: later ->
  connect m
  = (Return tt,
     with_self (set_reconnect_count 0)
       (said ConnectedOk
          (with_self (set_websocket (Some (List.length (sockets (world m)))))
             (opened script later (said (Connecting (url (self m))) m))))).
Proof.
  intros Hk Hd. unfold connect. step (get_self_runs m).
  step (print_runs (Connecting (url (self m))) m).
  apply try_except_return.
  step (websockets_connect_opens (url (self m))
          (said (Connecting (url (self m))) m) script later Hd).
  step (set_self_runs
          (set_websocket (Some (List.length (sockets (world m)))))
          (opened script later (said (Connecting (url (self m))) m))).
  step (print_runs ConnectedOk
          (with_self (set_websocket (Some (List.length (sockets (world m)))))
             (opened script later (said (Connecting (url (self m))) m)))).
  rewrite Hk. reflexivity.
Qed.

(** The loop of example 7, entered with [retry_count = k] and the delay the
    schedule gives for [k], against [n] failures followed by a success. *)
Lemma retry_loop_schedule (max : nat) :
  forall (n fuel k : nat) (m : Machine) script later,
    has_token (self m) = false ->
    websocket (self m) = None ->
    dial (world m) = (repeat None n ++ Some script :: later)%list ->
    (k < max)%nat ->
    (max - k <= fuel)%nat ->
    exists m',
      retry_loop fuel (Z.of_nat max) (Z.of_nat k) (schedule k) m
      = (Return (Z.of_nat (Nat.min (k + n) max),
                 schedule (Nat.min (k + n) (max - 1))), m')
      /\ naps m'
         = (naps m
            ++ map schedule (seq k (Nat.min (k + n) (max - 1) - k))
            ++ if (k + n <? max)%nat then [1] else [])%list
      /\ dials m' = (dials m + (Nat.min (k + S n) max - k))%nat
      /\ if (k + n <? max)%nat
         then conn m' = Some (mkSocket script [] false)
              /\ dial (world m') = later
         else websocket (self m') = None.
Proof.
  induction n as [|n IH]; intros fuel k m script later Hk Hw Hd Hlt Hfuel.
  - (* the attempt succeeds *)
    destruct fuel as [|fuel]; [lia|]. cbn [retry_loop repeat app] in *.
    assert (L : (Z.of_nat k <? Z.of_nat max) = true) by (apply Z.ltb_lt; lia).
    rewrite L. unfold retry_body.
    erewrite (bind_return (try_except _ _)).
    2:{ apply try_except_return.
        step (connect_accepted m script later Hk Hd).
        erewrite (bind_return (print ConnectedOk)) by apply print_runs.
        erewrite (bind_return (sleep 1)) by apply sleep_runs.
        reflexivity. }
    cbv beta iota. eexists. split.
    { unfold ret. repeat f_equal; f_equal; lia. }
    replace (Nat.min (k + 0) (max - 1) - k)%nat with 0%nat by lia.
    replace (k + 0 <? max)%nat with true by (symmetry; apply Nat.ltb_lt; lia).
    split; [reflexivity|]. split.
    + unfold dials. cbn. lia.
    + split; [|reflexivity].
      exact (conn_opened script later (said (Connecting (url (self m))) m)).
  - (* the attempt fails *)
    destruct fuel as [|fuel]; [lia|]. cbn [retry_loop repeat app] in *.
    assert (L : (Z.of_nat k <? Z.of_nat max) = true) by (apply Z.ltb_lt; lia).
    rewrite L. unfold retry_body.
    set (m1 := said (ConnectionFailed TransportError)
                 (refused (repeat None n ++ Some script :: later)
                    (said (Connecting (url (self m))) m))).
    destruct (Z.of_nat k + 1 >=? Z.of_nat max) eqn:G.
    + (* that was the last attempt *)
      assert (G' := G). apply Z.geb_le in G'.
      erewrite (bind_return (try_except _ _)).
      2:{ unfold try_except.
          erewrite bind_raise by (apply connect_refused; exact Hd).
          fold m1. cbv zeta.
          erewrite (bind_return (print _)) by apply print_runs.
          reflexivity. }
      cbv beta iota. eexists. split.
      { unfold ret. repeat f_equal; f_equal; lia. }
      replace (Nat.min (k + S n) (max - 1) - k)%nat with 0%nat by lia.
      replace (k + S n <? max)%nat with false
        by (symmetry; apply Nat.ltb_ge; lia).
      split; [unfold naps; cbn; now rewrite app_nil_r|].
      split; [unfold dials; cbn; lia|exact Hw].
    + (* wait and try again *)
      assert (G' := G). rewrite Z.geb_leb in G'. apply Z.leb_gt in G'.
      set (m2 := rested (schedule k)
                   (said (RetryingIn (schedule k))
                      (said (AttemptFailed (Z.of_nat k + 1) (Z.of_nat max)
                               TransportError) m1))).
      erewrite (bind_return (try_except _ _) _ m m2).
      2:{ unfold try_except.
          erewrite bind_raise by (apply connect_refused; exact Hd).
          fold m1. cbv zeta.
          erewrite (bind_return (print _)) by apply print_runs.
          erewrite (bind_return (print _)) by apply print_runs.
          erewrite (bind_return (sleep _)) by apply sleep_runs.
          reflexivity. }
      cbv beta iota. rewrite schedule_next.
      replace (Z.of_nat k + 1) with (Z.of_nat (S k)) by lia.
      destruct (IH fuel (S k) m2 script later Hk Hw eq_refl
                  ltac:(lia) ltac:(lia)) as (m' & E & Hn & Hdl & Hc).
      exists m'. rewrite E.
      replace (S k + n)%nat with (k + S n)%nat in * by lia.
      split; [reflexivity|]. split; [|split].
      * rewrite Hn. unfold naps at 1. subst m2. cbn [rested world slept with_slept].
        fold (naps m).
        replace (Nat.min (k + S n) (max - 1) - k)%nat
          with (S (Nat.min (k + S n) (max - 1) - S k))%nat by lia.
        cbn [seq map]. rewrite <- app_assoc. reflexivity.
      * rewrite Hdl. unfold dials. subst m2 m1.
        cbn [rested said refused world dialled with_slept with_now
             with_stdout with_dial].
        lia.
      * exact Hc.
Qed.

(** One run of the loop of example 7, against [n] failures followed by a
    success. *)
Lemma reconnection_schedule (max_retries n : nat) (m : Machine) script later :
  dial (world m) = (repeat None n ++ Some script :: later)%list ->
  exists r m',
    reconnection (Z.of_nat max_retries) m = (Return r, m')
    /\ naps m'
       = (naps m
          ++ map schedule (seq 0 (Nat.min n (max_retries - 1)))
          ++ if (n <? max_retries)%nat then [1] else [])%list
    /\ dials m' = (dials m + Nat.min (S n) max_retries)%nat
    /\ websocket (self m') = None
    /\ ((n < max_retries)%nat -> dial (world m') = later).
Proof.
  intros Hd. unfold reconnection.
  step (print_runs (Banner "Example 7: Reconnection Logic") m).
  set (m0 := with_self (fun _ => init default_url None true 3)
               (said (Banner "Example 7: Reconnection Logic") m)).
  step (set_self_runs (fun _ => init default_url None true 3)
          (said (Banner "Example 7: Reconnection Logic") m)).
  fold m0. rewrite Nat2Z.id.
  destruct max_retries as [|p].
  - (* the loop is not entered *)
    cbn [retry_loop Z.of_nat Z.ltb Z.compare].
    step (eq_refl : ret (0, 1) m0 = (Return (0, 1), m0)).
    step (close_disconnected m0 eq_refl).
    cbn [Nat.sub]. rewrite Nat.min_0_r.
    eexists. eexists. split; [reflexivity|].
    unfold naps, dials. cbn. rewrite app_nil_r.
    repeat match goal with |- _ /\ _ => split end; try reflexivity; lia.
  - destruct (retry_loop_schedule (S p) n (S p) 0 m0 script later
                eq_refl eq_refl Hd ltac:(lia) ltac:(lia))
      as (m1 & E & Hn & Hdl & Hc).
    cbn [Nat.add] in *.
    step E.
    destruct (n <? S p)%nat eqn:L.
    + destruct Hc as [Hc Hl].
      step (close_connected m1 _ Hc). eexists. eexists. split; [reflexivity|].
      unfold naps, dials in *. cbn [with_self said world slept dialled with_stdout self
                                    set_authenticated set_websocket websocket dial].
      rewrite slept_put_conn, dialled_put_conn, Hn, Hdl, Nat.sub_0_r.
      repeat match goal with |- _ /\ _ => split end; try reflexivity.
      intros _. rewrite <- Hl. unfold put_conn.
      destruct (websocket (self m1)); reflexivity.
    + step (close_disconnected m1 Hc). eexists. eexists. split; [reflexivity|].
      rewrite Hn, Hdl, Nat.sub_0_r.
      repeat match goal with |- _ /\ _ => split end; auto.
      apply Nat.ltb_ge in L. lia.
Qed.



(** ** Streaming results *)

Lemma batch_frame (frame : JSON) (n : nat) (more : bool) :
  batch frame = Some (n, more) ->
  truthy frame = true
  /\ exists ty payload rows,
       getitem frame "type" = Return ty
       /\ eq_str ty "data" = true
       /\ getitem frame "payload" = Return payload
       /\ dict_get payload "rows" (JArr []) = Return rows
       /\ len rows = Return n
       /\ dict_get payload "has_more" (JBool false) = Return (JBool more).
Proof.
  unfold batch. destruct frame as [| | | | |members]; try discriminate.
  destruct (assoc "type" members) as [[| | |ty| |]|] eqn:T; try discriminate.
  destruct (assoc "payload" members) as [[| | | | |payload]|] eqn:P;
    try discriminate.
  destruct (String.eqb ty "data") eqn:D; [|discriminate].
  destruct (assoc "rows" payload) as [[| | | |rows|]|] eqn:R; try discriminate.
  destruct (assoc "has_more" payload) as [[|b| | | |]|] eqn:H; try discriminate.
  intros [= <- <-]. split.
  - destruct members; [discriminate T|reflexivity].
  - exists (JStr ty), (JObj payload), (JArr rows). cbn.
    rewrite T, P, R, H. repeat split; auto.
Qed.

Lemma error_frame (frame message : JSON) :
  error_message frame = Some message ->
  truthy frame = true
  /\ exists ty payload,
       getitem frame "type" = Return ty
       /\ eq_str ty "data" = false
       /\ eq_str ty "error" = true
       /\ getitem frame "payload" = Return payload
       /\ dict_get payload "message" JNull = Return message.
Proof.
  unfold error_message. destruct frame as [| | | | |members]; try discriminate.
  destruct (assoc "type" members) as [[| | |ty| |]|] eqn:T; try discriminate.
  destruct (assoc "payload" members) as [[| | | | |payload]|] eqn:P;
    try discriminate.
  destruct (String.eqb ty "error") eqn:D; [|discriminate].
  intros H. split.
  - destruct members; [discriminate T|reflexivity].
  - exists (JStr ty), (JObj payload). cbn. rewrite T, P, D.
    apply String.eqb_eq in D. subst ty.
    destruct (assoc "message" payload); injection H as <-; auto.
Qed.

(** One turn of the loop of example 8 on a batch that is due within ten
    seconds. *)
Lemma stream_body_batch (total : Z) (m : Machine) (s : Socket) (t size : Z)
    (frame : JSON) (rest : list Arrival) (n : nat) (more : bool) :
  conn m = Some s ->
  closed s = false ->
  inbound s = Arrives t size (Encoded frame) :: rest ->
  size <= max_size ->
  t < now (world m) + 10 ->
  batch frame = Some (n, more) ->
  let m1 := said (ReceivedBatch (Z.of_nat n) (total + Z.of_nat n))
              (put_conn (set_inbound rest s)
                 (at_time (Z.max (now (world m)) t) m)) in
  stream_body total m
  = if more then (Return (Continue (total + Z.of_nat n)), m1)
    else (Return (Break (total + Z.of_nat n)), said AllResultsReceived m1).
Proof.
  intros Hs Hc Hi Hz Ht Hb m1.
  destruct (batch_frame frame n more Hb)
    as (T & ty & payload & rows & G & D & P & R & L & M).
  unfold stream_body.
  step (receive_message_frame 10 m s t size (Encoded frame) rest Hs Hc Hi Hz
          ltac:(lia) Ht).
  cbv zeta. rewrite T. cbn [negb].
  unfold bind, lift, ret. cbn beta iota.
  rewrite G. cbn beta iota. rewrite D, P. cbn beta iota.
  rewrite R. cbn beta iota. rewrite L. cbn beta iota. rewrite M.
  subst m1. destruct more; reflexivity.
Qed.

(** One turn of the loop on an [error] frame. *)
Lemma stream_body_error (total : Z) (m : Machine) (s : Socket) (t size : Z)
    (frame message : JSON) (rest : list Arrival) :
  conn m = Some s ->
  closed s = false ->
  inbound s = Arrives t size (Encoded frame) :: rest ->
  size <= max_size ->
  t < now (world m) + 10 ->
  error_message frame = Some message ->
  stream_body total m
  = (Return (Break total),
     said (ErrorMessage message)
       (put_conn (set_inbound rest s) (at_time (Z.max (now (world m)) t) m))).
Proof.
  intros Hs Hc Hi Hz Ht He.
  destruct (error_frame frame message He) as (T & ty & payload & G & D & E & P & M).
  unfold stream_body.
  step (receive_message_frame 10 m s t size (Encoded frame) rest Hs Hc Hi Hz
          ltac:(lia) Ht).
  cbv zeta. rewrite T. cbn [negb].
  unfold bind, lift, ret. cbn beta iota.
  rewrite G. cbn beta iota. rewrite D, E, P. cbn beta iota.
  rewrite M. reflexivity.
Qed.

(** One turn of the loop when nothing is due within ten seconds. *)
Lemma stream_body_silence (total : Z) (m : Machine) (s : Socket) :
  conn m = Some s ->
  closed s = false ->
  silent_for 10 m = true ->
  stream_body total m
  = (Return (Break total),
     said NoMoreMessages (said TimeoutWaiting (at_time (now (world m) + 10) m))).
Proof.
  intros Hs Hc Hq. unfold stream_body.
  step (receive_message_silence 10 m s Hs Hc ltac:(lia) Hq).
  cbn [truthy negb].
  erewrite (bind_return (print NoMoreMessages)) by apply print_runs.
  reflexivity.
Qed.

Lemma async_with_return {A} (c : Client) (body : Py A)
    (m m1 m2 m3 : Machine) (a : A) :
  connect (with_self (fun _ => c) m) = (Return tt, m1) ->
  body m1 = (Return a, m2) ->
  close m2 = (Return tt, m3) ->
  async_with c body m = (Return a, m3).
Proof.
  intros Hc Hb Hx. unfold async_with.
  step (set_self_runs (fun _ => c) m). step Hc.
  rewrite Hb, Hx. reflexivity.
Qed.

(** The loop of example 8 ends at an [error] frame, with the total it had. *)
Lemma stream_loop_error (fuel : nat) (total : Z) (m : Machine) (s : Socket)
    (t size : Z) (frame message : JSON) (rest : list Arrival) :
  conn m = Some s ->
  closed s = false ->
  inbound s = Arrives t size (Encoded frame) :: rest ->
  size <= max_size ->
  t < now (world m) + 10 ->
  error_message frame = Some message ->
  exists m',
    stream_loop (S fuel) total m = (Return total, m')
    /\ unread m' = rest
    /\ stdout (world m') = (stdout (world m) ++ [ErrorMessage message])%list.
Proof.
  intros Hs Hc Hi Hz Ht He. cbn [stream_loop].
  step (stream_body_error total m s t size frame message rest Hs Hc Hi Hz Ht He).
  eexists. split; [reflexivity|].
  unfold unread. rewrite conn_said.
  erewrite conn_put_conn by (rewrite conn_at_time; exact Hs).
  autorewrite with machine. auto.
Qed.

(** C5, as stated, fails: the two batches are there, of five rows and of
    three, but the second takes more than ten seconds to follow the first.
    The loop gives up waiting, takes the silence for the end of the stream
    and ends with a total of five; the second batch is never read. *)
Lemma late_batch_is_not_counted :
  exists m',
    streaming_results late_second_batch = (Return 5, m')
    /\ stdout (world m')
       = [Banner "Example 8: Streaming Results";
          Connecting default_url; ConnectedOk; Executing large_query;
          ReceivedBatch 5 5; TimeoutWaiting; NoMoreMessages; ConnectionClosed]
    /\ ~ two_batches_make_eight.
Proof.
  exists (snd (streaming_results late_second_batch)).
  split; [vm_compute; reflexivity|]. split; [vm_compute; reflexivity|].
  intros H.
  specialize (H late_second_batch 1 256 13 256 _ _ [] [] eq_refl
                ltac:(discriminate) ltac:(discriminate) eq_refl eq_refl).
  vm_compute in H. discriminate H.
Qed.

(** C5, amended. The server answers the query of example 8 with a batch of
    five rows and [has_more = true] and then a batch of three rows and
    [has_more = false], each no longer than [max_size], the first due
    within ten seconds, on a connection that has not been found lost when
    the query is sent. If the second batch is due within ten seconds of the
    reading of the first, the loop ends at it with [total_rows = 8]: the
    two batches are reported once each, with running totals 5 and 8,
    exactly these two frames have been taken off the connection, and
    whatever the server sends later is left unread. If the second batch
    takes longer, the loop ends without it, with [total_rows = 5]. The
    loop likewise ends at an [error] frame, with the total unchanged. *)
Theorem streaming_two_batches (m : Machine) (t1 size1 t2 size2 : Z)
    (first second : JSON) (rest : list Arrival)
    (later : list (option (list Arrival))) :
  dial (world m)
  = Some (Arrives t1 size1 (Encoded first)
            :: Arrives t2 size2 (Encoded second) :: rest) :: later ->
  batch first = Some (5%nat, true) ->
  batch second = Some (3%nat, false) ->
  size1 <= max_size ->
  size2 <= max_size ->
  lost (Arrives t1 size1 (Encoded first)
          :: Arrives t2 size2 (Encoded second) :: rest) (now (world m))
  = false ->
  t1 < now (world m) + 10 ->
  (t2 < Z.max (now (world m)) t1 + 10 ->
   exists m',
     streaming_results m = (Return 8, m')
     /\ stdout (world m')
        = (stdout (world m)
           ++ [Banner "Example 8: Streaming Results";
               Connecting default_url; ConnectedOk; Executing large_query;
               ReceivedBatch 5 5; ReceivedBatch 3 8; AllResultsReceived;
               ConnectionClosed])%list
     /\ websocket (self m') = None
     /\ sockets (world m') !! List.length (sockets (world m))
        = Some {| inbound := rest;
                  outbox := [Encoded (stream_envelope large_query (stamp m)
                                        (next_id m))];
                  closed := true |})
  /\ (Z.max (now (world m)) t1 + 10 <= t2 ->
      exists m',
        streaming_results m = (Return 5, m')
        /\ stdout (world m')
           = (stdout (world m)
              ++ [Banner "Example 8: Streaming Results";
                  Connecting default_url; ConnectedOk; Executing large_query;
                  ReceivedBatch 5 5; TimeoutWaiting; NoMoreMessages;
                  ConnectionClosed])%list
        /\ websocket (self m') = None
        /\ sockets (world m') !! List.length (sockets (world m))
           = Some {| inbound := Arrives t2 size2 (Encoded second) :: rest;
                     outbox := [Encoded (stream_envelope large_query (stamp m)
                                           (next_id m))];
                     closed := true |})
  /\ (forall fuel total m0 s t size frame message unread_after,
        conn m0 = Some s ->
        closed s = false ->
        inbound s = Arrives t size (Encoded frame) :: unread_after ->
        size <= max_size ->
        t < now (world m0) + 10 ->
        error_message frame = Some message ->
        exists m',
          stream_loop (S fuel) total m0 = (Return total, m')
          /\ unread m' = unread_after).
Proof.
  intros Hd B1 B2 Z1 Z2 Hl T1.
  assert (Herr : forall fuel total m0 s t size frame message unread_after,
            conn m0 = Some s ->
            closed s = false ->
            inbound s = Arrives t size (Encoded frame) :: unread_after ->
            size <= max_size ->
            t < now (world m0) + 10 ->
            error_message frame = Some message ->
            exists m',
              stream_loop (S fuel) total m0 = (Return total, m')
              /\ unread m' = unread_after).
  { intros fuel total m0 s t size frame message unread_after Hs Hc Hi Hz Ht He.
    destruct (stream_loop_error fuel total m0 s t size frame message unread_after
                Hs Hc Hi Hz Ht He) as (m' & E & U & _).
    eauto. }
  set (script := Arrives t1 size1 (Encoded first)
                   :: Arrives t2 size2 (Encoded second) :: rest) in *.
  set (h := List.length (sockets (world m))).
  set (banner := said (Banner "Example 8: Streaming Results") m).
  set (m0 := with_self (fun _ => default_client) banner).
  set (m1 := with_self (set_reconnect_count 0)
               (said ConnectedOk
                  (with_self (set_websocket (Some h))
                     (opened script later (said (Connecting default_url) m0))))).
  assert (Hconnect : connect m0 = (Return tt, m1))
    by (apply (connect_accepted m0 script later eq_refl Hd)).
  set (s0 := mkSocket script [] false).
  assert (H1 : conn m1 = Some s0)
    by exact (conn_opened script later (said (Connecting default_url) m0)).
  set (query := Encoded (stream_envelope large_query (stamp m) (next_id m))).
  set (s1 := set_outbox (outbox s0 ++ [query]) s0).
  set (m2 := put_conn s1 (drew (said (Executing large_query) m1))).
  assert (H2 : conn m2 = Some s1)
    by (eapply conn_put_conn; rewrite conn_drew, conn_said; exact H1).
  set (s2 := set_inbound (Arrives t2 size2 (Encoded second) :: rest) s1).
  set (m3 := said (ReceivedBatch 5 5)
               (put_conn s2 (at_time (Z.max (now (world m2)) t1) m2))).
  assert (H3 : conn m3 = Some s2)
    by (unfold m3; rewrite conn_said; eapply conn_put_conn;
        rewrite conn_at_time; exact H2).
  assert (N2 : now (world m2) = now (world m))
    by (unfold m2; rewrite now_put_conn; reflexivity).
  assert (N3 : now (world m3) = Z.max (now (world m)) t1)
    by (unfold m3; rewrite now_said, now_put_conn, now_at_time, N2; reflexivity).
  assert (Hfirst :
            (print (Executing large_query);;
             ts <- timestamp;;
             id <- uuid4_str;;
             send_message (stream_envelope large_query ts id);;
             fun m => stream_loop (S (List.length (unread m))) 0 m) m1
            = (r <- stream_body 5;;
               match r with
               | Break final => ret final
               | Continue total_rows =>
                   stream_loop (S (List.length rest)) total_rows
               end) m3).
  { step (print_runs (Executing large_query) m1).
    step (timestamp_runs (said (Executing large_query) m1)).
    step (uuid4_str_runs (said (Executing large_query) m1)).
    step (send_message_ok
            (stream_envelope large_query (stamp m) (next_id m))
            (drew (said (Executing large_query) m1)) s0 H1 eq_refl Hl).
    fold query s1 m2. unfold unread. rewrite H2.
    cbn [inbound s1 set_outbox s0 script List.length stream_loop].
    step (stream_body_batch 0 m2 s1 t1 size1 first
            (Arrives t2 size2 (Encoded second) :: rest) 5 true H2 eq_refl eq_refl
            Z1 ltac:(rewrite N2; exact T1) B1).
    cbv beta iota. fold s2 m3. reflexivity. }
  split; [|split; [|exact Herr]].
  - intros T2.
    set (s3 := set_inbound rest s2).
    set (m4 := said AllResultsReceived
                 (said (ReceivedBatch 3 8)
                    (put_conn s3 (at_time (Z.max (now (world m3)) t2) m3)))).
    assert (H4 : conn m4 = Some s3)
      by (unfold m4; rewrite !conn_said; eapply conn_put_conn;
          rewrite conn_at_time; exact H3).
    eexists. split.
    + unfold streaming_results.
      step (print_runs (Banner "Example 8: Streaming Results") m). fold banner.
      refine (async_with_return default_client _ banner m1 m4 _ 8
                Hconnect _ (close_connected m4 s3 H4)).
      rewrite Hfirst.
      step (stream_body_batch 5 m3 s2 t2 size2 second rest 3 false H3 eq_refl
              eq_refl Z2 ltac:(rewrite N3; exact T2) B2).
      reflexivity.
    + split; [|split].
      * cbn [with_self world]. subst m4 m3 m2 m1 m0 banner.
        autorewrite with machine.
        cbn [stdout world with_self said opened with_stdout with_sockets with_dial].
        repeat rewrite <- app_assoc. reflexivity.
      * reflexivity.
      * change (conn (put_conn (set_closed true s3) m4)
                = Some (set_closed true s3)).
        eapply conn_put_conn. exact H4.
  - intros T2.
    set (m4 := said NoMoreMessages
                 (said TimeoutWaiting (at_time (now (world m3) + 10) m3))).
    assert (H4 : conn m4 = Some s2)
      by (unfold m4; rewrite !conn_said, conn_at_time; exact H3).
    assert (Hq : silent_for 10 m3 = true).
    { unfold silent_for, unread, due_within. rewrite H3, N3.
      cbn [inbound s2 set_inbound arrival_time].
      apply negb_true_iff, Z.ltb_ge. exact T2. }
    eexists. split.
    + unfold streaming_results.
      step (print_runs (Banner "Example 8: Streaming Results") m). fold banner.
      refine (async_with_return default_client _ banner m1 m4 _ 5
                Hconnect _ (close_connected m4 s2 H4)).
      rewrite Hfirst.
      step (stream_body_silence 5 m3 s2 H3 eq_refl Hq).
      reflexivity.
    + split; [|split].
      * cbn [with_self world]. subst m4 m3 m2 m1 m0 banner.
        autorewrite with machine.
        cbn [stdout world with_self said opened with_stdout with_sockets with_dial].
        repeat rewrite <- app_assoc. reflexivity.
      * reflexivity.
      * change (conn (put_conn (set_closed true s2) m4)
                = Some (set_closed true s2)).
        eapply conn_put_conn. exact H4.
Qed.

(** The same, at [two_batches] and at [late_second_batch]. *)
Lemma streaming_two_batches_witness :
  (exists m',
     streaming_results two_batches = (Return 8, m')
     /\ stdout (world m')
        = [Banner "Example 8: Streaming Results";
           Connecting default_url; ConnectedOk; Executing large_query;
           ReceivedBatch 5 5; ReceivedBatch 3 8; AllResultsReceived;
           ConnectionClosed]
     /\ websocket (self m') = None)
  /\ (exists m',
        streaming_results late_second_batch = (Return 5, m')
        /\ websocket (self m') = None).
Proof.
  split.
  - destruct (proj1 (streaming_two_batches two_batches 1 256 2 256 _ _ [] []
                       eq_refl eq_refl eq_refl ltac:(discriminate)
                       ltac:(discriminate) eq_refl eq_refl) eq_refl)
      as (m' & E & O & W & _).
    exists m'. auto.
  - destruct (proj1 (proj2 (streaming_two_batches late_second_batch 1 256 13 256
                              _ _ [] [] eq_refl eq_refl eq_refl
                              ltac:(discriminate) ltac:(discriminate)
                              eq_refl eq_refl)) ltac:(discriminate))
      as (m' & E & _ & W & _).
    exists m'. auto.
Defined.

(** ** The fuel of the two loops is enough

    [reconnection] gives its loop [max_retries] units of fuel and
    [streaming_results] one more than there are arrivals waiting. Neither
    loop can use them up: any larger amount gives the same run. *)

Lemma bind_inv {A B} (c : Py A) (k : A -> Py B) (m m' : Machine) (b : B) :
  bind c k m = (Return b, m') ->
  exists a m1, c m = (Return a, m1) /\ k a m1 = (Return b, m').
Proof.
  unfold bind. destruct (c m) as [[a|e|] m1]; try discriminate. eauto.
Qed.

Lemma retry_body_continue (max_retries retry_count retry_delay : Z)
    (m m' : Machine) (next : Z * Z) :
  retry_body max_retries retry_count retry_delay m = (Return (Continue next), m') ->
  fst next = retry_count + 1.
Proof.
  unfold retry_body, try_except.
  destruct ((connect;; print ConnectedOk;; sleep 1;;
             ret (Break (retry_count, retry_delay))) m)
    as [[a|e|] m1] eqn:E.
  - apply bind_inv in E as (? & ? & _ & E).
    apply bind_inv in E as (? & ? & _ & E).
    apply bind_inv in E as (? & ? & _ & E).
    injection E as <- <-. discriminate.
  - destruct (retry_count + 1 >=? max_retries).
    + intros H. apply bind_inv in H as (? & ? & _ & H). discriminate H.
    + intros H. apply bind_inv in H as (? & ? & _ & H).
      apply bind_inv in H as (? & ? & _ & H).
      apply bind_inv in H as (? & ? & _ & H).
      injection H as <- <-. reflexivity.
  - discriminate.
Qed.

Lemma retry_loop_fuel (max_retries : Z) :
  forall (fuel fuel' : nat) (retry_count retry_delay : Z) (m : Machine),
    (Z.to_nat (max_retries - retry_count) <= fuel)%nat ->
    (Z.to_nat (max_retries - retry_count) <= fuel')%nat ->
    retry_loop fuel max_retries retry_count retry_delay m
    = retry_loop fuel' max_retries retry_count retry_delay m.
Proof.
  induction fuel as [|fuel IH]; intros fuel' rc rd m H H';
    destruct fuel' as [|fuel']; cbn [retry_loop];
    destruct (rc <? max_retries) eqn:L; try reflexivity;
    try (apply Z.ltb_lt in L; lia).
  unfold bind.
  destruct (retry_body max_retries rc rd m) as [[[final|[rc' rd']]|e|] m1] eqn:E;
    try reflexivity.
  apply retry_body_continue in E. cbn in E. subst rc'.
  apply Z.ltb_lt in L. apply IH; lia.
Qed.

Lemma keeps_unread_print (l : Line) : keeps unread (print l).
Proof. intros m. reflexivity. Qed.

#[local] Hint Resolve keeps_unread_print : keeps.

(** A reply that is not [None] has been taken off the connection. *)
Lemma receive_message_consumes (timeout : option Duration) (m m' : Machine)
    (r : JSON) :
  receive_message timeout m = (Return r, m') ->
  truthy r = true ->
  (List.length (unread m') < List.length (unread m))%nat.
Proof.
  unfold receive_message. intros H. apply bind_inv in H as (c & m0 & E & H).
  injection E as <- <-. revert H. unfold unread at 2, conn.
  destruct (websocket (self m)) as [h|] eqn:W; [|discriminate].
  unfold try_except, bind, ws_recv.
  destruct (expired (effective_timeout timeout)).
  { cbn. intros H T. injection H as <- <-. discriminate T. }
  destruct (sockets (world m) !! h) as [s|] eqn:S; [|discriminate].
  destruct (closed s); [discriminate|].
  assert (U : forall t rest,
             unread {| self := self m;
                       world := with_sockets
                                  (<[h := set_inbound rest s]>
                                     (sockets (world m)))
                                  (with_now t (world m)) |} = rest).
  { intros t rest. unfold unread, conn. cbn. rewrite W.
    rewrite list_lookup_insert_eq by (eapply lookup_lt_Some; exact S).
    reflexivity. }
  cbv zeta.
  destruct (inbound s) as [|[t size [j|raw| | |]|t] rest],
           (fires (world m) (effective_timeout timeout)) as [t0|];
    repeat match goal with |- context [if ?b then _ else _] => destruct b end;
    cbn; intros H T;
    first [ discriminate H
          | injection H as <- <-;
            first [ discriminate T | rewrite U; cbn; lia ] ].
Qed.

Lemma stream_body_continue (total next : Z) (m m' : Machine) :
  stream_body total m = (Return (Continue next), m') ->
  (List.length (unread m') < List.length (unread m))%nat.
Proof.
  unfold stream_body. intros H. apply bind_inv in H as (r & m1 & E & H).
  destruct (truthy r) eqn:T; cbn [negb] in H.
  - apply receive_message_consumes in E; [|exact T].
    match type of H with
    | ?k m1 = _ =>
        assert (K : keeps unread k) by keeps_auto;
        specialize (K m1); rewrite H in K
    end.
    cbn [snd] in K. rewrite K. exact E.
  - apply bind_inv in H as (? & ? & _ & H). discriminate H.
Qed.

Lemma stream_loop_fuel :
  forall (fuel fuel' : nat) (total : Z) (m : Machine),
    (List.length (unread m) < fuel)%nat ->
    (List.length (unread m) < fuel')%nat ->
    stream_loop fuel total m = stream_loop fuel' total m.
Proof.
  induction fuel as [|fuel IH]; intros fuel' total m H H'; [lia|].
  destruct fuel' as [|fuel']; [lia|]. cbn [stream_loop]. unfold bind.
  destruct (stream_body total m) as [[[final|next]|e|] m1] eqn:E;
    try reflexivity.
  apply stream_body_continue in E. apply IH; lia.
Qed.

(** * Further properties of the client *)

(** ** The [authenticated] flag and the handle *)

Lemma keeps_self_print (l : Line) : keeps self (print l).
Proof. intros m. reflexivity. Qed.

Lemma keeps_self_timestamp : keeps self timestamp.
Proof. intros m. reflexivity. Qed.

Lemma keeps_self_uuid4_str : keeps self uuid4_str.
Proof. intros m. reflexivity. Qed.

Lemma keeps_self_sleep (d : Z) : keeps self (sleep d).
Proof. intros m. reflexivity. Qed.

Lemma keeps_self_ws_send (h : nat) (text : WireText) : keeps self (ws_send h text).
Proof.
  intros m. unfold ws_send.
  destruct (sockets (world m) !! h) as [s|]; [|reflexivity].
  destruct (closed s || hung_up s (now (world m))); reflexivity.
Qed.

Lemma keeps_self_ws_recv (h : nat) (timeout : option Duration) :
  keeps self (ws_recv h timeout).
Proof.
  intros m. unfold ws_recv.
  destruct (expired timeout); [reflexivity|].
  destruct (sockets (world m) !! h) as [s|]; [|reflexivity].
  destruct (closed s); [reflexivity|].
  destruct (fires (world m) timeout) as [t0|],
           (inbound s) as [|[t size text|t] rest]; cbv zeta;
    repeat match goal with |- context [if ?b then _ else _] => destruct b end;
    reflexivity.
Qed.

Lemma keeps_self_ws_close (h : nat) : keeps self (ws_close h).
Proof.
  intros m. unfold ws_close. destruct (sockets (world m) !! h); reflexivity.
Qed.

#[local] Hint Resolve keeps_self_print keeps_self_timestamp keeps_self_uuid4_str
  keeps_self_sleep keeps_self_ws_send keeps_self_ws_recv keeps_self_ws_close
  : keeps.

Lemma keeps_self_send_message (message : JSON) : keeps self (send_message message).
Proof. unfold send_message. keeps_auto. Qed.

Lemma keeps_self_receive_message (timeout : option Duration) :
  keeps self (receive_message timeout).
Proof. unfold receive_message. keeps_auto. Qed.

#[local] Hint Resolve keeps_self_send_message keeps_self_receive_message : keeps.

Lemma keeps_self_execute_query sql params streaming :
  keeps self (execute_query sql params streaming).
Proof. unfold execute_query. keeps_auto. Qed.

Lemma keeps_self_ping : keeps self ping.
Proof. unfold ping. keeps_auto. Qed.

(** A computation that does not touch the client object does not touch
    what is read off it. *)
Lemma keeps_of_self {A B} (g : Client -> B) (c : Py A) :
  keeps self c -> keeps (fun m => g (self m)) c.
Proof. intros K m. cbv beta. rewrite K. reflexivity. Qed.

Lemma keeps_handle_set_authenticated (b : bool) :
  keeps handle (set_self (set_authenticated b)).
Proof. intros m. reflexivity. Qed.

Lemma keeps_handle_set_reconnect_count (n : Z) :
  keeps handle (set_self (set_reconnect_count n)).
Proof. intros m. reflexivity. Qed.

Lemma keeps_handle_print (l : Line) : keeps handle (print l).
Proof. intros m. reflexivity. Qed.

Lemma keeps_handle_timestamp : keeps handle timestamp.
Proof. intros m. reflexivity. Qed.

Lemma keeps_handle_uuid4_str : keeps handle uuid4_str.
Proof. intros m. reflexivity. Qed.

Lemma keeps_handle_send_message (message : JSON) :
  keeps handle (send_message message).
Proof. apply (keeps_of_self websocket), keeps_self_send_message. Qed.

Lemma keeps_handle_receive_message (timeout : option Duration) :
  keeps handle (receive_message timeout).
Proof. apply (keeps_of_self websocket), keeps_self_receive_message. Qed.

#[local] Hint Resolve keeps_handle_set_authenticated
  keeps_handle_set_reconnect_count keeps_handle_print keeps_handle_timestamp
  keeps_handle_uuid4_str keeps_handle_send_message keeps_handle_receive_message
  : keeps.

(** [authenticate] never changes which connection the client holds. *)
Lemma keeps_handle_authenticate : keeps handle authenticate.
Proof. unfold authenticate, and_type_is. keeps_auto. Qed.

#[local] Hint Resolve keeps_handle_authenticate : keeps.

(** Without a connection [authenticate] does not touch the client object. *)
Lemma authenticate_not_connected_self (m : Machine) :
  handle m = None -> self (snd (authenticate m)) = self m.
Proof.
  unfold handle. intros E. unfold authenticate.
  step (get_self_runs m).
  destruct (has_token (self m)); cbn [negb]; [|reflexivity].
  step (timestamp_runs m). step (uuid4_str_runs m).
  erewrite bind_raise
    by (apply send_message_not_connected; exact E).
  reflexivity.
Qed.

(** [connect] leaves the client object as it was or leaves it with a
    handle. *)
Lemma connect_self_or_handle (m : Machine) :
  self (snd (connect m)) = self m \/ handle (snd (connect m)) <> None.
Proof.
  destruct (dial (world m)) as [|[script|] later] eqn:D.
  - left. unfold connect. step (get_self_runs m).
    step (print_runs (Connecting (url (self m))) m). unfold try_except.
    erewrite bind_raise
      by (unfold websockets_connect; cbn [said world dial with_stdout];
          rewrite D; reflexivity).
    reflexivity.
  - right. unfold connect. step (get_self_runs m).
    step (print_runs (Connecting (url (self m))) m). unfold try_except.
    step (websockets_connect_opens (url (self m))
            (said (Connecting (url (self m))) m) script later D).
    erewrite (bind_return (set_self _)) by apply set_self_runs.
    erewrite (bind_return (print ConnectedOk)) by apply print_runs.
    match goal with
    | |- handle (snd (let (o, m') := ?k ?m1 in _)) <> None =>
        assert (K : keeps handle k)
          by (destruct (has_token (self m)); keeps_auto);
        specialize (K m1); destruct (k m1) as [[[]|e|] m2];
        unfold handle in *; cbn in *; congruence
    end.
  - left. rewrite (connect_refused m later D). reflexivity.
Qed.

(** X1. A client that holds no connection never says it is authenticated.
    This holds of a client as constructed, and [connect], [authenticate],
    [send_message], [receive_message], [execute_query], [ping] and [close]
    all keep it, however they end. *)
Theorem flag_follows_handle (m : Machine) :
  consistent m ->
  consistent (snd (connect m))
  /\ consistent (snd (authenticate m))
  /\ (forall message, consistent (snd (send_message message m)))
  /\ (forall timeout, consistent (snd (receive_message timeout m)))
  /\ (forall sql params streaming,
        consistent (snd (execute_query sql params streaming m)))
  /\ consistent (snd (ping m))
  /\ consistent (snd (close m))
  /\ forall u token auto n,
       consistent {| self := init u token auto n; world := world m |}.
Proof.
  intros C.
  assert (S : forall m', self m' = self m -> consistent m').
  { intros m' E. unfold consistent, handle in *. rewrite E. exact C. }
  repeat match goal with |- _ /\ _ => split end.
  - destruct (connect_self_or_handle m) as [E|N]; [auto|].
    intros H. contradiction.
  - intros H. rewrite keeps_handle_authenticate in H.
    rewrite (authenticate_not_connected_self m H). auto.
  - intros. apply S, keeps_self_send_message.
  - intros. apply S, keeps_self_receive_message.
  - intros. apply S, keeps_self_execute_query.
  - apply S, keeps_self_ping.
  - unfold close. step (get_self_runs m). unfold consistent, handle in *.
    destruct (websocket (self m)) as [h|] eqn:W; [|intros _; exact (C eq_refl)].
    destruct (ws_close_returns h m) as (w & E & _).
    step E. reflexivity.
  - intros. intros _. reflexivity.
Qed.

(** The same, for a client that has just been constructed. *)
Lemma flag_follows_handle_witness :
  consistent (snd (connect {| self := default_client; world := quiet_world |})).
Proof.
  exact (proj1 (flag_follows_handle
                  {| self := default_client; world := quiet_world |}
                  (fun _ => eq_refl))).
Defined.

(** X2. After [close()] the client is not authenticated, whatever state it
    was closed in. *)
Theorem close_clears_authenticated (m : Machine) :
  consistent m ->
  authenticated (self (snd (close m))) = false
  /\ handle (snd (close m)) = None.
Proof.
  intros C. unfold close. step (get_self_runs m). unfold consistent, handle in *.
  destruct (websocket (self m)) as [h|] eqn:W.
  - destruct (ws_close_returns h m) as (w & E & _).
    step E. split; reflexivity.
  - cbn. auto.
Qed.

Lemma close_clears_authenticated_witness :
  authenticated (self (snd (close (snd (connect forgetful_server))))) = false.
Proof.
  refine (proj1 (close_clears_authenticated (snd (connect forgetful_server)) _)).
  intros H. vm_compute in H. discriminate H.
Defined.

(** ** The ways [connect] ends *)

(** X3. When [websockets.connect] fails, [connect()] reports the failure and
    raises the same exception again; the client object is exactly as it was
    (a connection it already held stays in place, [reconnect_count] is not
    touched) and no connection has been added. *)
Theorem connect_failure_keeps_client (m : Machine) :
  unreachable_now m = true ->
  exists m',
    connect m = (Raise TransportError, m')
    /\ self m' = self m
    /\ sockets (world m') = sockets (world m)
    /\ dials m' = S (dials m)
    /\ stdout (world m')
       = (stdout (world m)
          ++ [Connecting (url (self m)); ConnectionFailed TransportError])%list.
Proof.
  unfold unreachable_now. intros U.
  assert (E : exists later,
             websockets_connect (url (self m)) (said (Connecting (url (self m))) m)
             = (Raise TransportError,
                refused later (said (Connecting (url (self m))) m))).
  { unfold websockets_connect, refused. cbn [said world dial with_stdout].
    destruct (dial (world m)) as [|[script|] later];
      [exists [] | discriminate U | exists later]; reflexivity. }
  destruct E as (later & E).
  eexists. split.
  - unfold connect. step (get_self_runs m).
    step (print_runs (Connecting (url (self m))) m). unfold try_except.
    erewrite bind_raise by exact E. reflexivity.
  - cbn. rewrite <- app_assoc. auto.
Qed.

Lemma connect_failure_keeps_client_witness :
  exists m',
    connect slow_server = (Raise TransportError, m')
    /\ self m' = self slow_server
    /\ dials m' = 1%nat.
Proof.
  destruct (connect_failure_keeps_client slow_server eq_refl)
    as (m' & E & S & _ & D & _).
  exists m'. auto.
Defined.

(** [authenticate] on an open connection whose next frame, due within five
    seconds, is an [auth_success] reply. *)
Lemma authenticate_accepted (m : Machine) (s : Socket) (t size : Z)
    (reply : JSON) (rest : list Arrival) :
  conn m = Some s ->
  closed s = false ->
  hung_up s (now (world m)) = false ->
  inbound s = Arrives t size (Encoded reply) :: rest ->
  size <= max_size ->
  t < now (world m) + 5 ->
  has_token (self m) = true ->
  is_auth_success reply = true ->
  authenticate m
  = (Return true,
     with_self (set_authenticated true)
       (said AuthenticationSuccessful
          (put_conn (set_inbound rest (set_outbox (outbox s ++ [auth_sent m]) s))
             (at_time (Z.max (now (world m)) t)
                (said SentAuthentication
                   (put_conn (set_outbox (outbox s ++ [auth_sent m]) s)
                      (drew m))))))).
Proof.
  intros Hs Hc Hh Hi Hz Ht Hk Hr.
  unfold is_auth_success in Hr. apply andb_true_iff in Hr as [T G].
  destruct (getitem reply "type") as [ty| |] eqn:Gt; try discriminate G.
  unfold authenticate.
  step (get_self_runs m). rewrite Hk. cbn [negb].
  step (timestamp_runs m). step (uuid4_str_runs m).
  step (send_message_ok (auth_envelope (token_json (self m)) (stamp m) (next_id m))
          (drew m) s Hs Hc Hh).
  fold (auth_sent m).
  set (s1 := set_outbox _ s). set (m1 := put_conn s1 (drew m)).
  step (print_runs SentAuthentication m1).
  assert (H1 : conn (said SentAuthentication m1) = Some s1)
    by (rewrite conn_said; eapply conn_put_conn; rewrite conn_drew; exact Hs).
  assert (Ht1 : t < now (world (said SentAuthentication m1)) + 5)
    by (subst m1; autorewrite with machine; exact Ht).
  unfold default_timeout.
  step (receive_message_frame 5 (said SentAuthentication m1) s1 t size
          (Encoded reply) rest H1 Hc Hi Hz ltac:(lia) Ht1).
  cbv zeta. unfold and_type_is. rewrite T, Gt.
  unfold bind, lift, ret. cbn beta iota. rewrite G.
  subst m1. autorewrite with machine. reflexivity.
Qed.

(** [authenticate] on an open connection whose next frame is a non-empty
    JSON value from which [response["type"]] cannot be read. *)
Lemma authenticate_raises (m : Machine) (s : Socket) (t size : Z)
    (reply : JSON) (rest : list Arrival) (e : Exn) :
  conn m = Some s ->
  closed s = false ->
  hung_up s (now (world m)) = false ->
  inbound s = Arrives t size (Encoded reply) :: rest ->
  size <= max_size ->
  t < now (world m) + 5 ->
  has_token (self m) = true ->
  truthy reply = true ->
  getitem reply "type" = Raise e ->
  authenticate m
  = (Raise e,
     put_conn (set_inbound rest (set_outbox (outbox s ++ [auth_sent m]) s))
       (at_time (Z.max (now (world m)) t)
          (said SentAuthentication
             (put_conn (set_outbox (outbox s ++ [auth_sent m]) s) (drew m))))).
Proof.
  intros Hs Hc Hh Hi Hz Ht Hk T G.
  unfold authenticate.
  step (get_self_runs m). rewrite Hk. cbn [negb].
  step (timestamp_runs m). step (uuid4_str_runs m).
  step (send_message_ok (auth_envelope (token_json (self m)) (stamp m) (next_id m))
          (drew m) s Hs Hc Hh).
  fold (auth_sent m).
  set (s1 := set_outbox _ s). set (m1 := put_conn s1 (drew m)).
  step (print_runs SentAuthentication m1).
  assert (H1 : conn (said SentAuthentication m1) = Some s1)
    by (rewrite conn_said; eapply conn_put_conn; rewrite conn_drew; exact Hs).
  assert (Ht1 : t < now (world (said SentAuthentication m1)) + 5)
    by (subst m1; autorewrite with machine; exact Ht).
  unfold default_timeout.
  step (receive_message_frame 5 (said SentAuthentication m1) s1 t size
          (Encoded reply) rest H1 Hc Hi Hz ltac:(lia) Ht1).
  cbv zeta. unfold and_type_is. rewrite T, G.
  unfold bind, lift, ret. cbn beta iota.
  subst m1. autorewrite with machine. reflexivity.
Qed.

(** [connect] of a client with a token, once the connection is open, is
    [authenticate] followed by the reset of [reconnect_count], or by the
    report of what [authenticate] raised. *)
Lemma connect_with_token (m : Machine) script later :
  has_token (self m) = true ->
  dial (world m) = Some script :: later ->
  connect m
  = match authenticate (just_connected script later m) with
    | (Return _, m') => (Return tt, with_self (set_reconnect_count 0) m')
    | (Raise e, m') => (Raise e, said (ConnectionFailed e) m')
    | (Blocked, m') => (Blocked, m')
    end.
Proof.
  intros Hk Hd. unfold connect. step (get_self_runs m).
  step (print_runs (Connecting (url (self m))) m). unfold try_except.
  step (websockets_connect_opens (url (self m))
          (said (Connecting (url (self m))) m) script later Hd).
  erewrite (bind_return (set_self _)) by apply set_self_runs.
  erewrite (bind_return (print ConnectedOk)) by apply print_runs.
  rewrite Hk. unfold bind at 1. unfold bind at 1.
  match goal with
  | |- context [authenticate ?x] => change x with (just_connected script later m)
  end.
  destruct (authenticate (just_connected script later m)) as [[b|e|] m'];
    reflexivity.
Qed.

Lemma conn_just_connected script later (m : Machine) :
  conn (just_connected script later m) = Some (mkSocket script [] false).
Proof.
  exact (conn_opened script later (said (Connecting (url (self m))) m)).
Qed.

Lemma stdout_with_self (g : Client -> Client) (m : Machine) :
  stdout (world (with_self g m)) = stdout (world m).
Proof. reflexivity. Qed.

Lemma auth_sent_just_connected script later (m : Machine) :
  auth_sent (just_connected script later m) = auth_sent m.
Proof.
  unfold auth_sent, stamp, next_id, just_connected, token_json.
  cbn [said with_self opened self world set_websocket auth_token now wallclock
       entropy drawn with_stdout with_sockets with_dial].
  reflexivity.
Qed.

(** [connect] when the reply to the [auth] request is a non-empty JSON
    value from which [response["type"]] cannot be read. *)
Lemma connect_unreadable_reply (m : Machine) (t size : Z) (reply : JSON)
    (rest : list Arrival) (later : list (option (list Arrival))) (e : Exn) :
  has_token (self m) = true ->
  dial (world m) = Some (Arrives t size (Encoded reply) :: rest) :: later ->
  size <= max_size ->
  lost (Arrives t size (Encoded reply) :: rest) (now (world m)) = false ->
  t < now (world m) + 5 ->
  truthy reply = true ->
  getitem reply "type" = Raise e ->
  let script := Arrives t size (Encoded reply) :: rest in
  let m3 := just_connected script later m in
  let s1 := set_outbox [auth_sent m3] (mkSocket script [] false) in
  connect m
  = (Raise e,
     said (ConnectionFailed e)
       (put_conn (set_inbound rest s1)
          (at_time (Z.max (now (world m3)) t)
             (said SentAuthentication (put_conn s1 (drew m3)))))).
Proof.
  intros Hk Hd Hz Hl Ht T G script m3 s1.
  rewrite (connect_with_token m script later Hk Hd).
  rewrite (authenticate_raises (just_connected script later m) _ t size reply
             rest e (conn_just_connected script later m) eq_refl Hl eq_refl
             Hz Ht Hk T G).
  reflexivity.
Qed.

(** X4. [connect()] can raise after the connection has been opened. When
    the reply to the [auth] request (a frame no longer than [max_size], on
    a connection that has not been found lost when the request is sent) is
    a non-empty JSON value from which [response["type"]] cannot be read (an
    object without that key, an array, a number, a string), the exception
    of the subscript leaves [connect()]; the client then holds the new
    connection, still open, and [reconnect_count] and [authenticated] are
    as they were. *)
Theorem connect_raises_after_opening (m : Machine) (t size : Z) (reply : JSON)
    (rest : list Arrival) (later : list (option (list Arrival))) (e : Exn) :
  has_token (self m) = true ->
  dial (world m) = Some (Arrives t size (Encoded reply) :: rest) :: later ->
  size <= max_size ->
  lost (Arrives t size (Encoded reply) :: rest) (now (world m)) = false ->
  t < now (world m) + 5 ->
  truthy reply = true ->
  getitem reply "type" = Raise e ->
  exists m',
    connect m = (Raise e, m')
    /\ handle m' = Some (List.length (sockets (world m)))
    /\ live m' = true
    /\ unread m' = rest
    /\ reconnect_count (self m') = reconnect_count (self m)
    /\ authenticated (self m') = authenticated (self m)
    /\ printed_since m m'
       = [Connecting (url (self m)); ConnectedOk; SentAuthentication;
          ConnectionFailed e].
Proof.
  intros Hk Hd Hz Hl Ht T G.
  rewrite (connect_unreadable_reply m t size reply rest later e
             Hk Hd Hz Hl Ht T G).
  cbv zeta. set (script := Arrives t size (Encoded reply) :: rest).
  eexists. split; [reflexivity|].
  set (s1 := set_outbox _ _).
  set (m4 := put_conn (set_inbound rest s1) _).
  assert (H4 : conn m4 = Some (set_inbound rest s1)).
  { subst m4. eapply conn_put_conn. rewrite conn_at_time, conn_said.
    eapply conn_put_conn. rewrite conn_drew. apply conn_just_connected. }
  unfold live, unread. rewrite conn_said, H4.
  repeat match goal with |- _ /\ _ => split end; try reflexivity.
  unfold printed_since. subst m4. autorewrite with machine.
  cbn [just_connected said with_self opened world stdout with_stdout
       with_sockets with_dial].
  rewrite <- !app_assoc. apply drop_app_length.
Qed.

Lemma connect_raises_after_opening_witness :
  exists m',
    connect (answering (Some "secret") typeless_frame) = (Raise (KeyError "type"), m')
    /\ live m' = true.
Proof.
  destruct (connect_raises_after_opening
              (answering (Some "secret") typeless_frame) 1 256 typeless_frame
              [] [] (KeyError "type") eq_refl eq_refl ltac:(discriminate)
              eq_refl eq_refl eq_refl eq_refl)
    as (m' & E & _ & L & _).
  exists m'. auto.
Defined.

(** X5. When the reply to the [auth] request is [auth_success] (a frame no
    longer than [max_size], on a connection that has not been found lost
    when the request is sent), [connect()] returns normally with
    [authenticated] set, [reconnect_count] at 0 and the connection open;
    exactly the [auth] envelope has been sent on it and exactly the reply
    has been read. *)
Theorem connect_authenticates (m : Machine) (t size : Z) (reply : JSON)
    (rest : list Arrival) (later : list (option (list Arrival))) :
  has_token (self m) = true ->
  dial (world m) = Some (Arrives t size (Encoded reply) :: rest) :: later ->
  size <= max_size ->
  lost (Arrives t size (Encoded reply) :: rest) (now (world m)) = false ->
  t < now (world m) + 5 ->
  is_auth_success reply = true ->
  exists m',
    connect m = (Return tt, m')
    /\ authenticated (self m') = true
    /\ reconnect_count (self m') = 0
    /\ handle m' = Some (List.length (sockets (world m)))
    /\ live m' = true
    /\ unread m' = rest
    /\ sent m'
       = [Encoded (auth_envelope (token_json (self m)) (stamp m) (next_id m))]
    /\ printed_since m m'
       = [Connecting (url (self m)); ConnectedOk; SentAuthentication;
          AuthenticationSuccessful].
Proof.
  intros Hk Hd Hz Hl Ht Hr.
  set (script := Arrives t size (Encoded reply) :: rest) in *.
  rewrite (connect_with_token m script later Hk Hd).
  rewrite (authenticate_accepted (just_connected script later m) _ t size reply
             rest (conn_just_connected script later m) eq_refl Hl eq_refl
             Hz Ht Hk Hr).
  eexists. split; [reflexivity|].
  set (s1 := set_outbox _ _).
  set (m4 := put_conn (set_inbound rest s1) _).
  assert (H4 : conn m4 = Some (set_inbound rest s1)).
  { subst m4. eapply conn_put_conn. rewrite conn_at_time, conn_said.
    eapply conn_put_conn. rewrite conn_drew. apply conn_just_connected. }
  unfold live, unread, sent.
  rewrite conn_set_reconnect_count, conn_set_authenticated, conn_said, H4.
  repeat match goal with |- _ /\ _ => split end;
    [reflexivity | reflexivity | reflexivity | reflexivity | reflexivity | | ].
  { subst s1. rewrite auth_sent_just_connected. reflexivity. }
  unfold printed_since. subst m4.
  rewrite !stdout_with_self. autorewrite with machine.
  cbn [just_connected said with_self opened world stdout with_stdout
       with_sockets with_dial].
  rewrite <- !app_assoc. apply drop_app_length.
Qed.

Lemma connect_authenticates_witness :
  exists m',
    connect forgetful_server = (Return tt, m')
    /\ authenticated (self m') = true
    /\ live m' = true.
Proof.
  destruct (connect_authenticates forgetful_server 1 256 _ [] _
              eq_refl eq_refl ltac:(discriminate) eq_refl eq_refl eq_refl)
    as (m' & E & A & _ & _ & L & _).
  exists m'. auto.
Defined.

(** X6. [connect()] on a client that already holds a connection replaces
    the handle and never closes the connection it held: that one is left
    exactly as it was, open, with nothing that refers to it. *)
Theorem connect_abandons_held_connection (m : Machine) (h : nat) (s : Socket)
    script later :
  has_token (self m) = false ->
  handle m = Some h ->
  sockets (world m) !! h = Some s ->
  dial (world m) = Some script :: later ->
  exists m',
    connect m = (Return tt, m')
    /\ handle m' = Some (List.length (sockets (world m)))
    /\ handle m' <> Some h
    /\ sockets (world m') !! h = Some s
    /\ unread m' = script.
Proof.
  intros Hk Hh Hs Hd.
  rewrite (connect_accepted m script later Hk Hd).
  eexists. split; [reflexivity|].
  assert (Hlt : (h < List.length (sockets (world m)))%nat)
    by (eapply lookup_lt_Some; exact Hs).
  split; [reflexivity|]. split.
  - unfold handle. cbn. intros [= E]. lia.
  - split.
    + cbn. rewrite lookup_app_l by exact Hlt. exact Hs.
    + unfold unread.
      match goal with
      | |- match conn ?x with _ => _ end = _ =>
          replace (conn x) with (Some (mkSocket script [] false))
            by (symmetry;
                exact (conn_opened script later
                         (said (Connecting (url (self m))) m)))
      end.
      reflexivity.
Qed.

Lemma connect_abandons_held_connection_witness :
  exists m',
    connect connected_again = (Return tt, m')
    /\ handle m' = Some 1%nat
    /\ sockets (world m') !! 0%nat = Some (mkSocket [] [] false).
Proof.
  destruct (connect_abandons_held_connection connected_again 0 _ [] []
              eq_refl eq_refl eq_refl eq_refl) as (m' & E & H & _ & S & _).
  exists m'. auto.
Defined.

(** ** Heartbeat *)

(** X7. [ping()] takes whatever frame arrives next within five seconds as
    the answer to its ping. The next frame decodes to something other than
    [null], is no longer than [max_size] and arrives within five seconds.
    When the connection is open at both ends, [ping()] returns whether the
    [type] of that frame is ["pong"], and raises what the subscript raises
    when there is no [type] to read (an empty object included: the test is
    [is not None], not truthiness); the frame is taken off the connection
    whether it was a pong or not. When the connection has been found lost,
    [ping()] raises what [send] raises and the frame stays where it is. *)
Theorem ping_takes_next_frame (m : Machine) (s : Socket) (t size : Z)
    (reply : JSON) (rest : list Arrival) :
  conn m = Some s ->
  closed s = false ->
  inbound s = Arrives t size (Encoded reply) :: rest ->
  size <= max_size ->
  t < now (world m) + 5 ->
  is_none reply = false ->
  (hung_up s (now (world m)) = false ->
   exists m',
     ping m
     = (match getitem reply "type" with
        | Return ty => Return (eq_str ty "pong")
        | Raise e => Raise e
        | Blocked => Blocked
        end, m')
     /\ self m' = self m
     /\ sent m' = (sent m ++ [ping_sent m])%list
     /\ unread m' = rest)
  /\ (hung_up s (now (world m)) = true ->
      ping m = (Raise TransportError, m)).
Proof.
  intros Hs Hc Hi Hz Ht Hn. split; intros Hh.
  2:{ unfold ping. step (timestamp_runs m).
      erewrite bind_raise
        by (apply (send_message_lost _ m s Hs); rewrite Hh; apply orb_true_r).
      reflexivity. }
  set (s1 := set_outbox (outbox s ++ [ping_sent m]) s).
  assert (H1 : conn (put_conn s1 m) = Some s1)
    by (eapply conn_put_conn; exact Hs).
  set (m2 := put_conn (set_inbound rest s1)
               (at_time (Z.max (now (world m)) t) (put_conn s1 m))).
  assert (H2 : conn m2 = Some (set_inbound rest s1))
    by (eapply conn_put_conn; rewrite conn_at_time; exact H1).
  exists m2. split.
  - unfold ping. step (timestamp_runs m).
    step (send_message_ok (ping_envelope (stamp m)) m s Hs Hc Hh).
    fold (ping_sent m) s1.
    step (receive_message_frame 5 (put_conn s1 m) s1 t size (Encoded reply) rest
            H1 Hc Hi Hz ltac:(lia)
            ltac:(rewrite now_put_conn; exact Ht)).
    cbv zeta. rewrite now_put_conn. fold m2. rewrite Hn.
    unfold bind, lift, ret.
    destruct (getitem reply "type"); reflexivity.
  - unfold sent, unread. rewrite H2, Hs. subst m2.
    autorewrite with machine. auto.
Qed.

(** The same, for a ping answered with a batch of rows, and for one made
    after the server has sent a frame and hung up. *)
Lemma ping_takes_next_frame_witness :
  (exists m',
     ping (connected_machine default_client
             [Arrives 1 256 (Encoded (data_frame 2 false))])
     = (Return false, m')
     /\ unread m' = [])
  /\ ping gone_server = (Raise TransportError, gone_server).
Proof.
  split.
  - destruct (proj1 (ping_takes_next_frame
                       (connected_machine default_client
                          [Arrives 1 256 (Encoded (data_frame 2 false))])
                       _ 1 256 (data_frame 2 false) [] eq_refl eq_refl eq_refl
                       ltac:(discriminate) eq_refl eq_refl) eq_refl)
      as (m' & E & _ & _ & U).
    exists m'. auto.
  - exact (proj2 (ping_takes_next_frame gone_server _ 0 256 _ _
                    eq_refl eq_refl eq_refl ltac:(discriminate) eq_refl eq_refl)
             eq_refl).
Defined.

(** X8. When nothing arrives within five seconds of the ping, [ping()]
    returns [False] after those five seconds; the ping has been sent, and
    the client and what is waiting on the connection are as they were. *)
Theorem ping_unanswered (m : Machine) (s : Socket) :
  conn m = Some s ->
  closed s = false ->
  silent_for 5 m = true ->
  exists m',
    ping m = (Return false, m')
    /\ self m' = self m
    /\ live m' = true
    /\ sent m' = (sent m ++ [ping_sent m])%list
    /\ unread m' = unread m
    /\ now (world m') = now (world m) + 5.
Proof.
  intros Hs Hc Hq.
  set (s1 := set_outbox (outbox s ++ [ping_sent m]) s).
  assert (H1 : conn (put_conn s1 m) = Some s1)
    by (eapply conn_put_conn; exact Hs).
  assert (Hh : hung_up s (now (world m)) = false)
    by (eapply hung_up_silent; eauto; lia).
  assert (Hq1 : silent_for 5 (put_conn s1 m) = true).
  { revert Hq. unfold silent_for, unread, due_within. rewrite H1, Hs.
    rewrite now_put_conn. auto. }
  eexists. split.
  - unfold ping. step (timestamp_runs m).
    step (send_message_ok (ping_envelope (stamp m)) m s Hs Hc Hh).
    fold (ping_sent m) s1.
    step (receive_message_silence 5 (put_conn s1 m) s1 H1 Hc
            ltac:(lia) Hq1).
    reflexivity.
  - unfold live, sent, unread. rewrite conn_said, conn_at_time, H1, Hs.
    autorewrite with machine. cbn. rewrite Hc. auto.
Qed.

Lemma ping_unanswered_witness :
  exists m',
    ping slow_server = (Return false, m')
    /\ live m' = true
    /\ unread m' = unread slow_server.
Proof.
  destruct (ping_unanswered slow_server _ eq_refl eq_refl eq_refl)
    as (m' & E & _ & L & _ & U & _).
  exists m'. auto.
Defined.

(** ** Releasing the connection *)

Lemma close_releases (m : Machine) :
  exists m1,
    close m = (Return tt, m1)
    /\ handle m1 = None
    /\ forall h, handle m = Some h -> closed_on h (world m1) = true.
Proof.
  unfold close, handle. step (get_self_runs m).
  destruct (websocket (self m)) as [h|] eqn:W.
  - destruct (ws_close_returns h m) as (w & E & C).
    step E. eexists. split; [reflexivity|]. split; [reflexivity|].
    intros h' [= <-]. exact C.
  - exists m. split; [reflexivity|]. split; [exact W|]. discriminate.
Qed.

(** X9. [async with RustyDBWebSocketClient(...) as client:] closes the
    connection when, and only when, its body was entered. Once
    [__aenter__] has connected, then whatever the body does, whether it
    returns or raises, the block gives back the body's result or
    exception, the client holds no handle afterwards, and the connection
    it held at the end of the body has been closed. If [connect()] raises
    in [__aenter__], its exception leaves the block, the body is not run
    and [close()] is not called: everything is as [connect()] left it. In
    particular, when [connect()] raises after it has opened the connection
    (the reply to the [auth] request has no [type] to read), the block
    ends with the client still holding that connection, open. *)
Theorem async_with_closes_once_entered {A} (c : Client) (body : Py A)
    (m m1 : Machine) :
  (connect (with_self (fun _ => c) m) = (Return tt, m1) ->
   fst (body m1) <> Blocked ->
   fst (async_with c body m) = fst (body m1)
   /\ handle (snd (async_with c body m)) = None
   /\ forall h, handle (snd (body m1)) = Some h ->
                closed_on h (world (snd (async_with c body m))) = true)
  /\ (forall e, connect (with_self (fun _ => c) m) = (Raise e, m1) ->
      async_with c body m = (Raise e, m1))
  /\ (forall t size reply rest later e,
        has_token c = true ->
        dial (world m) = Some (Arrives t size (Encoded reply) :: rest) :: later ->
        size <= max_size ->
        lost (Arrives t size (Encoded reply) :: rest) (now (world m)) = false ->
        t < now (world m) + 5 ->
        truthy reply = true ->
        getitem reply "type" = Raise e ->
        exists m',
          async_with c body m = (Raise e, m')
          /\ handle m' = Some (List.length (sockets (world m)))
          /\ live m' = true).
Proof.
  assert (R : forall e m',
            connect (with_self (fun _ => c) m) = (Raise e, m') ->
            async_with c body m = (Raise e, m')).
  { intros e m' Hc. unfold async_with.
    step (set_self_runs (fun _ => c) m).
    erewrite bind_raise by exact Hc. reflexivity. }
  split; [|split].
  - intros Hc Hb. unfold async_with.
    step (set_self_runs (fun _ => c) m). step Hc.
    destruct (body m1) as [[a|e|] m2]; cbn [fst snd] in *;
      [| |congruence];
      destruct (close_releases m2) as (m3 & E & H & C); rewrite E; auto.
  - intros e. apply R.
  - intros t size reply rest later e Hk Hd Hz Hl Ht T G.
    pose proof (connect_unreadable_reply (with_self (fun _ => c) m) t size reply
                  rest later e Hk Hd Hz Hl Ht T G) as E.
    cbv zeta in E. apply R in E. rewrite E.
    eexists. split; [reflexivity|].
    set (s1 := set_outbox _ _).
    set (m4 := put_conn (set_inbound rest s1) _).
    assert (H4 : conn m4 = Some (set_inbound rest s1)).
    { subst m4. eapply conn_put_conn. rewrite conn_at_time, conn_said.
      eapply conn_put_conn. rewrite conn_drew. apply conn_just_connected. }
    unfold live. rewrite conn_said, H4. split; reflexivity.
Qed.

(** The same, for a body that runs one query against a server that never
    answers, for a body that raises, and for a block whose [connect()]
    fails on the reply to the [auth] request. *)
Lemma async_with_closes_once_entered_witness :
  handle (snd (async_with default_client (execute_query "SELECT 1" None true)
                 (unreachable 0 true))) = None
  /\ fst (async_with default_client (raise (KeyError "type") : Py unit)
            (unreachable 0 true)) = Raise (KeyError "type")
  /\ (exists m',
        async_with (init default_url (Some "secret") true 5) (ret tt)
          (answering (Some "secret") typeless_frame)
        = (Raise (KeyError "type"), m')
        /\ handle m' = Some 0%nat
        /\ live m' = true).
Proof.
  split; [|split].
  - refine (proj1 (proj2 (proj1 (async_with_closes_once_entered default_client
                                   (execute_query "SELECT 1" None true)
                                   (unreachable 0 true) _) eq_refl _))).
    vm_compute. discriminate.
  - refine (proj1 (proj1 (async_with_closes_once_entered default_client
                            (raise (KeyError "type") : Py unit)
                            (unreachable 0 true) _) eq_refl _)).
    vm_compute. discriminate.
  - exact (proj2 (proj2 (async_with_closes_once_entered
                           (init default_url (Some "secret") true 5) (ret tt)
                           (answering (Some "secret") typeless_frame)
                           (answering (Some "secret") typeless_frame)))
             1 256 typeless_frame [] [] (KeyError "type")
             eq_refl eq_refl ltac:(discriminate) eq_refl eq_refl eq_refl eq_refl).
Defined.

(** X10. After [close()] the client behaves as one that never connected:
    whatever state it was closed in, [send_message], [receive_message],
    [execute_query] and [ping] raise [RuntimeError("Not connected to
    server")], and a second [close()] does nothing. *)
Theorem closed_client_refuses (m : Machine) :
  let m1 := snd (close m) in
  (forall message, send_message message m1 = (Raise not_connected, m1))
  /\ (forall timeout, receive_message timeout m1 = (Raise not_connected, m1))
  /\ (forall sql params streaming,
        fst (execute_query sql params streaming m1) = Raise not_connected)
  /\ ping m1 = (Raise not_connected, m1)
  /\ close m1 = (Return tt, m1).
Proof.
  destruct (close_releases m) as (m1 & E & H & _). rewrite E. cbn [snd].
  unfold handle in H.
  repeat match goal with |- _ /\ _ => split end.
  - intros. now apply send_message_not_connected.
  - intros. now apply receive_message_not_connected.
  - intros. unfold execute_query.
    step (timestamp_runs m1). step (uuid4_str_runs m1).
    erewrite bind_raise
      by (apply send_message_not_connected; exact H).
    reflexivity.
  - unfold ping. step (timestamp_runs m1).
    erewrite bind_raise
      by (apply send_message_not_connected; exact H).
    reflexivity.
  - apply close_disconnected. exact H.
Qed.

(** ** Nothing waits forever *)

Lemma halts_ret {A} (a : A) : halts (ret a).
Proof. intros m. discriminate. Qed.

Lemma halts_raise {A} (e : Exn) : halts (@raise A e).
Proof. intros m. discriminate. Qed.

Lemma halts_get_self : halts get_self.
Proof. intros m. discriminate. Qed.

Lemma halts_set_self (g : Client -> Client) : halts (set_self g).
Proof. intros m. discriminate. Qed.

Lemma halts_print (l : Line) : halts (print l).
Proof. intros m. discriminate. Qed.

Lemma halts_sleep (d : Z) : halts (sleep d).
Proof. intros m. discriminate. Qed.

Lemma halts_timestamp : halts timestamp.
Proof. intros m. discriminate. Qed.

Lemma halts_uuid4_str : halts uuid4_str.
Proof. intros m. discriminate. Qed.

Lemma halts_lift_getitem (v : JSON) (key : string) : halts (lift (getitem v key)).
Proof.
  intros m. cbn. destruct v; try discriminate. cbn.
  destruct (assoc key members); discriminate.
Qed.

Lemma halts_lift_dict_get (v : JSON) (key : string) (default : JSON) :
  halts (lift (dict_get v key default)).
Proof.
  intros m. cbn. destruct v; try discriminate. cbn.
  destruct (assoc key members); discriminate.
Qed.

Lemma halts_lift_len (v : JSON) : halts (lift (len v)).
Proof. intros m. cbn. destruct v; discriminate. Qed.

Lemma halts_lift_json_loads (text : WireText) : halts (lift (json_loads text)).
Proof. intros m. cbn. destruct text; discriminate. Qed.

Lemma halts_bind {A B} (c : Py A) (k : A -> Py B) :
  halts c -> (forall a, halts (k a)) -> halts (bind c k).
Proof.
  intros Hc Hk m. unfold bind. specialize (Hc m).
  destruct (c m) as [[a|e|] m1]; cbn in *; try congruence; apply Hk.
Qed.

Lemma halts_try_except {A} (body : Py A) (handler : Exn -> Py A) :
  halts body -> (forall e, halts (handler e)) -> halts (try_except body handler).
Proof.
  intros Hb Hh m. unfold try_except. specialize (Hb m).
  destruct (body m) as [[a|e|] m1]; cbn in *; try congruence; apply Hh.
Qed.

Lemma halts_websockets_connect (u : string) : halts (websockets_connect u).
Proof.
  intros m. unfold websockets_connect.
  destruct (dial (world m)) as [|[script|] later]; discriminate.
Qed.

Lemma halts_ws_send (h : nat) (text : WireText) : halts (ws_send h text).
Proof.
  intros m. unfold ws_send.
  destruct (sockets (world m) !! h) as [s|]; [|discriminate].
  destruct (closed s || hung_up s (now (world m))); discriminate.
Qed.

Lemma halts_ws_close (h : nat) : halts (ws_close h).
Proof.
  intros m. unfold ws_close. destruct (sockets (world m) !! h); discriminate.
Qed.

(** Under a timeout that is a number of seconds [recv] ends: with a frame,
    with the loss of the connection, or with the timeout. *)
Lemma halts_ws_recv_secs (h : nat) (d : Z) : halts (ws_recv h (Some (Secs d))).
Proof.
  intros m. unfold ws_recv.
  destruct (expired (Some (Secs d))); [discriminate|].
  destruct (sockets (world m) !! h) as [s|]; [|discriminate].
  destruct (closed s); [discriminate|].
  cbv zeta. unfold fires.
  destruct (inbound s) as [|[t size text|t] rest];
    repeat match goal with |- context [if ?b then _ else _] => destruct b end;
    discriminate.
Qed.

(** Under minus infinity it is over before it has begun. *)
Lemma halts_ws_recv_past (h : nat) : halts (ws_recv h (Some NegInf)).
Proof. intros m. discriminate. Qed.

Create HintDb halts.
#[local] Hint Resolve halts_ret halts_raise halts_get_self halts_set_self
  halts_print halts_sleep halts_timestamp halts_uuid4_str halts_lift_getitem
  halts_lift_dict_get halts_lift_len halts_lift_json_loads
  halts_websockets_connect halts_ws_send halts_ws_close halts_ws_recv_secs
  halts_ws_recv_past : halts.

Ltac halts_step :=
  first
    [ apply halts_bind; [|intros ?]
    | apply halts_try_except; [|intros ?]
    | match goal with
      | |- halts (if ?b then _ else _) => destruct b
      | |- halts (match ?x with _ => _ end) => destruct x
      end ].

Ltac halts_auto := repeat (first [solve [auto with halts] | halts_step]).

Lemma halts_send_message (message : JSON) : halts (send_message message).
Proof. unfold send_message. halts_auto. Qed.

Lemma halts_receive_message (d : Z) :
  d <> 0 -> halts (receive_message (Some (Secs d))).
Proof.
  intros Hd. unfold receive_message, effective_timeout.
  apply Z.eqb_neq in Hd. rewrite Hd. halts_auto.
Qed.

Lemma halts_receive_message_default : halts (receive_message default_timeout).
Proof. apply halts_receive_message. discriminate. Qed.

Lemma halts_receive_message_5 : halts (receive_message (Some (Secs 5))).
Proof. apply halts_receive_message. discriminate. Qed.

Lemma halts_receive_message_10 : halts (receive_message (Some (Secs 10))).
Proof. apply halts_receive_message. discriminate. Qed.

#[local] Hint Resolve halts_send_message halts_receive_message_default
  halts_receive_message_5 halts_receive_message_10 : halts.

Lemma halts_authenticate : halts authenticate.
Proof. unfold authenticate, and_type_is. halts_auto. Qed.

#[local] Hint Resolve halts_authenticate : halts.

Lemma halts_execute_query sql params streaming :
  halts (execute_query sql params streaming).
Proof. unfold execute_query. halts_auto. Qed.

Lemma halts_ping : halts ping.
Proof. unfold ping. halts_auto. Qed.

Lemma halts_close : halts close.
Proof. unfold close. halts_auto. Qed.

Lemma halts_connect : halts connect.
Proof. unfold connect. halts_auto. Qed.

#[local] Hint Resolve halts_execute_query halts_ping halts_close halts_connect
  : halts.

(** Under a positive timeout [recv] is over by the deadline, however it
    ends. *)
Lemma ws_recv_by_deadline (h : nat) (d : Z) (m : Machine) :
  0 < d ->
  now (world m) <= now (world (snd (ws_recv h (Some (Secs d)) m)))
                <= now (world m) + d.
Proof.
  intros Hd. unfold ws_recv.
  destruct (expired (Some (Secs d))); [cbn; lia|].
  destruct (sockets (world m) !! h) as [s|]; [|cbn; lia].
  destruct (closed s); [cbn; lia|].
  cbv zeta. unfold fires, beats.
  destruct (inbound s) as [|a rest]; [cbn; lia|].
  destruct ((arrival_time a <? now (world m) + d)
            || (arrival_time a <=? now (world m))) eqn:B; [|cbn; lia].
  assert (T : arrival_time a < now (world m) + d).
  { apply orb_true_iff in B as [B|B];
      [apply Z.ltb_lt in B|apply Z.leb_le in B]; lia. }
  destruct a as [t size text|t];
    [destruct (size <=? max_size)|]; cbn in *; lia.
Qed.



(** X12. [receive_message] with [timeout=None] or [timeout=0] waits without
    a deadline ([if timeout:] is false for both), and so it does with
    [timeout=inf], whose timer never fires: on an open connection on which
    nothing ever arrives it never returns. Under a positive number of
    seconds it returns [None] at the deadline, and under a negative one or
    minus infinity at once. Under [nan] it returns [None] when the event
    loop fires the timer, and never if it does not. *)
Theorem receive_without_timeout_waits (m : Machine) (s : Socket) :
  conn m = Some s ->
  closed s = false ->
  inbound s = [] ->
  receive_message None m = (Blocked, m)
  /\ receive_message (Some (Secs 0)) m = (Blocked, m)
  /\ receive_message (Some Inf) m = (Blocked, m)
  /\ (forall d,
        0 < d ->
        receive_message (Some (Secs d)) m
        = (Return JNull, said TimeoutWaiting (at_time (now (world m) + d) m)))
  /\ (forall d,
        d < 0 ->
        receive_message (Some (Secs d)) m = (Return JNull, said TimeoutWaiting m))
  /\ receive_message (Some NegInf) m = (Return JNull, said TimeoutWaiting m)
  /\ receive_message (Some NaN) m
     = match nan_timer (world m) (now (world m)) with
       | Some t =>
           (Return JNull,
            said TimeoutWaiting (at_time (Z.max (now (world m)) t) m))
       | None => (Blocked, m)
       end.
Proof.
  unfold conn. intros Hs Hc Hi.
  destruct (websocket (self m)) as [h|] eqn:W; [|discriminate].
  assert (R : forall timeout,
             receive_message timeout m
             = try_except
                 (message_text <- ws_recv h (effective_timeout timeout);;
                  lift (json_loads message_text))
                 (fun e =>
                    match e with
                    | TimeoutError => print TimeoutWaiting;; ret JNull
                    | JSONDecodeError => print FailedToParse;; ret JNull
                    | _ => raise e
                    end) m).
  { intros timeout. unfold receive_message. step (get_self_runs m).
    rewrite W. reflexivity. }
  assert (B : forall timeout,
             expired timeout = false ->
             ws_recv h timeout m
             = match fires (world m) timeout with
               | Some t =>
                   (Raise TimeoutError,
                    {| self := self m; world := with_now t (world m) |})
               | None => (Blocked, m)
               end).
  { intros timeout X. unfold ws_recv. rewrite X, Hs, Hc, Hi. reflexivity. }
  repeat match goal with |- _ /\ _ => split end.
  - rewrite R. unfold try_except, bind. cbn [effective_timeout].
    rewrite B by reflexivity. reflexivity.
  - rewrite R. unfold try_except, bind. cbn [effective_timeout Z.eqb].
    rewrite B by reflexivity. reflexivity.
  - rewrite R. unfold try_except, bind. cbn [effective_timeout].
    rewrite B by reflexivity. reflexivity.
  - intros d Hd. rewrite R.
    destruct (effective_timeout_positive d Hd) as [-> X].
    unfold try_except, bind. rewrite B by exact X. reflexivity.
  - intros d Hd. rewrite R. unfold effective_timeout.
    replace (d =? 0) with false by (symmetry; apply Z.eqb_neq; lia).
    unfold try_except, bind, ws_recv, expired.
    replace (d <=? 0) with true by (symmetry; apply Z.leb_le; lia).
    reflexivity.
  - rewrite R. reflexivity.
  - rewrite R. unfold try_except, bind. cbn [effective_timeout].
    rewrite B by reflexivity. unfold fires.
    destruct (nan_timer (world m) (now (world m))); reflexivity.
Qed.

(** The same, for [timeout=0] and for [timeout=inf]. *)
Lemma receive_without_timeout_waits_witness :
  receive_message (Some (Secs 0)) (connected_machine default_client [])
  = (Blocked, connected_machine default_client [])
  /\ receive_message (Some Inf) (connected_machine default_client [])
     = (Blocked, connected_machine default_client []).
Proof.
  pose proof (receive_without_timeout_waits
                (connected_machine default_client []) _
                eq_refl eq_refl eq_refl) as H.
  exact (conj (proj1 (proj2 H)) (proj1 (proj2 (proj2 H)))).
Defined.

(** ** The two example loops end *)

Lemma halts_retry_body (max_retries retry_count retry_delay : Z) :
  halts (retry_body max_retries retry_count retry_delay).
Proof. unfold retry_body. halts_auto. Qed.

(** Each turn of the retry loop calls [websockets.connect] once. *)
Lemma retry_body_dials (max_retries retry_count retry_delay : Z) (m : Machine) :
  dials (snd (retry_body max_retries retry_count retry_delay m)) = S (dials m).
Proof.
  unfold retry_body, try_except. unfold bind at 1.
  pose proof (connect_dials_once m) as D.
  destruct (connect m) as [[[]|e|] m1]; cbn [snd] in D; try exact D.
  destruct (retry_count + 1 >=? max_retries); exact D.
Qed.

Lemma retry_body_continues (max_retries retry_count retry_delay : Z)
    (m m' : Machine) (next : Z * Z) :
  retry_body max_retries retry_count retry_delay m = (Return (Continue next), m') ->
  retry_count + 1 < max_retries.
Proof.
  unfold retry_body, try_except.
  destruct ((connect;; print ConnectedOk;; sleep 1;;
             ret (Break (retry_count, retry_delay))) m)
    as [[a|e|] m1] eqn:E.
  - apply bind_inv in E as (? & ? & _ & E).
    apply bind_inv in E as (? & ? & _ & E).
    apply bind_inv in E as (? & ? & _ & E).
    injection E as <- <-. discriminate.
  - destruct (retry_count + 1 >=? max_retries) eqn:G.
    + intros H. apply bind_inv in H as (? & ? & _ & H). discriminate H.
    + intros _. rewrite Z.geb_leb in G. apply Z.leb_gt in G. exact G.
  - discriminate.
Qed.

Lemma retry_loop_ends (max_retries : Z) :
  forall (fuel : nat) (retry_count retry_delay : Z) (m : Machine),
    (Z.to_nat (max_retries - retry_count) <= fuel)%nat ->
    fst (retry_loop fuel max_retries retry_count retry_delay m) <> Blocked
    /\ (dials (snd (retry_loop fuel max_retries retry_count retry_delay m))
        <= dials m + Z.to_nat (max_retries - retry_count))%nat.
Proof.
  induction fuel as [|fuel IH]; intros rc rd m H; cbn [retry_loop];
    destruct (rc <? max_retries) eqn:L;
    try (split; [discriminate | cbn; lia]);
    apply Z.ltb_lt in L; [lia|].
  unfold bind.
  pose proof (halts_retry_body max_retries rc rd m) as Hh.
  pose proof (retry_body_dials max_retries rc rd m) as Hd.
  destruct (retry_body max_retries rc rd m) as [[[final|[rc' rd']]|e|] m1] eqn:E;
    unfold ret; cbn [fst snd] in *; try (split; [congruence | lia]).
  pose proof (retry_body_continue _ _ _ _ _ _ E) as E1.
  pose proof (retry_body_continues _ _ _ _ _ _ E) as E2.
  cbn in E1. subst rc'.
  destruct (IH (rc + 1) rd' m1 ltac:(lia)) as (B & D).
  split; [exact B|]. lia.
Qed.

Lemma stream_loop_ends :
  forall (fuel : nat) (total : Z) (m : Machine),
    (List.length (unread m) < fuel)%nat ->
    fst (stream_loop fuel total m) <> Blocked.
Proof.
  induction fuel as [|fuel IH]; intros total m H; [lia|].
  cbn [stream_loop]. unfold bind.
  assert (Hh : halts (stream_body total)) by (unfold stream_body; halts_auto).
  specialize (Hh m).
  destruct (stream_body total m) as [[[final|next]|e|] m1] eqn:E;
    unfold ret; cbn [fst] in *; try congruence.
  apply stream_body_continue in E. apply IH. lia.
Qed.

Lemma halts_async_with {A} (c : Client) (body : Py A) :
  halts body -> halts (async_with c body).
Proof.
  intros Hb. unfold async_with.
  apply halts_bind; [apply halts_set_self|intros _].
  apply halts_bind; [apply halts_connect|intros _].
  intros m. specialize (Hb m). pose proof (halts_close (snd (body m))) as Hc.
  destruct (body m) as [[result|e|] m1]; cbn [fst snd] in *; try congruence;
    destruct (close m1) as [[[]|e'|] m2]; cbn in *; congruence.
Qed.


(** ** The reading loop of example 8, in general *)

(** The loop reads through a run of batches that all have more to come. *)
Lemma stream_loop_prefix :
  forall (frames : list (Z * Z * JSON)) (rest : list Arrival)
         (fuel : nat) (total : Z) (m : Machine) (s : Socket),
    conn m = Some s ->
    closed s = false ->
    inbound s = (arrivals frames ++ rest)%list ->
    forallb (fun f => more_to_come (snd f)) frames = true ->
    paced (now (world m)) frames = true ->
    exists m1,
      stream_loop (List.length frames + fuel) total m
      = stream_loop fuel (total + rows_in frames) m1
      /\ conn m1 = Some (set_inbound rest s)
      /\ self m1 = self m
      /\ now (world m1) = read_by (now (world m)) frames
      /\ stdout (world m1) = (stdout (world m) ++ reports total frames)%list.
Proof.
  induction frames as [|[[t0 size0] f0] frames IH];
    intros rest fuel total m s Hs Hc Hi Hm Hp.
  - exists m. cbn [List.length Nat.add rows_in fold_right reports read_by].
    rewrite Z.add_0_r, app_nil_r.
    repeat match goal with |- _ /\ _ => split end; auto.
    rewrite Hs. destruct s. cbn in *. subst. reflexivity.
  - cbn [app arrivals map fst snd paced forallb] in *.
    apply andb_true_iff in Hp as [Hp0 Hp].
    apply andb_true_iff in Hp0 as [Hp0 Hz0].
    apply Z.ltb_lt in Hp0. apply Z.leb_le in Hz0.
    apply andb_true_iff in Hm as [Hm0 Hm].
    unfold more_to_come in Hm0.
    destruct (batch f0) as [[n more]|] eqn:B; [|discriminate]. subst more.
    cbn [List.length Nat.add stream_loop].
    step (stream_body_batch total m s t0 size0 f0
            (arrivals frames ++ rest) n true Hs Hc Hi Hz0 Hp0 B).
    cbv beta iota.
    set (s1 := set_inbound (arrivals frames ++ rest) s).
    set (m1 := said _ _).
    assert (H1 : conn m1 = Some s1)
      by (unfold m1; rewrite conn_said; eapply conn_put_conn;
          rewrite conn_at_time; exact Hs).
    assert (N1 : now (world m1) = Z.max (now (world m)) t0)
      by (unfold m1; autorewrite with machine; reflexivity).
    destruct (IH rest fuel (total + Z.of_nat n) m1 s1 H1 Hc eq_refl Hm
                ltac:(rewrite N1; exact Hp))
      as (m' & E & C & Sf & Nw & O).
    exists m'. rewrite E. unfold rows_in, rows_of in *.
    cbn [fold_right snd reports read_by]. unfold rows_of. rewrite B.
    repeat match goal with |- _ /\ _ => split end.
    + f_equal. lia.
    + exact C.
    + rewrite Sf. unfold m1. autorewrite with machine. reflexivity.
    + rewrite Nw, N1. reflexivity.
    + rewrite O. unfold m1. autorewrite with machine.
      rewrite <- !app_assoc. reflexivity.
Qed.

Lemma rows_in_app (frames : list (Z * Z * JSON)) (f : Z * Z * JSON) :
  rows_in (frames ++ [f]) = rows_in frames + rows_of (snd f).
Proof.
  unfold rows_in. induction frames as [|g frames IH]; cbn [app fold_right].
  - lia.
  - rewrite IH. lia.
Qed.

Lemma reports_app (frames : list (Z * Z * JSON)) (f : Z * Z * JSON) :
  forall total,
    reports total (frames ++ [f])
    = (reports total frames
       ++ [ReceivedBatch (rows_of (snd f))
             (total + rows_in frames + rows_of (snd f))])%list.
Proof.
  induction frames as [|[[t0 z0] f0] frames IH]; intros total.
  - destruct f as [[t z] j]. cbn [app reports rows_in fold_right snd].
    rewrite Z.add_0_r. reflexivity.
  - cbn [app reports]. rewrite IH. cbn [app]. unfold rows_in.
    cbn [fold_right snd]. rewrite Z.add_assoc. reflexivity.
Qed.

(** One turn of the loop on a frame that is longer than [max_size], or on
    one that [json.loads] rejects other than with [JSONDecodeError]. *)
Lemma stream_body_raises (total : Z) (m : Machine) (s : Socket) (t size : Z)
    (text : WireText) (rest : list Arrival) :
  conn m = Some s ->
  closed s = false ->
  inbound s = Arrives t size text :: rest ->
  t < now (world m) + 10 ->
  (max_size < size ->
   stream_body total m
   = (Raise TransportError, at_time (Z.max (now (world m)) t) m))
  /\ (forall e,
        size <= max_size ->
        loads_raises text = Some e ->
        stream_body total m
        = (Raise e,
           put_conn (set_inbound rest s) (at_time (Z.max (now (world m)) t) m))).
Proof.
  intros Hs Hc Hi Ht. split.
  - intros Hz. unfold stream_body. erewrite bind_raise; [reflexivity|].
    revert Hs. unfold conn, receive_message. step (get_self_runs m).
    destruct (websocket (self m)) as [h|]; [|discriminate]. intros Hs.
    destruct (effective_timeout_positive 10 ltac:(lia)) as [-> X].
    unfold try_except, bind, ws_recv. rewrite X, Hs, Hc, Hi.
    unfold fires, beats. cbn [arrival_time].
    apply Z.ltb_lt in Ht. rewrite Ht. cbn [orb].
    replace (size <=? max_size) with false
      by (symmetry; apply Z.leb_gt; exact Hz).
    reflexivity.
  - intros e Hz He. unfold stream_body. erewrite bind_raise; [reflexivity|].
    rewrite (receive_message_frame 10 m s t size text rest Hs Hc Hi Hz
               ltac:(lia) Ht).
    destruct text; try discriminate He; injection He as <-; reflexivity.
Qed.

(** X14. The reading loop of example 8 adds up a stream of any length, as
    long as no frame is longer than [max_size]. The server sends any
    number of batches with [has_more = true], each no longer than
    [max_size] and due within ten seconds of the reading of the one
    before. When a batch with [has_more = false] follows in the same way,
    the loop ends at it with [total_rows] equal to the sum of all their
    row counts; it reports each batch once, in order, with the running
    total, and leaves unread whatever follows the last batch. When the
    frame that follows is longer than [max_size], the loop ends there with
    the exception of the failed connection and the total is lost. *)
Theorem stream_adds_up_batches (frames : list (Z * Z * JSON))
    (fuel : nat) (total : Z) (m : Machine) (s : Socket) :
  conn m = Some s ->
  closed s = false ->
  forallb (fun f => more_to_come (snd f)) frames = true ->
  paced (now (world m)) frames = true ->
  (List.length frames < fuel)%nat ->
  (forall t size final rest,
     inbound s = (arrivals (frames ++ [(t, size, final)]) ++ rest)%list ->
     last_batch final = true ->
     size <= max_size ->
     t < read_by (now (world m)) frames + 10 ->
     exists m',
       stream_loop fuel total m
       = (Return (total + rows_in (frames ++ [(t, size, final)])), m')
       /\ self m' = self m
       /\ unread m' = rest
       /\ printed_since m m'
          = (reports total (frames ++ [(t, size, final)])
             ++ [AllResultsReceived])%list)
  /\ (forall t size text rest,
        inbound s = (arrivals frames ++ Arrives t size text :: rest)%list ->
        max_size < size ->
        t < read_by (now (world m)) frames + 10 ->
        exists m',
          stream_loop fuel total m = (Raise TransportError, m')
          /\ self m' = self m
          /\ printed_since m m' = reports total frames).
Proof.
  intros Hs Hc Hm Hp Hf.
  destruct fuel as [|fuel]; [lia|].
  replace (S fuel) with (List.length frames + S (fuel - List.length frames))%nat
    by lia.
  split.
  - intros t size final rest Hi Hl Hz Ht.
    unfold arrivals in Hi. rewrite map_app, <- app_assoc in Hi.
    cbn [map app fst snd] in Hi. fold (arrivals frames) in Hi.
    destruct (stream_loop_prefix frames _ (S (fuel - List.length frames)) total
                m s Hs Hc Hi Hm Hp) as (m1 & E & C & Sf & Nw & O).
    rewrite E. cbn [stream_loop].
    unfold last_batch in Hl.
    destruct (batch final) as [[n more]|] eqn:B; [|discriminate].
    apply negb_true_iff in Hl. subst more.
    step (stream_body_batch (total + rows_in frames) m1 _ t size final rest n
            false C Hc eq_refl Hz ltac:(rewrite Nw; exact Ht) B).
    assert (Rf : rows_of final = Z.of_nat n) by (unfold rows_of; rewrite B; reflexivity).
    rewrite rows_in_app, reports_app. cbn [snd]. rewrite Rf.
    eexists. split.
    { unfold ret. f_equal. f_equal. lia. }
    unfold unread, printed_since. rewrite !conn_said.
    erewrite conn_put_conn by (rewrite conn_at_time; exact C).
    autorewrite with machine. rewrite O.
    repeat match goal with |- _ /\ _ => split end; auto.
    rewrite <- !app_assoc, drop_app_length. reflexivity.
  - intros t size text rest Hi Hz Ht.
    destruct (stream_loop_prefix frames _ (S (fuel - List.length frames)) total
                m s Hs Hc Hi Hm Hp) as (m1 & E & C & Sf & Nw & O).
    rewrite E. cbn [stream_loop].
    erewrite bind_raise
      by (apply (proj1 (stream_body_raises (total + rows_in frames) m1 _ t size
                          text rest C Hc eq_refl
                          ltac:(rewrite Nw; exact Ht)) Hz)).
    eexists. split; [reflexivity|].
    unfold printed_since. autorewrite with machine. rewrite O.
    split; [exact Sf|]. apply drop_app_length.
Qed.

(** The same, for three batches of 2, 0 and 4 rows, and for a batch of 2
    rows followed by a frame of two megabytes. *)
Lemma stream_adds_up_batches_witness :
  (exists m',
     stream_loop 3 0
       (connected_machine default_client
          [Arrives 1 256 (Encoded (data_frame 2 true));
           Arrives 2 256 (Encoded (data_frame 0 true));
           Arrives 3 256 (Encoded (data_frame 4 false))])
     = (Return 6, m')
     /\ unread m' = []
     /\ printed_since
          (connected_machine default_client
             [Arrives 1 256 (Encoded (data_frame 2 true));
              Arrives 2 256 (Encoded (data_frame 0 true));
              Arrives 3 256 (Encoded (data_frame 4 false))]) m'
        = [ReceivedBatch 2 2; ReceivedBatch 0 2; ReceivedBatch 4 6;
           AllResultsReceived])
  /\ (exists m',
        stream_loop 2 0
          (connected_machine default_client
             [Arrives 1 256 (Encoded (data_frame 2 true));
              Arrives 2 2097152 (Encoded (data_frame 4 false))])
        = (Raise TransportError, m')).
Proof.
  split.
  - destruct (proj1 (stream_adds_up_batches
                       [(1, 256, data_frame 2 true); (2, 256, data_frame 0 true)]
                       3 0
                       (connected_machine default_client
                          [Arrives 1 256 (Encoded (data_frame 2 true));
                           Arrives 2 256 (Encoded (data_frame 0 true));
                           Arrives 3 256 (Encoded (data_frame 4 false))])
                       _ eq_refl eq_refl eq_refl eq_refl ltac:(cbn; lia))
                3 256 (data_frame 4 false) [] eq_refl eq_refl
                ltac:(discriminate) eq_refl)
      as (m' & E & _ & U & P).
    exists m'. auto.
  - destruct (proj2 (stream_adds_up_batches
                       [(1, 256, data_frame 2 true)] 2 0
                       (connected_machine default_client
                          [Arrives 1 256 (Encoded (data_frame 2 true));
                           Arrives 2 2097152 (Encoded (data_frame 4 false))])
                       _ eq_refl eq_refl eq_refl eq_refl ltac:(cbn; lia))
                2 2097152 (Encoded (data_frame 4 false)) [] eq_refl
                eq_refl eq_refl)
      as (m' & E & _).
    exists m'. exact E.
Defined.

(** X15. The reading loop of example 8 cannot tell the end of a stream from
    a gap in it. When the next frame is more than ten seconds away, or is
    text that [json.loads] rejects with [JSONDecodeError],
    [receive_message] returns [None] and the loop stops there: it says "No
    more messages" and keeps the total it had reached, without raising,
    and whatever the server sends afterwards stays unread. A frame that
    [json.loads] rejects with another exception ends the loop with that
    exception. *)
Theorem stream_stops_at_gap (fuel : nat) (total : Z) (m : Machine) (s : Socket) :
  conn m = Some s ->
  closed s = false ->
  (silent_for 10 m = true \/ garbled_next 10 m = true ->
   exists m',
     stream_loop (S fuel) total m = (Return total, m')
     /\ self m' = self m
     /\ live m' = true
     /\ printed_since m m'
        = [if garbled_next 10 m then FailedToParse else TimeoutWaiting;
           NoMoreMessages]
     /\ (silent_for 10 m = true -> unread m' = unread m)
     /\ (garbled_next 10 m = true -> unread m' = tl (unread m)))
  /\ (forall t size text rest e,
        inbound s = Arrives t size text :: rest ->
        size <= max_size ->
        t < now (world m) + 10 ->
        loads_raises text = Some e ->
        exists m',
          stream_loop (S fuel) total m = (Raise e, m')
          /\ printed_since m m' = []
          /\ unread m' = rest).
Proof.
  intros Hs Hc. split.
  2:{ intros t size text rest e Hi Hz Ht He. cbn [stream_loop].
      erewrite bind_raise
        by (apply (proj2 (stream_body_raises total m s t size text rest
                            Hs Hc Hi Ht) e Hz He)).
      eexists. split; [reflexivity|].
      unfold printed_since, unread.
      erewrite conn_put_conn by (rewrite conn_at_time; exact Hs).
      autorewrite with machine. split; [|reflexivity].
      apply drop_all. }
  intros [Hq|Hg]; cbn [stream_loop].
  - assert (Hg : garbled_next 10 m = false).
    { revert Hq. unfold silent_for, garbled_next, due_within, unread. rewrite Hs.
      destruct (inbound s) as [|[t size [j|raw| | |]|t] rest]; cbn [arrival_time];
        try reflexivity.
      intros H. apply negb_true_iff in H. rewrite H. reflexivity. }
    step (stream_body_silence total m s Hs Hc Hq).
    eexists. split; [reflexivity|].
    unfold live, unread, printed_since.
    rewrite !conn_said, conn_at_time, Hs, Hc, Hg.
    autorewrite with machine. rewrite <- app_assoc, drop_app_length.
    repeat match goal with |- _ /\ _ => split end; auto. discriminate.
  - assert (Hi : exists t size raw rest,
               inbound s = Arrives t size (Garbled raw) :: rest
               /\ size <= max_size
               /\ t < now (world m) + 10).
    { revert Hg. unfold garbled_next, unread. rewrite Hs.
      destruct (inbound s) as [|[t size [j|raw| | |]|t] rest]; try discriminate.
      intros H. apply andb_true_iff in H as [H Z].
      apply Z.ltb_lt in H. apply Z.leb_le in Z. eauto 8. }
    destruct Hi as (t & size & raw & rest & Hi & Hz & Ht).
    assert (Eb : stream_body total m
                 = (Return (Break total),
                    said NoMoreMessages
                      (said FailedToParse
                         (put_conn (set_inbound rest s)
                            (at_time (Z.max (now (world m)) t) m))))).
    { unfold stream_body.
      step (receive_message_frame 10 m s t size (Garbled raw) rest Hs Hc Hi Hz
              ltac:(lia) Ht).
      cbv zeta. cbn [truthy negb].
      erewrite (bind_return (print NoMoreMessages)) by apply print_runs.
      reflexivity. }
    step Eb. eexists. split; [reflexivity|].
    unfold live, unread, printed_since. rewrite !conn_said.
    erewrite conn_put_conn by (rewrite conn_at_time; exact Hs).
    rewrite Hs, Hi, Hg. autorewrite with machine.
    rewrite <- app_assoc, drop_app_length.
    cbn [set_inbound closed inbound tl]. rewrite Hc.
    repeat match goal with |- _ /\ _ => split end; auto.
    intros Hq. exfalso. revert Hq.
    unfold silent_for, due_within, unread. rewrite Hs, Hi. cbn.
    apply Z.ltb_lt in Ht. rewrite Ht. discriminate.
Qed.

(** The same, for a second batch that is twelve seconds late (the five rows
    of the first batch are all that is counted), for a second frame that
    breaks off after its first brace, and for one that is not text. *)
Lemma stream_stops_at_gap_witness :
  (exists m1 m2,
     stream_body 0
       (connected_machine default_client
          [Arrives 1 256 (Encoded (data_frame 5 true));
           Arrives 13 256 (Encoded (data_frame 3 false))])
     = (Return (Continue 5), m1)
     /\ stream_loop 1 5 m1 = (Return 5, m2)
     /\ List.length (unread m2) = 1%nat)
  /\ (exists m2,
        stream_loop 1 5
          (connected_machine default_client [Arrives 1 5 (Garbled "{oops")])
        = (Return 5, m2)
        /\ printed_since
             (connected_machine default_client [Arrives 1 5 (Garbled "{oops")])
             m2
           = [FailedToParse; NoMoreMessages])
  /\ (exists m2,
        stream_loop 1 5
          (connected_machine default_client [Arrives 1 3 NotText])
        = (Raise UnicodeDecodeError, m2)).
Proof.
  split; [|split].
  - pose (m1 := snd (stream_body 0
                       (connected_machine default_client
                          [Arrives 1 256 (Encoded (data_frame 5 true));
                           Arrives 13 256 (Encoded (data_frame 3 false))]))).
    destruct (proj1 (stream_stops_at_gap 0 5 m1 _ eq_refl eq_refl)
                (or_introl eq_refl))
      as (m2 & E & _ & _ & _ & U & _).
    exists m1, m2. split; [reflexivity|]. split; [exact E|].
    rewrite (U eq_refl). reflexivity.
  - destruct (proj1 (stream_stops_at_gap 0 5
                       (connected_machine default_client
                          [Arrives 1 5 (Garbled "{oops")]) _ eq_refl eq_refl)
                (or_intror eq_refl))
      as (m2 & E & _ & _ & P & _).
    exists m2. split; [exact E|]. exact P.
  - destruct (proj2 (stream_stops_at_gap 0 5
                       (connected_machine default_client [Arrives 1 3 NotText])
                       _ eq_refl eq_refl)
                1 3 NotText [] UnicodeDecodeError eq_refl ltac:(discriminate)
                eq_refl eq_refl)
      as (m2 & E & _).
    exists m2. exact E.
Defined.

(** ** The settings for reconnecting are never read *)

Lemma respects_ret {A} (a : A) : respects (ret a).
Proof. intros m m' H. split; [reflexivity|exact H]. Qed.

Lemma respects_raise {A} (e : Exn) : respects (@raise A e).
Proof. intros m m' H. split; [reflexivity|exact H]. Qed.

Lemma respects_lift {A} (o : Outcome A) : respects (lift o).
Proof. intros m m' H. split; [reflexivity|exact H]. Qed.

Lemma respects_bind {A B} (c : Py A) (k : A -> Py B) :
  respects c -> (forall a, respects (k a)) -> respects (bind c k).
Proof.
  intros Hc Hk m m' H. unfold bind. destruct (Hc m m' H) as [E S].
  destruct (c m) as [[a|e|] m1], (c m') as [[a'|e'|] m1']; cbn in *;
    try discriminate; try (injection E as <-); auto.
  apply Hk. exact S.
Qed.

Lemma respects_try_except {A} (body : Py A) (handler : Exn -> Py A) :
  respects body -> (forall e, respects (handler e)) ->
  respects (try_except body handler).
Proof.
  intros Hb Hh m m' H. unfold try_except. destruct (Hb m m' H) as [E S].
  destruct (body m) as [[a|e|] m1], (body m') as [[a'|e'|] m1']; cbn in *;
    try discriminate; try (injection E as <-); auto.
  apply Hh. exact S.
Qed.

(** What is read off the client after [get_self] may be anything but the
    three fields. *)
Lemma respects_get_self_bind {A} (k : Client -> Py A) :
  (forall c c' m m',
     forget c = forget c' -> same_session m m' ->
     fst (k c m) = fst (k c' m')
     /\ same_session (snd (k c m)) (snd (k c' m'))) ->
  respects (bind get_self k).
Proof. intros Hk m m' H. apply Hk; [exact (proj1 H)|exact H]. Qed.

Lemma respects_set_self (g : Client -> Client) :
  (forall c c', forget c = forget c' -> forget (g c) = forget (g c')) ->
  respects (set_self g).
Proof.
  intros Hg m m' [Hf Hw]. split; [reflexivity|]. split; cbn; auto.
Qed.

Ltac world_only :=
  let m := fresh "m" in
  let m' := fresh "m'" in
  let Hf := fresh "Hf" in
  let Hw := fresh "Hw" in
  intros m m' [Hf Hw]; destruct m as [c w], m' as [c' w']; cbn in Hf, Hw;
  subst w'; cbn;
  repeat match goal with
         | |- context [match ?x with _ => _ end] => destruct x
         end;
  (split; [reflexivity | split; [exact Hf | reflexivity]]).

Lemma respects_print (l : Line) : respects (print l).
Proof. world_only. Qed.

Lemma respects_sleep (d : Z) : respects (sleep d).
Proof. world_only. Qed.

Lemma respects_timestamp : respects timestamp.
Proof. world_only. Qed.

Lemma respects_uuid4_str : respects uuid4_str.
Proof. world_only. Qed.

Lemma respects_websockets_connect (u : string) : respects (websockets_connect u).
Proof. unfold websockets_connect. world_only. Qed.

Lemma respects_ws_send (h : nat) (text : WireText) : respects (ws_send h text).
Proof. unfold ws_send. world_only. Qed.

Lemma respects_ws_recv (h : nat) (timeout : option Duration) :
  respects (ws_recv h timeout).
Proof. unfold ws_recv. world_only. Qed.

Lemma respects_ws_close (h : nat) : respects (ws_close h).
Proof. unfold ws_close. world_only. Qed.

Lemma respects_set_websocket (ws : option nat) : respects (set_self (set_websocket ws)).
Proof.
  apply respects_set_self. intros c c' [= U T W A]. unfold forget. cbn. congruence.
Qed.

Lemma respects_set_authenticated (b : bool) :
  respects (set_self (set_authenticated b)).
Proof.
  apply respects_set_self. intros c c' [= U T W A]. unfold forget. cbn. congruence.
Qed.

Lemma respects_set_reconnect_count (n : Z) :
  respects (set_self (set_reconnect_count n)).
Proof.
  apply respects_set_self. intros c c' [= U T W A]. unfold forget. cbn. congruence.
Qed.

Create HintDb respects.
#[local] Hint Resolve respects_ret respects_raise respects_lift respects_print
  respects_sleep respects_timestamp respects_uuid4_str
  respects_websockets_connect respects_ws_send respects_ws_recv
  respects_ws_close respects_set_websocket respects_set_authenticated
  respects_set_reconnect_count : respects.

Ltac respects_step :=
  first
    [ apply respects_bind; [|intros ?]
    | apply respects_try_except; [|intros ?]
    | match goal with
      | |- respects (if ?b then _ else _) => destruct b
      | |- respects (match ?x with _ => _ end) => destruct x
      end ].

Ltac respects_auto := repeat (first [solve [auto with respects] | respects_step]).

(** After [get_self]: replace what is read off one client by what is read
    off the other, and go on with one and the same computation. *)
Ltac read_fields :=
  let c := fresh "c" in
  let c' := fresh "c'" in
  let m := fresh "m" in
  let m' := fresh "m'" in
  let Hc := fresh "Hc" in
  apply respects_get_self_bind; intros c c' m m' Hc;
  assert (url c = url c') by (injection Hc; auto);
  assert (auth_token c = auth_token c') by (injection Hc; auto);
  assert (websocket c = websocket c') by (injection Hc; auto);
  unfold has_token, token_json;
  repeat match goal with H : _ c = _ c' |- _ => rewrite H; clear H end;
  revert m m';
  match goal with
  | |- forall m m', same_session m m' ->
         fst (?k m) = fst (?k m') /\ _ => change (respects k)
  end.

Lemma respects_send_message (message : JSON) : respects (send_message message).
Proof. unfold send_message. read_fields. respects_auto. Qed.

Lemma respects_receive_message (timeout : option Duration) :
  respects (receive_message timeout).
Proof. unfold receive_message. read_fields. respects_auto. Qed.

#[local] Hint Resolve respects_send_message respects_receive_message : respects.

Lemma respects_authenticate : respects authenticate.
Proof. unfold authenticate, and_type_is. read_fields. respects_auto. Qed.

#[local] Hint Resolve respects_authenticate : respects.

Lemma respects_connect : respects connect.
Proof. unfold connect. read_fields. respects_auto. Qed.

Lemma respects_execute_query sql params streaming :
  respects (execute_query sql params streaming).
Proof. unfold execute_query. respects_auto. Qed.

Lemma respects_ping : respects ping.
Proof. unfold ping. respects_auto. Qed.

Lemma respects_close : respects close.
Proof. unfold close. read_fields. respects_auto. Qed.

(** X16. [auto_reconnect], [max_reconnect_attempts] and [reconnect_count]
    are never read. Two clients that differ only in these three fields
    cannot be told apart by any method: [connect], [authenticate],
    [send_message], [receive_message], [execute_query], [ping] and [close]
    end with the same result or exception on both, have the same effect on
    the connection and the terminal, and leave the clients differing only
    in these fields again. *)
Theorem reconnect_settings_are_never_read (m m' : Machine) :
  same_session m m' ->
  (fst (connect m) = fst (connect m')
   /\ same_session (snd (connect m)) (snd (connect m')))
  /\ (fst (authenticate m) = fst (authenticate m')
      /\ same_session (snd (authenticate m)) (snd (authenticate m')))
  /\ (forall message,
        fst (send_message message m) = fst (send_message message m')
        /\ same_session (snd (send_message message m))
             (snd (send_message message m')))
  /\ (forall timeout,
        fst (receive_message timeout m) = fst (receive_message timeout m')
        /\ same_session (snd (receive_message timeout m))
             (snd (receive_message timeout m')))
  /\ (forall sql params streaming,
        fst (execute_query sql params streaming m)
        = fst (execute_query sql params streaming m')
        /\ same_session (snd (execute_query sql params streaming m))
             (snd (execute_query sql params streaming m')))
  /\ (fst (ping m) = fst (ping m')
      /\ same_session (snd (ping m)) (snd (ping m')))
  /\ (fst (close m) = fst (close m')
      /\ same_session (snd (close m)) (snd (close m'))).
Proof.
  intros H.
  repeat match goal with |- _ /\ _ => split end; intros;
    first [ apply respects_connect | apply respects_authenticate
          | apply respects_send_message | apply respects_receive_message
          | apply respects_execute_query | apply respects_ping
          | apply respects_close ]; exact H.
Qed.

(** The same, for a client constructed with [auto_reconnect=False] and no
    attempts allowed, against the default one: [connect()] fails on both,
    once, and nothing is retried. *)
Lemma reconnect_settings_are_never_read_witness :
  fst (connect {| self := reconfigured false 0 7 default_client;
                  world := quiet_world |})
  = fst (connect {| self := default_client; world := quiet_world |}).
Proof.
  exact (proj1 (proj1 (reconnect_settings_are_never_read
                         {| self := reconfigured false 0 7 default_client;
                            world := quiet_world |}
                         {| self := default_client; world := quiet_world |}
                         (conj eq_refl eq_refl)))).
Defined.
